(** * Compile Session Controller: a shallow embedding of the browser front end

    The repository is the browser side of a small compiler playground.  Two
    scripts drive it: the CodeMirror based controller (the file with the
    marker registry, the diagnostic highlighting and the bytecode
    highlighter) and the older textarea based [script.js].  Both are embedded
    below as state-passing functions over an explicit record of the DOM
    elements, the editor, the marker registry and a log of the network
    requests issued.

    Conventions.
    - A JavaScript string is a Rocq [string] holding its UTF-8 bytes.  Every
      pattern of the source is ASCII, and an ASCII byte never occurs inside a
      multi-byte UTF-8 sequence, so matching on bytes and matching on UTF-16
      code units find the same matches.
    - A number read from an error text is a double holding an integer: it
      is kept as that integer, as an infinity or as [NaN], and arithmetic on
      it rounds as doubles do.
    - An [async] function is split at its suspension point: the part that
      runs synchronously up to [await fetch(..)], and the continuation that
      runs once the response has been read. *)

From Stdlib Require Import ZArith List String Ascii Bool Lia.
From Stdlib Require Import DecimalString.
Import ListNotations.

Set Warnings "-register-all".

Local Open Scope string_scope.
Local Open Scope Z_scope.

(** ** JavaScript strings and values *)

Module Js.

(** The double quote and the line feed, which string literals of this file
    do not spell out. *)
Definition dquote : ascii := "034"%char.
Definition newline : ascii := "010"%char.
Definition quoted (s : string) : string :=
  String dquote (s ++ String dquote EmptyString).

Definition is_digit (c : ascii) : bool :=
  let n := nat_of_ascii c in (48 <=? n)%nat && (n <=? 57)%nat.

(** [\w] of a regular expression: letters, digits and the underscore. *)
Definition is_word_char (c : ascii) : bool :=
  let n := nat_of_ascii c in
  ((48 <=? n) && (n <=? 57) || (65 <=? n) && (n <=? 90)
   || (97 <=? n) && (n <=? 122) || (n =? 95))%nat.

(** [s.startsWith(p)], returning what follows the prefix. *)
Fixpoint strip_prefix (p s : string) : option string :=
  match p, s with
  | EmptyString, _ => Some s
  | String a p', String b s' =>
      if Ascii.eqb a b then strip_prefix p' s' else None
  | String _ _, EmptyString => None
  end.

(** The longest prefix of characters satisfying [f], and the rest. *)
Fixpoint span (f : ascii -> bool) (s : string) : string * string :=
  match s with
  | EmptyString => (EmptyString, EmptyString)
  | String c rest =>
      if f c then let (run, tl) := span f rest in (String c run, tl)
      else (EmptyString, s)
  end.

Fixpoint rev_onto (s acc : string) : string :=
  match s with
  | EmptyString => acc
  | String c rest => rev_onto rest (String c acc)
  end.
Definition rev (s : string) : string := rev_onto s EmptyString.

(** *** White space

    [String.prototype.trim] removes WhiteSpace and LineTerminator code
    points: TAB, LF, VT, FF, CR, SP, NBSP (U+00A0), U+1680, U+2000..U+200A,
    U+2028, U+2029, U+202F, U+205F, U+3000 and U+FEFF.  In UTF-8 these are
    one, two or three bytes long. *)
Definition ws1 (a : ascii) : bool :=
  let n := nat_of_ascii a in
  ((9 <=? n) && (n <=? 13) || (n =? 32))%nat.

Definition ws2 (a b : ascii) : bool :=
  ((nat_of_ascii a =? 194) && (nat_of_ascii b =? 160))%nat.

Definition ws3 (a b c : ascii) : bool :=
  let x := nat_of_ascii a in
  let y := nat_of_ascii b in
  let z := nat_of_ascii c in
  ((x =? 225) && (y =? 154) && (z =? 128)
   || (x =? 226) && (y =? 128)
      && ((128 <=? z) && (z <=? 138) || (z =? 168) || (z =? 169) || (z =? 175))
   || (x =? 226) && (y =? 129) && (z =? 159)
   || (x =? 227) && (y =? 128) && (z =? 128)
   || (x =? 239) && (y =? 187) && (z =? 191))%nat.

(** [s.trimStart()]. *)
Fixpoint trimStart (s : string) : string :=
  match s with
  | EmptyString => EmptyString
  | String a s1 =>
      if ws1 a then trimStart s1
      else
        match s1 with
        | EmptyString => s
        | String b s2 =>
            if ws2 a b then trimStart s2
            else
              match s2 with
              | EmptyString => s
              | String c s3 => if ws3 a b c then trimStart s3 else s
              end
        end
  end.

(** The same scan over the reversed text; the bytes of a multi-byte
    white space arrive last byte first. *)
Fixpoint trimStart_rev (s : string) : string :=
  match s with
  | EmptyString => EmptyString
  | String c s1 =>
      if ws1 c then trimStart_rev s1
      else
        match s1 with
        | EmptyString => s
        | String b s2 =>
            if ws2 b c then trimStart_rev s2
            else
              match s2 with
              | EmptyString => s
              | String a s3 => if ws3 a b c then trimStart_rev s3 else s
              end
        end
  end.

Definition trimEnd (s : string) : string := rev (trimStart_rev (rev s)).

(** [s.trim()]. *)
Definition trim (s : string) : string := trimEnd (trimStart s).

(** [s.length]: the number of UTF-16 code units of a text, counted on its
    UTF-8 bytes.  A byte that continues a sequence counts for nothing, the
    first byte of a four-byte sequence (a character outside the basic
    plane, two code units) for two, and any other byte for one. *)
Fixpoint code_units (s : string) : nat :=
  match s with
  | EmptyString => O
  | String c rest =>
      let n := nat_of_ascii c in
      (if (128 <=? n) && (n <=? 191) then 0
       else if 240 <=? n then 2
       else 1)%nat + code_units rest
  end.

(** *** Numbers read from text *)

Definition digit_value (c : ascii) : Z := Z.of_nat (nat_of_ascii c) - 48.

(** The integer a run of decimal digits spells, before it is made a
    double. *)
Fixpoint digits_value (acc : Z) (s : string) : Z :=
  match s with
  | EmptyString => acc
  | String c rest => digits_value (10 * acc + digit_value c) rest
  end.

(** A number of the script is a double.  The numbers met here are integers,
    so a double is kept as the integer it holds, as an infinity, or as
    [NaN].  An integer below 2^53 in absolute value is a double as it is; a
    larger one is rounded to the nearest integer with 53 significant bits,
    to the even one of two equally near, and to an infinity once that
    reaches 2^1024. *)
Inductive number : Type :=
| NaN
| Num (z : Z)
| PosInf
| NegInf.

(** The double nearest to a non-negative integer; [None] is the infinity. *)
Definition round_nat (n : Z) : option Z :=
  if n <? 2 ^ 53 then Some n
  else
    let e := Z.log2 n - 52 in
    let q := Z.shiftr n e in
    let r := n - Z.shiftl q e in
    let half := Z.shiftl 1 (e - 1) in
    let q' := if (half <? r) || ((r =? half) && Z.odd q) then q + 1 else q in
    let v := Z.shiftl q' e in
    if 2 ^ 1024 <=? v then None else Some v.

(** The Number value of a mathematical integer. *)
Definition to_number (z : Z) : number :=
  if z <? 0 then
    match round_nat (- z) with
    | Some v => Num (- v)
    | None => NegInf
    end
  else
    match round_nat z with
    | Some v => Num v
    | None => PosInf
    end.

(** [parseInt(s, 10)]: leading white space, an optional sign, then the
    longest run of decimal digits; [NaN] when that run is empty, and
    otherwise the Number value of the integer the digits spell (every
    digit counts, as in V8; the language lets an implementation stop
    counting after the twentieth). *)
Definition parseInt (s : string) : number :=
  let s := trimStart s in
  let (negative, body) :=
    match s with
    | String "-" rest => (true, rest)
    | String "+" rest => (false, rest)
    | _ => (false, s)
    end in
  match fst (span is_digit body) with
  | EmptyString => NaN
  | ds => to_number (if negative then - digits_value 0 ds else digits_value 0 ds)
  end.

(** [x - 1] and [x + 1]. *)
Definition minus_one (x : number) : number :=
  match x with
  | Num z => to_number (z - 1)
  | _ => x
  end.

Definition plus_one (x : number) : number :=
  match x with
  | Num z => to_number (z + 1)
  | _ => x
  end.

(** [isNaN(x)]. *)
Definition isNaN (x : number) : bool :=
  match x with NaN => true | _ => false end.

(** [n.toString()] of a non-negative array index. *)
Definition nat_toString (n : nat) : string :=
  NilEmpty.string_of_uint (Nat.to_uint n).

Fixpoint repeat_char (c : ascii) (n : nat) : string :=
  match n with
  | O => EmptyString
  | S k => String c (repeat_char c k)
  end.

(** [s.padStart(width, c)] with a one-character filler. *)
Definition padStart (width : nat) (c : ascii) (s : string) : string :=
  repeat_char c (width - String.length s) ++ s.

(** *** Numbers written as text

    [String(x)] on an integer-valued double.  Below 2^53 these are the
    decimal digits.  Above, they are the digits of the shortest decimal
    that still reads back as the same double (the nearest to it of two
    equally short ones, the even one of two equally near), followed by
    zeros up to 21 digits and written with an exponent beyond. *)
Definition digits_of (v : Z) : string := NilEmpty.string_of_int (Z.to_int v).

Definition reads_back (s p v : Z) : bool :=
  match round_nat (s * 10 ^ p) with
  | Some w => w =? v
  | None => false
  end.

(** The shortest digits [s] and their number [k] for a double [v] of [n]
    digits, trying [k], [k + 1], ... *)
Fixpoint shortest (fuel : nat) (k n v : Z) : Z * Z :=
  match fuel with
  | O => (v, n)
  | S fuel' =>
      let p := n - k in
      let lo := v / 10 ^ p in
      let hi := lo + 1 in
      let fits s := (10 ^ (k - 1) <=? s) && (s <? 10 ^ k) && reads_back s p v in
      match fits lo, fits hi with
      | true, true =>
          let below := v - lo * 10 ^ p in
          let above := hi * 10 ^ p - v in
          if below <? above then (lo, k)
          else if above <? below then (hi, k)
          else if Z.even lo then (lo, k) else (hi, k)
      | true, false => (lo, k)
      | false, true => (hi, k)
      | false, false => shortest fuel' (k + 1) n v
      end
  end.

Definition positive_text (v : Z) : string :=
  if v <? 2 ^ 53 then digits_of v
  else
    let n := Z.of_nat (String.length (digits_of v)) in
    let (s, k) := shortest (Z.to_nat n) 1 n v in
    let ds := digits_of s in
    if n <=? 21 then ds ++ repeat_char "0" (Z.to_nat (n - k))
    else
      match ds with
      | String d EmptyString => String d ("e+" ++ digits_of (n - 1))
      | String d more => String d ("." ++ more ++ "e+" ++ digits_of (n - 1))
      | EmptyString => EmptyString
      end.

Definition number_text (x : number) : string :=
  match x with
  | NaN => "NaN"
  | PosInf => "Infinity"
  | NegInf => "-Infinity"
  | Num z => if z <? 0 then "-" ++ positive_text (- z) else positive_text z
  end.

(** *** Values decoded from a JSON body

    A number is a double; it is kept as what the controller can observe of
    it: whether it is falsy (zero, or [NaN]) and its [ToString] text. *)
Record jsnum : Type := mk_jsnum { num_falsy : bool; num_text : string }.

Definition num_of_Z (z : Z) : jsnum :=
  {| num_falsy := z =? 0;
     num_text := NilEmpty.string_of_int (Z.to_int z) |}.

Inductive jsval : Type :=
| JUndefined
| JNull
| JBool (b : bool)
| JNum (n : jsnum)
| JStr (s : string)
| JArr (items : list jsval)
| JObj (fields : list (string * jsval)).

(** ToBoolean. *)
Definition truthy (v : jsval) : bool :=
  match v with
  | JUndefined | JNull => false
  | JBool b => b
  | JNum n => negb (num_falsy n)
  | JStr s => negb (String.eqb s EmptyString)
  | JArr _ | JObj _ => true
  end.

Fixpoint own_property (key : string) (fields : list (string * jsval))
  : option jsval :=
  match fields with
  | [] => None
  | (k, v) :: rest =>
      if String.eqb k key then Some v else own_property key rest
  end.

(** A thrown exception, by its [message].  The texts of engine-raised
    [TypeError]s are those of V8; no property below depends on them. *)
Inductive completion (A : Type) : Type :=
| Normal (a : A)
| Throw (message : string).
Arguments Normal {A} a.
Arguments Throw {A} message.

(** [v.key] for one of the keys the controller reads ([error], [result],
    [bytecode]): none of them is on a prototype, so only an own property
    of an object answers; reading a property of [null] or [undefined]
    throws. *)
Definition get (v : jsval) (key : string) : completion jsval :=
  match v with
  | JUndefined =>
      Throw ("Cannot read properties of undefined (reading '" ++ key ++ "')")
  | JNull =>
      Throw ("Cannot read properties of null (reading '" ++ key ++ "')")
  | JObj fields =>
      Normal (match own_property key fields with
              | Some x => x
              | None => JUndefined
              end)
  | _ => Normal JUndefined
  end.

Definition cannot_convert : string := "Cannot convert object to primitive value".

(** ToString.  An array joins its elements with commas, [null] and
    [undefined] elements contributing nothing; a plain object prints as
    [[object Object]], unless the JSON gave it an own [toString], which is
    then not callable and makes the conversion throw. *)
Fixpoint toString (v : jsval) : completion string :=
  match v with
  | JUndefined => Normal "undefined"
  | JNull => Normal "null"
  | JBool true => Normal "true"
  | JBool false => Normal "false"
  | JNum n => Normal (num_text n)
  | JStr s => Normal s
  | JArr items =>
      (fix join (first : bool) (l : list jsval) : completion string :=
         match l with
         | [] => Normal EmptyString
         | x :: rest =>
             let piece :=
               match x with
               | JUndefined | JNull => Normal EmptyString
               | _ => toString x
               end in
             match piece with
             | Throw m => Throw m
             | Normal p =>
                 match join false rest with
                 | Throw m => Throw m
                 | Normal r =>
                     Normal ((if first then p else "," ++ p) ++ r)
                 end
             end
         end) true items
  | JObj fields =>
      match own_property "toString" fields with
      | Some _ => Throw cannot_convert
      | None => Normal "[object Object]"
      end
  end.

(** [items.join(sep)]. *)
Fixpoint join (sep : string) (first : bool) (items : list jsval)
  : completion string :=
  match items with
  | [] => Normal EmptyString
  | x :: rest =>
      let piece :=
        match x with
        | JUndefined | JNull => Normal EmptyString
        | _ => toString x
        end in
      match piece with
      | Throw m => Throw m
      | Normal p =>
          match join sep false rest with
          | Throw m => Throw m
          | Normal r => Normal ((if first then p else sep ++ p) ++ r)
          end
      end
  end.

End Js.


(** ** The regular expressions of the controller

    Each pattern is written as a function that tries to match at the head of
    the text and answers with the capture groups and the number of characters
    matched.  None of the patterns can match the empty string. *)

Module Regex.

Record found : Type := mk_found { groups : list string; matched : nat }.

Definition group (n : nat) (f : found) : string := nth n (groups f) EmptyString.

Definition pattern : Type := string -> option found.

(** [text.match(re)] for a pattern without the [g] flag: the match at the
    leftmost position that has one. *)
Fixpoint search (re : pattern) (text : string) : option found :=
  match re text with
  | Some f => Some f
  | None =>
      match text with
      | EmptyString => None
      | String _ rest => search re rest
      end
  end.

(** [text.replace(re, template)] for a pattern with the [g] flag: scan from
    the left; at a match emit the template and go on after the match, else
    copy one character.  [skip] counts the characters of the current match
    still to be passed over. *)
Fixpoint replace_from (re : pattern) (template : found -> string)
  (skip : nat) (text : string) : string :=
  match text with
  | EmptyString => EmptyString
  | String c rest =>
      match skip with
      | S k => replace_from re template k rest
      | O =>
          match re text with
          | Some f => template f ++ replace_from re template (pred (matched f)) rest
          | None => String c (replace_from re template O rest)
          end
      end
  end.

Definition replace (re : pattern) (template : found -> string) (text : string)
  : string :=
  replace_from re template O text.

Definition is_not (x : ascii) (c : ascii) : bool := negb (Ascii.eqb c x).

Definition nonempty (s : string) : bool :=
  match s with EmptyString => false | String _ _ => true end.

(** [/at (\d+):(\d+)/] *)
Definition at_line_col : pattern := fun text =>
  match Js.strip_prefix "at " text with
  | None => None
  | Some rest =>
      let (line, tl) := Js.span Js.is_digit rest in
      match Js.strip_prefix ":" tl with
      | None => None
      | Some tl' =>
          let (col, _) := Js.span Js.is_digit tl' in
          if nonempty line && nonempty col
          then Some {| groups := [line; col];
                       matched := 3 + String.length line + 1 + String.length col |}
          else None
      end
  end.

(** [/Push\(([^)]+)\)/] *)
Definition push_value : pattern := fun text =>
  match Js.strip_prefix "Push(" text with
  | None => None
  | Some rest =>
      let (value, tl) := Js.span (is_not ")") rest in
      match Js.strip_prefix ")" tl with
      | None => None
      | Some _ =>
          if nonempty value
          then Some {| groups := [value]; matched := 5 + String.length value + 1 |}
          else None
      end
  end.

Definition operator_names : list string :=
  ["Add"; "Subtract"; "Multiply"; "Divide"; "Negate"].

(** The first alternative, in the order written, that the text starts with. *)
Fixpoint first_alternative (alts : list string) (text : string)
  : option (string * string) :=
  match alts with
  | [] => None
  | a :: more =>
      match Js.strip_prefix a text with
      | Some rest => Some (a, rest)
      | None => first_alternative more text
      end
  end.

(** [/(Add|Subtract|Multiply|Divide|Negate)/] *)
Definition operator : pattern := fun text =>
  match first_alternative operator_names text with
  | Some (name, _) => Some {| groups := [name]; matched := String.length name |}
  | None => None
  end.

(** What may follow the keyword of a jump: [\((\d+)\)]. *)
Definition jump_argument (keyword rest : string) : option found :=
  match Js.strip_prefix "(" rest with
  | None => None
  | Some tl =>
      let (target, tl') := Js.span Js.is_digit tl in
      match Js.strip_prefix ")" tl' with
      | None => None
      | Some _ =>
          if nonempty target
          then Some {| groups := [keyword; target];
                       matched := String.length keyword + 1
                                  + String.length target + 1 |}
          else None
      end
  end.

(** [/(Jump|JumpIfFalse)\((\d+)\)/]: when the text after [Jump] is not a
    parenthesised number the second alternative is tried from the same
    position. *)
Definition jump : pattern := fun text =>
  let try_keyword (keyword : string) :=
    match Js.strip_prefix keyword text with
    | None => None
    | Some rest => jump_argument keyword rest
    end in
  match try_keyword "Jump" with
  | Some f => Some f
  | None => try_keyword "JumpIfFalse"
  end.

(** What may follow [Load] or [Store]: the word [Variable], an opening
    parenthesis, a double quote, one or more characters other than a double
    quote, a double quote and a closing parenthesis. *)
Definition variable_argument (keyword rest : string) : option found :=
  match Js.strip_prefix ("Variable(" ++ String Js.dquote EmptyString) rest with
  | None => None
  | Some tl =>
      let (name, tl') := Js.span (is_not Js.dquote) tl in
      match Js.strip_prefix (String Js.dquote ")") tl' with
      | None => None
      | Some _ =>
          if nonempty name
          then Some {| groups := [keyword; name];
                       matched := String.length keyword + 10
                                  + String.length name + 2 |}
          else None
      end
  end.

(** The pattern of variable accesses: [Load] or [Store] (group 1) followed
    by the quoted name (group 2) as above. *)
Definition variable : pattern := fun text =>
  let try_keyword (keyword : string) :=
    match Js.strip_prefix keyword text with
    | None => None
    | Some rest => variable_argument keyword rest
    end in
  match try_keyword "Load" with
  | Some f => Some f
  | None => try_keyword "Store"
  end.

End Regex.

(** ** The bytecode highlighter *)

Module Highlight.

(** A [span] element of class [cls] around [body]. *)
Definition span_of (cls body : string) : string :=
  "<span class=" ++ Js.quoted cls ++ ">" ++ body ++ "</span>".

Definition push_template (f : Regex.found) : string :=
  "Push(" ++ span_of "bytecode-value" (Regex.group 0 f) ++ ")".

Definition operator_template (f : Regex.found) : string :=
  span_of "bytecode-op" (Regex.group 0 f).

Definition jump_template (f : Regex.found) : string :=
  span_of "bytecode-flow" (Regex.group 0 f)
  ++ "(" ++ span_of "bytecode-number" (Regex.group 1 f) ++ ")".

Definition variable_template (f : Regex.found) : string :=
  span_of "bytecode-var" (Regex.group 0 f ++ "Variable")
  ++ "(" ++ Js.quoted (Regex.group 1 f) ++ ")".

(** The four [.replace] calls of [highlightBytecode], one by one. *)
Definition replace_push : string -> string :=
  Regex.replace Regex.push_value push_template.
Definition replace_operators : string -> string :=
  Regex.replace Regex.operator operator_template.
Definition replace_jumps : string -> string :=
  Regex.replace Regex.jump jump_template.
Definition replace_variables : string -> string :=
  Regex.replace Regex.variable variable_template.

Definition highlightBytecode (instruction : string) : string :=
  replace_variables (replace_jumps (replace_operators (replace_push instruction))).

(** [highlightBytecode(line)] as [formatBytecode] calls it on an element of
    the decoded array: only a string has a [replace] method. *)
Definition highlight_element (line : Js.jsval) : Js.completion string :=
  match line with
  | Js.JStr s => Js.Normal (highlightBytecode s)
  | Js.JNull => Js.Throw "Cannot read properties of null (reading 'replace')"
  | Js.JUndefined =>
      Js.Throw "Cannot read properties of undefined (reading 'replace')"
  | _ => Js.Throw "instruction.replace is not a function"
  end.

Definition bytecode_line (index : nat) (highlighted : string) : string :=
  "<div class=" ++ Js.quoted "bytecode-line" ++ ">"
  ++ String Js.newline "        "
  ++ span_of "bytecode-index" (Js.padStart 2 "0" (Js.nat_toString index))
  ++ String Js.newline "        "
  ++ highlighted
  ++ String Js.newline "      </div>".

(** [bytecode.map((line, index) => ..)] joined with the empty separator,
    left to right; the first element that throws ends the call. *)
Fixpoint map_lines (index : nat) (lines : list Js.jsval)
  : Js.completion string :=
  match lines with
  | [] => Js.Normal EmptyString
  | line :: rest =>
      match highlight_element line with
      | Js.Throw m => Js.Throw m
      | Js.Normal h =>
          match map_lines (S index) rest with
          | Js.Throw m => Js.Throw m
          | Js.Normal r => Js.Normal (bytecode_line index h ++ r)
          end
      end
  end.

Definition no_bytecode : string := "<em>No bytecode generated</em>".
Definition not_a_function : string := "bytecode.map is not a function".

(** [bytecode.length === 0] on a truthy value: an empty array, or an object
    whose own [length] is the number zero (a number decoded from JSON is
    never [NaN], so a falsy one is zero). *)
Definition length_is_zero (bytecode : Js.jsval) : bool :=
  match bytecode with
  | Js.JArr [] => true
  | Js.JObj fields =>
      match Js.own_property "length" fields with
      | Some (Js.JNum n) => Js.num_falsy n
      | _ => false
      end
  | _ => false
  end.

Definition formatBytecode (bytecode : Js.jsval) : Js.completion string :=
  if negb (Js.truthy bytecode) || length_is_zero bytecode then Js.Normal no_bytecode
  else
    match bytecode with
    | Js.JArr lines => map_lines 0 lines
    | _ => Js.Throw not_a_function
    end.

End Highlight.

(** ** The editing surface *)

Module Editor.

(** A handle as the registry stores it: [addLineClass] answers with the
    line's handle, which has no [clear] method; [markText] answers with a
    text marker, which has one. *)
Inductive marker : Type :=
| LineHandle (line : Z)
| TextMarker (id : nat).

(** A position as a caller hands it over: any two numbers. *)
Record position : Type := mk_position { pos_line : Js.number; pos_ch : Js.number }.

(** A position inside the text: a line and an offset into it. *)
Record place : Type := mk_place { place_line : Z; place_ch : Z }.

(** Modelled from the spec: the editing surface is the CodeMirror widget
    (release 5.65.2, named by the page), loaded from a CDN and absent from
    the repository.  The spec lists what the controller uses of it
    (section 6): reading and setting the text, line-background classing,
    point-range marking with removable handles and scroll-to-position.
    What the widget does with a position outside the text is the widget's
    own: it clips a line number and a mark to the text, keeps no mark over
    an empty range, and fails to scroll to a line it does not have.

    The record keeps the text, its line breaks being line feeds; the lines
    that carry the [error-line] background class; the live text marks with
    the range each covers; a counter that names fresh text markers; the
    place last scrolled to; and whether the text ends above the lower edge
    of what the editor shows, which depends on the size of the window and
    on how far the user has scrolled, not on the scripts.

    A line handle is held by the number of its line.  An edit that moves a
    classed line to another number is outside this model. *)
Record t : Type := mk_editor {
  value : string;
  line_classes : list Z;
  text_marks : list (nat * (place * place));
  next_id : nat;
  scrolled_to : option place;
  end_in_view : bool
}.

Definition carriage_return : ascii := "013"%char.

(** The text as the widget keeps it: a carriage return, with the line feed
    that may follow it, is one line break, and [getValue] writes every line
    break as a line feed. *)
Fixpoint normalise (s : string) : string :=
  match s with
  | EmptyString => EmptyString
  | String c rest =>
      if Ascii.eqb c carriage_return then
        String Js.newline
          (match rest with
           | String d rest' =>
               if Ascii.eqb d Js.newline then normalise rest' else normalise rest
           | EmptyString => EmptyString
           end)
      else String c (normalise rest)
  end.

(** The lines of a text: what stands between its line feeds. *)
Fixpoint lines_of (s : string) : list string :=
  match s with
  | EmptyString => [EmptyString]
  | String c rest =>
      if Ascii.eqb c Js.newline then EmptyString :: lines_of rest
      else
        match lines_of rest with
        | first :: others => String c first :: others
        | [] => [String c EmptyString]
        end
  end.

(** [editor.lastLine()] and the length of a line. *)
Definition lastLine (e : t) : Z := Z.of_nat (List.length (lines_of (value e))) - 1.

Definition lineLength (e : t) (l : Z) : Z :=
  Z.of_nat (Js.code_units (nth (Z.to_nat l) (lines_of (value e)) EmptyString)).

Definition end_of_text (e : t) : place :=
  mk_place (lastLine e) (lineLength e (lastLine e)).

Definition getValue (e : t) : string := value e.

(** [editor.setValue(text)]: the whole text is replaced by new lines, and
    with the old lines go their classes and the marks inside them; the
    editor is scrolled back to the top. *)
Definition setValue (text : string) (e : t) : t :=
  {| value := normalise text; line_classes := []; text_marks := [];
     next_id := next_id e; scrolled_to := Some (mk_place 0 0);
     end_in_view := end_in_view e |}.

(** The user edits the text.  Which annotations survive depends on what
    was typed where; [keep_line] and [keep_mark] say which do, and those
    stay where they are.  Nothing stays on a line the new text does not
    have. *)
Definition edit (text : string) (keep_line : Z -> bool) (keep_mark : nat -> bool)
  (e : t) : t :=
  let last := Z.of_nat (List.length (lines_of (normalise text))) - 1 in
  {| value := normalise text;
     line_classes :=
       filter (fun l => keep_line l && (l <=? last)) (line_classes e);
     text_marks :=
       filter (fun m => keep_mark (fst m)
                        && (place_line (snd (snd m)) <=? last))
         (text_marks e);
     next_id := next_id e; scrolled_to := scrolled_to e;
     end_in_view := end_in_view e |}.

(** The window is resized or the user scrolls. *)
Definition view (shown : bool) (e : t) : t :=
  {| value := value e; line_classes := line_classes e;
     text_marks := text_marks e; next_id := next_id e;
     scrolled_to := scrolled_to e; end_in_view := shown |}.

Fixpoint mem_line (l : Z) (ls : list Z) : bool :=
  match ls with
  | [] => false
  | x :: rest => (x =? l) || mem_line l rest
  end.

(** What the widget throws when asked for a line it does not have, and
    when the line number is [NaN] (the text of the latter is V8's). *)
Definition no_line (n : Js.number) : string :=
  "There is no line " ++ Js.number_text n ++ " in the document.".

Definition no_chunk : string :=
  "Cannot read properties of undefined (reading 'chunkSize')".

(** A line number clipped to the text; there is none for [NaN]. *)
Definition clipLine (e : t) (n : Js.number) : option Z :=
  match n with
  | Js.NaN => None
  | Js.Num z => Some (Z.max 0 (Z.min z (lastLine e)))
  | Js.PosInf => Some (lastLine e)
  | Js.NegInf => Some 0
  end.

(** [editor.addLineClass(line, background, error-line)]: the line number is
    clipped to the text, that line gets the class unless it has it already,
    and its handle is the result.  With [NaN] the lookup of the line
    throws. *)
Definition addLineClass (line : Js.number) (e : t) : Js.completion (marker * t) :=
  match clipLine e line with
  | None => Js.Throw no_chunk
  | Some l =>
      Js.Normal
        (LineHandle l,
         {| value := value e;
            line_classes :=
              if mem_line l (line_classes e) then line_classes e
              else line_classes e ++ [l];
            text_marks := text_marks e; next_id := next_id e;
            scrolled_to := scrolled_to e; end_in_view := end_in_view e |})
  end.

(** [editor.removeLineClass(handle, background, error-line)]. *)
Definition removeLineClass (l : Z) (e : t) : t :=
  {| value := value e;
     line_classes := filter (fun x => negb (x =? l)) (line_classes e);
     text_marks := text_marks e; next_id := next_id e;
     scrolled_to := scrolled_to e; end_in_view := end_in_view e |}.

(** An offset clipped to a line of length [len]; there is none for [NaN],
    which the widget leaves as it is. *)
Definition clip_ch (len : Z) (c : Js.number) : option Z :=
  match c with
  | Js.NaN => None
  | Js.Num z => Some (if len <? z then len else if z <? 0 then 0 else z)
  | Js.PosInf => Some len
  | Js.NegInf => Some 0
  end.

(** A position clipped to the text: before the first line it is the start
    of the text, after the last line the end of the text, and on a line of
    the text the offset is clipped to the line. *)
Definition clipPos (e : t) (p : position) : Js.completion (option place) :=
  match pos_line p with
  | Js.NaN => Js.Throw no_chunk
  | Js.NegInf => Js.Normal (Some (mk_place 0 0))
  | Js.PosInf => Js.Normal (Some (end_of_text e))
  | Js.Num l =>
      if l <? 0 then Js.Normal (Some (mk_place 0 0))
      else if lastLine e <? l then Js.Normal (Some (end_of_text e))
      else Js.Normal (option_map (mk_place l) (clip_ch (lineLength e l) (pos_ch p)))
  end.

(** Whether one place lies before another. *)
Definition before (a b : place) : bool :=
  (place_line a <? place_line b)
  || ((place_line a =? place_line b) && (place_ch a <? place_ch b)).

(** [editor.markText(from, to, {className: error-highlight})]: both ends
    are clipped to the text.  A marker is answered with in every case; it
    marks something only when the clipped range is not empty (an offset
    that is [NaN], which the controller never passes, gives no range the
    record can hold). *)
Definition markText (from to : position) (e : t) : Js.completion (marker * t) :=
  match clipPos e from with
  | Js.Throw message => Js.Throw message
  | Js.Normal from' =>
      match clipPos e to with
      | Js.Throw message => Js.Throw message
      | Js.Normal to' =>
          let live :=
            match from', to' with
            | Some a, Some b => if before a b then [(next_id e, (a, b))] else []
            | _, _ => []
            end in
          Js.Normal
            (TextMarker (next_id e),
             {| value := value e; line_classes := line_classes e;
                text_marks := text_marks e ++ live;
                next_id := S (next_id e);
                scrolled_to := scrolled_to e; end_in_view := end_in_view e |})
      end
  end.

(** [mark.clear()]; clearing a mark that is gone does nothing. *)
Definition clearMark (id : nat) (e : t) : t :=
  {| value := value e; line_classes := line_classes e;
     text_marks := filter (fun m => negb (Nat.eqb (fst m) id)) (text_marks e);
     next_id := next_id e;
     scrolled_to := scrolled_to e; end_in_view := end_in_view e |}.

Definition scrolled (target : place) (e : t) : t :=
  {| value := value e; line_classes := line_classes e;
     text_marks := text_marks e; next_id := next_id e;
     scrolled_to := Some target; end_in_view := end_in_view e |}.

(** [editor.scrollIntoView({line, ch: 0}, margin)].  The widget first
    works out which lines to draw so that the asked line is among them, and
    looks that line up before it clips the position: a line before the
    first one is not found, and the call throws.  A line after the last one
    is looked up only when the text goes on below what is shown; when the
    text ends in sight, the position is clipped to the end of the text and
    scrolled to. *)
Definition scrollIntoView (line : Js.number) (e : t) : Js.completion (unit * t) :=
  match line with
  | Js.NaN => Js.Throw no_chunk
  | Js.NegInf => Js.Throw (no_line line)
  | Js.PosInf =>
      if end_in_view e then Js.Normal (tt, scrolled (end_of_text e) e)
      else Js.Throw (no_line line)
  | Js.Num l =>
      if l <? 0 then Js.Throw (no_line line)
      else if lastLine e <? l then
        if end_in_view e then Js.Normal (tt, scrolled (end_of_text e) e)
        else Js.Throw (no_line line)
      else Js.Normal (tt, scrolled (mk_place l 0) e)
  end.

(** The editor of the page once loaded: it takes the text of the textarea
    and starts at the top, here with the end of the text in sight (a
    [view] says otherwise). *)
Definition empty (text : string) : t :=
  {| value := normalise text; line_classes := []; text_marks := []; next_id := O;
     scrolled_to := None; end_in_view := true |}.

End Editor.

(** ** What both controllers share: requests and awaited outcomes *)

Module Net.

(** The arguments of one [fetch] call; [source] and [language] are the two
    fields of the object handed to [JSON.stringify]. *)
Record request : Type := mk_request {
  url : string;
  method : string;
  content_type : string;
  source : string;
  language : string
}.

(** How the two awaits of an attempt end: [fetch] or [response.json()]
    rejects with an error carrying a message, or the body decodes to a
    value.  Nothing of the page is touched between the two awaits, so they
    are settled in one step. *)
Inductive settled : Type :=
| Rejected (message : string)
| Json (data : Js.jsval).

(** Whether a call of an [async] function ran to its end or is parked at
    its [await]. *)
Inductive activation : Type :=
| Returned
| Awaiting.

End Net.

(** ** Statements that may throw: state passing with an exception *)

Module Stmt.

Definition M (S A : Type) : Type := S -> Js.completion A * S.

Definition ret {S A : Type} (a : A) : M S A := fun st => (Js.Normal a, st).

Definition throw {S A : Type} (message : string) : M S A :=
  fun st => (Js.Throw message, st).

Definition bind {S A B : Type} (m : M S A) (k : A -> M S B) : M S B :=
  fun st =>
    match m st with
    | (Js.Normal a, st') => k a st'
    | (Js.Throw message, st') => (Js.Throw message, st')
    end.

(** A statement that only changes the page. *)
Definition effect {S : Type} (f : S -> S) : M S unit :=
  fun st => (Js.Normal tt, f st).

(** An expression that reads nothing of the page. *)
Definition eval {S A : Type} (c : Js.completion A) : M S A := fun st => (c, st).

Notation "x <- m ;; k" := (bind m (fun x => k))
  (at level 61, m at next level, right associativity).
Notation "m ;;; k" := (bind m (fun _ => k))
  (at level 61, right associativity).

End Stmt.

(** ** The CodeMirror based controller (the script with the marker registry) *)

Module Controller.

Import Net Stmt.

(** What an output panel holds, by the property last assigned. *)
Inductive content : Type :=
| TextContent (text : string)
| InnerHTML (html : string).

(** Callbacks handed to [setTimeout]; they are recorded, not run. *)
Inductive timeout : Type :=
| ScrollErrorPanel
| RemoveResultHighlight.

(** The page as the controller sees it.  [editor] and [errorMarkers] are the
    two top-level variables of the script, the next six fields are the
    properties it assigns on the elements it looked up, [result_highlight]
    is the [result-highlight] class on the [.result-value] span,
    [timeouts] the scheduled callbacks, [network] the [fetch] calls issued so
    far, oldest first, and [pending] the number of [compile] calls parked at
    their [await]. *)
Record state : Type := mk_state {
  editor : Editor.t;
  errorMarkers : list Editor.marker;
  resultOutput : content;
  bytecodeOutput : content;
  errorPanel_display : string;
  errorContent : string;
  spinner_display : string;
  compileBtn_disabled : bool;
  result_highlight : bool;
  timeouts : list timeout;
  network : list request;
  pending : nat
}.

Definition set_editor (e : Editor.t) (st : state) : state :=
  mk_state e (errorMarkers st) (resultOutput st) (bytecodeOutput st)
    (errorPanel_display st) (errorContent st) (spinner_display st)
    (compileBtn_disabled st) (result_highlight st) (timeouts st)
    (network st) (pending st).

Definition set_errorMarkers (ms : list Editor.marker) (st : state) : state :=
  mk_state (editor st) ms (resultOutput st) (bytecodeOutput st)
    (errorPanel_display st) (errorContent st) (spinner_display st)
    (compileBtn_disabled st) (result_highlight st) (timeouts st)
    (network st) (pending st).

(** Assigning the content of the result panel replaces its children, the
    highlighted span among them. *)
Definition set_resultOutput (c : content) (st : state) : state :=
  mk_state (editor st) (errorMarkers st) c (bytecodeOutput st)
    (errorPanel_display st) (errorContent st) (spinner_display st)
    (compileBtn_disabled st) false (timeouts st)
    (network st) (pending st).

Definition set_bytecodeOutput (c : content) (st : state) : state :=
  mk_state (editor st) (errorMarkers st) (resultOutput st) c
    (errorPanel_display st) (errorContent st) (spinner_display st)
    (compileBtn_disabled st) (result_highlight st) (timeouts st)
    (network st) (pending st).

Definition set_errorPanel_display (d : string) (st : state) : state :=
  mk_state (editor st) (errorMarkers st) (resultOutput st) (bytecodeOutput st)
    d (errorContent st) (spinner_display st)
    (compileBtn_disabled st) (result_highlight st) (timeouts st)
    (network st) (pending st).

Definition set_errorContent (text : string) (st : state) : state :=
  mk_state (editor st) (errorMarkers st) (resultOutput st) (bytecodeOutput st)
    (errorPanel_display st) text (spinner_display st)
    (compileBtn_disabled st) (result_highlight st) (timeouts st)
    (network st) (pending st).

Definition set_spinner_display (d : string) (st : state) : state :=
  mk_state (editor st) (errorMarkers st) (resultOutput st) (bytecodeOutput st)
    (errorPanel_display st) (errorContent st) d
    (compileBtn_disabled st) (result_highlight st) (timeouts st)
    (network st) (pending st).

Definition set_compileBtn_disabled (b : bool) (st : state) : state :=
  mk_state (editor st) (errorMarkers st) (resultOutput st) (bytecodeOutput st)
    (errorPanel_display st) (errorContent st) (spinner_display st)
    b (result_highlight st) (timeouts st)
    (network st) (pending st).

Definition set_result_highlight (b : bool) (st : state) : state :=
  mk_state (editor st) (errorMarkers st) (resultOutput st) (bytecodeOutput st)
    (errorPanel_display st) (errorContent st) (spinner_display st)
    (compileBtn_disabled st) b (timeouts st)
    (network st) (pending st).

(** [setTimeout(callback, delay)]. *)
Definition setTimeout (cb : timeout) (st : state) : state :=
  mk_state (editor st) (errorMarkers st) (resultOutput st) (bytecodeOutput st)
    (errorPanel_display st) (errorContent st) (spinner_display st)
    (compileBtn_disabled st) (result_highlight st) (timeouts st ++ [cb])
    (network st) (pending st).

(** [await fetch(..)]: the request leaves and the caller is parked. *)
Definition fetch (r : request) (st : state) : state :=
  mk_state (editor st) (errorMarkers st) (resultOutput st) (bytecodeOutput st)
    (errorPanel_display st) (errorContent st) (spinner_display st)
    (compileBtn_disabled st) (result_highlight st) (timeouts st)
    (network st ++ [r]) (S (pending st)).

(** A parked call is woken up. *)
Definition wake (st : state) : state :=
  mk_state (editor st) (errorMarkers st) (resultOutput st) (bytecodeOutput st)
    (errorPanel_display st) (errorContent st) (spinner_display st)
    (compileBtn_disabled st) (result_highlight st) (timeouts st)
    (network st) (Nat.pred (pending st)).

(** *** The functions of the script *)

(** [showError(message)] with a string. *)
Definition showError (message : string) (st : state) : state :=
  let st := set_errorPanel_display "block" st in
  let st := set_errorContent message st in
  setTimeout ScrollErrorPanel st.

(** [showError(message)] with whatever the response carried: assigning
    [textContent] converts the value to a string, which may throw after the
    panel has been made visible. *)
Definition showError_value (message : Js.jsval) : M state unit :=
  effect (set_errorPanel_display "block") ;;;
  text <- eval (Js.toString message) ;;
  effect (set_errorContent text) ;;;
  effect (setTimeout ScrollErrorPanel).

Definition hideError (st : state) : state := set_errorPanel_display "none" st.

Definition setLoadingState (isLoading : bool) (st : state) : state :=
  if isLoading then
    let st := set_spinner_display "block" st in
    set_compileBtn_disabled true st
  else
    let st := set_spinner_display "none" st in
    set_compileBtn_disabled false st.

(** One turn of the [forEach] of [clearErrorMarkers]. *)
Definition clear_marker (m : Editor.marker) (e : Editor.t) : Editor.t :=
  match m with
  | Editor.TextMarker id => Editor.clearMark id e
  | Editor.LineHandle l => Editor.removeLineClass l e
  end.

Definition clearErrorMarkers (st : state) : state :=
  let st :=
    set_editor (fold_left (fun e m => clear_marker m e) (errorMarkers st) (editor st))
      st in
  set_errorMarkers [] st.

(** [errorMarkers.push(marker)]. *)
Definition push_marker (m : Editor.marker) (st : state) : state :=
  set_errorMarkers (errorMarkers st ++ [m]) st.

(** [errorMessage.match(/at (\d+):(\d+)/)]: only a string has the method. *)
Definition match_location (errorMessage : Js.jsval)
  : Js.completion (option Regex.found) :=
  match errorMessage with
  | Js.JStr s => Js.Normal (Regex.search Regex.at_line_col s)
  | Js.JNull => Js.Throw "Cannot read properties of null (reading 'match')"
  | Js.JUndefined =>
      Js.Throw "Cannot read properties of undefined (reading 'match')"
  | _ => Js.Throw "errorMessage.match is not a function"
  end.

(** A method of the editor is called: the editor changes, or the call
    throws. *)
Definition editor_call {A : Type}
  (method : Editor.t -> Js.completion (A * Editor.t)) : M state A :=
  fun st =>
    match method (editor st) with
    | Js.Normal (a, e) => (Js.Normal a, set_editor e st)
    | Js.Throw message => (Js.Throw message, st)
    end.

(** The body of [if (lineMatch) { .. }]. *)
Definition highlight_location (lineMatch : Regex.found) : M state unit :=
  let line := Js.minus_one (Js.parseInt (Regex.group 0 lineMatch)) in
  let col := Js.minus_one (Js.parseInt (Regex.group 1 lineMatch)) in
  marker <- editor_call (Editor.addLineClass line) ;;
  effect (push_marker marker) ;;;
  (if negb (Js.isNaN col) then
     let from := Editor.mk_position line col in
     let to := Editor.mk_position line (Js.plus_one col) in
     mark <- editor_call (Editor.markText from to) ;;
     effect (push_marker mark)
   else ret tt) ;;;
  editor_call (Editor.scrollIntoView line).

Definition showErrorWithHighlighting (errorMessage : Js.jsval)
  : M state unit :=
  showError_value errorMessage ;;;
  lineMatch <- eval (match_location errorMessage) ;;
  match lineMatch with
  | Some found => highlight_location found
  | None => ret tt
  end.

(** [animateResult()]: the span of class [result-value] is looked up in the
    page; the result panel holds one whenever its markup was assigned. *)
Definition animateResult (st : state) : state :=
  match resultOutput st with
  | InnerHTML _ =>
      setTimeout RemoveResultHighlight (set_result_highlight true st)
  | TextContent _ => st
  end.

Definition compiling_result : string := "🔄 Compiling your code...".
Definition compiling_bytecode : string := "⚙️ Generating bytecode...".
Definition failed_result : string := "❌ Compilation failed. Check the error below.".
Definition failed_bytecode : string :=
  "❌ No bytecode generated due to compilation error.".
Definition unreachable_result : string := "❌ Failed to connect to the server.".
Definition unreachable_bytecode : string := "❌ Connection error.".
Definition empty_input_message : string := "Please enter some code to compile.".
Definition no_output : string := "No output".

Definition compile_request (code : string) : request :=
  {| url := "/compile"; method := "POST";
     content_type := "application/json";
     source := code; language := "custom" |}.

(** The markup of the result panel on success. *)
Definition result_markup (shown : string) : string :=
  Highlight.span_of "success-icon" "✅" ++ " Result: "
  ++ Highlight.span_of "result-value" shown.

(** [a || b]. *)
Definition or_else (a b : Js.jsval) : Js.jsval := if Js.truthy a then a else b.

(** [compile()] up to its first [await]. *)
Definition compile (st : state) : activation * state :=
  let code := Js.trim (Editor.getValue (editor st)) in
  if negb (Js.truthy (Js.JStr code)) then
    (Returned, showError empty_input_message st)
  else
    let st := clearErrorMarkers st in
    let st := setLoadingState true st in
    let st := hideError st in
    let st := set_resultOutput (TextContent compiling_result) st in
    let st := set_bytecodeOutput (TextContent compiling_bytecode) st in
    (Awaiting, fetch (compile_request code) st).

(** The [try] block from the point where the awaits have settled. *)
Definition try_block (outcome : settled) : M state unit :=
  match outcome with
  | Rejected message => throw message
  | Json data =>
      error <- eval (Js.get data "error") ;;
      if Js.truthy error then
        showErrorWithHighlighting error ;;;
        effect (set_resultOutput (TextContent failed_result)) ;;;
        effect (set_bytecodeOutput (TextContent failed_bytecode))
      else
        result <- eval (Js.get data "result") ;;
        shown <- eval (Js.toString (or_else result (Js.JStr no_output))) ;;
        effect (set_resultOutput (InnerHTML (result_markup shown))) ;;;
        bytecode <- eval (Js.get data "bytecode") ;;
        markup <- eval (Highlight.formatBytecode bytecode) ;;
        effect (set_bytecodeOutput (InnerHTML markup)) ;;;
        effect animateResult
  end.

(** The [catch] block. *)
Definition catch_block (message : string) (st : state) : state :=
  let st := showError ("Network error: " ++ message) st in
  let st := set_resultOutput (TextContent unreachable_result) st in
  set_bytecodeOutput (TextContent unreachable_bytecode) st.

(** [compile()] from its [await] to its end: [try], [catch], [finally]. *)
Definition compile_resume (outcome : settled) (st : state) : state :=
  let st :=
    match try_block outcome st with
    | (Js.Normal _, st') => st'
    | (Js.Throw message, st') => catch_block message st'
    end in
  setLoadingState false st.

(** *** The page as an event-driven system *)

(** What can happen to the page: a click on the compile button; a key
    handler calling [compile] on Ctrl+Enter or Cmd+Enter (the [keydown]
    listener of the document, or the key map of the editor: each call is an
    event of its own); the user changing the text; the window being resized
    or scrolled; and the awaits of the oldest parked [compile] call
    settling. *)
Inductive event : Type :=
| Click
| CtrlEnter
| Edit (text : string) (keep_line : Z -> bool) (keep_mark : nat -> bool)
| View (end_in_view : bool)
| Settle (outcome : settled).

(** A disabled button dispatches no [click]; the key listener calls
    [compile] whatever the state of the button.  A [Settle] with no parked
    call has nothing to wake up. *)
Definition step (ev : event) (st : state) : state :=
  match ev with
  | Click => if compileBtn_disabled st then st else snd (compile st)
  | CtrlEnter => snd (compile st)
  | Edit text keep_line keep_mark =>
      set_editor (Editor.edit text keep_line keep_mark (editor st)) st
  | View shown => set_editor (Editor.view shown (editor st)) st
  | Settle outcome =>
      match pending st with
      | O => st
      | S _ => compile_resume outcome (wake st)
      end
  end.

Definition run (events : list event) (st : state) : state :=
  fold_left (fun s ev => step ev s) events st.

(** The page once loaded, with [text] in the editor. *)
Definition loaded (text : string) : state :=
  {| editor := Editor.empty text;
     errorMarkers := [];
     resultOutput := TextContent "Ready to compile...";
     bytecodeOutput :=
       TextContent "Compile your code to see bytecode instructions...";
     errorPanel_display := EmptyString;
     errorContent := EmptyString;
     spinner_display := EmptyString;
     compileBtn_disabled := false;
     result_highlight := false;
     timeouts := [];
     network := [];
     pending := O |}.

End Controller.

(** ** The textarea based controller ([script.js]) *)

Module Script.

Import Net Stmt.

(** The elements [script.js] looks up, by the properties it assigns: the
    text of the textarea, the text and the animation of the result panel, the
    text of the bytecode panel, the display and the animation of the error
    panel, the text of its content, the display of the spinner, whether the
    button is disabled and the text of the span inside it; then the [fetch]
    calls issued so far and the number of parked [compile] calls. *)
Record state : Type := mk_state {
  sourceCode_value : string;
  resultOutput : string;
  resultOutput_animation : string;
  bytecodeOutput : string;
  errorPanel_display : string;
  errorPanel_animation : string;
  errorContent : string;
  spinner_display : string;
  compileBtn_disabled : bool;
  compileBtn_label : string;
  network : list request;
  pending : nat
}.

Definition set_resultOutput (text : string) (st : state) : state :=
  mk_state (sourceCode_value st) text (resultOutput_animation st)
    (bytecodeOutput st) (errorPanel_display st) (errorPanel_animation st)
    (errorContent st) (spinner_display st) (compileBtn_disabled st)
    (compileBtn_label st) (network st) (pending st).

Definition set_resultOutput_animation (a : string) (st : state) : state :=
  mk_state (sourceCode_value st) (resultOutput st) a
    (bytecodeOutput st) (errorPanel_display st) (errorPanel_animation st)
    (errorContent st) (spinner_display st) (compileBtn_disabled st)
    (compileBtn_label st) (network st) (pending st).

Definition set_bytecodeOutput (text : string) (st : state) : state :=
  mk_state (sourceCode_value st) (resultOutput st) (resultOutput_animation st)
    text (errorPanel_display st) (errorPanel_animation st)
    (errorContent st) (spinner_display st) (compileBtn_disabled st)
    (compileBtn_label st) (network st) (pending st).

Definition set_errorPanel_display (d : string) (st : state) : state :=
  mk_state (sourceCode_value st) (resultOutput st) (resultOutput_animation st)
    (bytecodeOutput st) d (errorPanel_animation st)
    (errorContent st) (spinner_display st) (compileBtn_disabled st)
    (compileBtn_label st) (network st) (pending st).

Definition set_errorPanel_animation (a : string) (st : state) : state :=
  mk_state (sourceCode_value st) (resultOutput st) (resultOutput_animation st)
    (bytecodeOutput st) (errorPanel_display st) a
    (errorContent st) (spinner_display st) (compileBtn_disabled st)
    (compileBtn_label st) (network st) (pending st).

Definition set_errorContent (text : string) (st : state) : state :=
  mk_state (sourceCode_value st) (resultOutput st) (resultOutput_animation st)
    (bytecodeOutput st) (errorPanel_display st) (errorPanel_animation st)
    text (spinner_display st) (compileBtn_disabled st)
    (compileBtn_label st) (network st) (pending st).

(** The three assignments of one branch of [setLoadingState]. *)
Definition set_loading (disabled : bool) (display label : string) (st : state)
  : state :=
  mk_state (sourceCode_value st) (resultOutput st) (resultOutput_animation st)
    (bytecodeOutput st) (errorPanel_display st) (errorPanel_animation st)
    (errorContent st) display disabled label (network st) (pending st).

Definition set_sourceCode_value (text : string) (st : state) : state :=
  mk_state text (resultOutput st) (resultOutput_animation st)
    (bytecodeOutput st) (errorPanel_display st) (errorPanel_animation st)
    (errorContent st) (spinner_display st) (compileBtn_disabled st)
    (compileBtn_label st) (network st) (pending st).

Definition fetch (r : request) (st : state) : state :=
  mk_state (sourceCode_value st) (resultOutput st) (resultOutput_animation st)
    (bytecodeOutput st) (errorPanel_display st) (errorPanel_animation st)
    (errorContent st) (spinner_display st) (compileBtn_disabled st)
    (compileBtn_label st) (network st ++ [r]) (S (pending st)).

Definition wake (st : state) : state :=
  mk_state (sourceCode_value st) (resultOutput st) (resultOutput_animation st)
    (bytecodeOutput st) (errorPanel_display st) (errorPanel_animation st)
    (errorContent st) (spinner_display st) (compileBtn_disabled st)
    (compileBtn_label st) (network st) (Nat.pred (pending st)).

Definition setLoadingState (loading : bool) (st : state) : state :=
  if loading then set_loading true "inline-block" "⏳ Compiling..." st
  else set_loading false "none" "⚡ Compile & Run" st.

(** The shake animation is restarted: set to [none], then set again. *)
Definition showError (message : string) (st : state) : state :=
  let st := set_errorPanel_display "block" st in
  let st := set_errorContent message st in
  let st := set_errorPanel_animation "none" st in
  set_errorPanel_animation "shake 0.5s ease-in-out" st.

(** [showError(data.error)]: the value is converted when it is assigned to
    [textContent]. *)
Definition showError_value (message : Js.jsval) : M state unit :=
  effect (set_errorPanel_display "block") ;;;
  text <- eval (Js.toString message) ;;
  effect (set_errorContent text) ;;;
  effect (set_errorPanel_animation "none") ;;;
  effect (set_errorPanel_animation "shake 0.5s ease-in-out").

Definition hideError (st : state) : state := set_errorPanel_display "none" st.

Definition compiling_result : string := "🔄 Compiling your code...".
Definition compiling_bytecode : string := "⚙️  Generating bytecode...".
Definition failed_result : string := "❌ Compilation failed. Check the error below.".
Definition failed_bytecode : string :=
  "❌ No bytecode generated due to compilation error.".
Definition unreachable_result : string :=
  "❌ Failed to connect to compiler server.".
Definition unreachable_bytecode : string := "❌ Server connection unavailable.".
Definition empty_input_message : string := "Please enter some code to compile.".
Definition no_output : string := "No output".
Definition no_bytecode : string := "No bytecode generated".
Definition server : string := "http://127.0.0.1:8080".

Definition compile_request (code : string) : request :=
  {| url := server ++ "/compile"; method := "POST";
     content_type := "application/json";
     source := code; language := "custom" |}.

Definition or_else (a b : Js.jsval) : Js.jsval := if Js.truthy a then a else b.

(** [data.bytecode?.join(newline)]: nothing is called on [null] and
    [undefined]; of the other values only an array has the method. *)
Definition optional_join (bytecode : Js.jsval) : Js.completion Js.jsval :=
  match bytecode with
  | Js.JUndefined | Js.JNull => Js.Normal Js.JUndefined
  | Js.JArr items =>
      match Js.join (String Js.newline EmptyString) true items with
      | Js.Normal s => Js.Normal (Js.JStr s)
      | Js.Throw m => Js.Throw m
      end
  | _ => Js.Throw "data.bytecode?.join is not a function"
  end.

(** [compile()] up to its first [await]. *)
Definition compile (st : state) : activation * state :=
  let code := Js.trim (sourceCode_value st) in
  if negb (Js.truthy (Js.JStr code)) then
    (Returned, showError empty_input_message st)
  else
    let st := setLoadingState true st in
    let st := hideError st in
    let st := set_resultOutput compiling_result st in
    let st := set_bytecodeOutput compiling_bytecode st in
    (Awaiting, fetch (compile_request code) st).

Definition try_block (outcome : settled) : M state unit :=
  match outcome with
  | Rejected message => throw message
  | Json data =>
      error <- eval (Js.get data "error") ;;
      if Js.truthy error then
        showError_value error ;;;
        effect (set_resultOutput failed_result) ;;;
        effect (set_bytecodeOutput failed_bytecode)
      else
        result <- eval (Js.get data "result") ;;
        shown <- eval (Js.toString (or_else result (Js.JStr no_output))) ;;
        effect (set_resultOutput ("✅ Result: " ++ shown)) ;;;
        bytecode <- eval (Js.get data "bytecode") ;;
        joined <- eval (optional_join bytecode) ;;
        listing <- eval (Js.toString (or_else joined (Js.JStr no_bytecode))) ;;
        effect (set_bytecodeOutput listing) ;;;
        effect (set_resultOutput_animation "none") ;;;
        effect (set_resultOutput_animation "fadeIn 0.5s ease-out")
  end.

Definition catch_block (message : string) (st : state) : state :=
  let st :=
    showError
      ("Connection error: " ++ message
       ++ String Js.newline (String Js.newline EmptyString)
       ++ "Please ensure the compiler server is running on " ++ server) st in
  let st := set_resultOutput unreachable_result st in
  set_bytecodeOutput unreachable_bytecode st.

Definition compile_resume (outcome : settled) (st : state) : state :=
  let st :=
    match try_block outcome st with
    | (Js.Normal _, st') => st'
    | (Js.Throw message, st') => catch_block message st'
    end in
  setLoadingState false st.

Inductive event : Type :=
| Click
| CtrlEnter
| Edit (text : string)
| Settle (outcome : settled).

Definition step (ev : event) (st : state) : state :=
  match ev with
  | Click => if compileBtn_disabled st then st else snd (compile st)
  | CtrlEnter => snd (compile st)
  | Edit text => set_sourceCode_value text st
  | Settle outcome =>
      match pending st with
      | O => st
      | S _ => compile_resume outcome (wake st)
      end
  end.

Definition run (events : list event) (st : state) : state :=
  fold_left (fun s ev => step ev s) events st.

Definition loaded (text : string) : state :=
  {| sourceCode_value := text;
     resultOutput := "Ready to compile...";
     resultOutput_animation := EmptyString;
     bytecodeOutput := "Compile your code to see bytecode instructions...";
     errorPanel_display := EmptyString;
     errorPanel_animation := EmptyString;
     errorContent := EmptyString;
     spinner_display := EmptyString;
     compileBtn_disabled := false;
     compileBtn_label := "⚡ Compile & Run";
     network := [];
     pending := O |}.

End Script.

(** ** The diagnostic parser, read off [showErrorWithHighlighting] *)

Module Diagnostic.

(** A position in the editor's zero-based coordinates; the column is absent
    when it is [NaN]. *)
Record location : Type := mk_location { line : Js.number; column : option Js.number }.

(** The two declarations at the head of [if (lineMatch) { .. }] and the
    guard [if (!isNaN(col))] around the use of the column. *)
Definition location_of (lineMatch : Regex.found) : location :=
  let line := Js.minus_one (Js.parseInt (Regex.group 0 lineMatch)) in
  let col := Js.minus_one (Js.parseInt (Regex.group 1 lineMatch)) in
  {| line := line; column := if negb (Js.isNaN col) then Some col else None |}.

(** The position [showErrorWithHighlighting] highlights for an error text,
    if any. *)
Definition locate (errorText : string) : option location :=
  option_map location_of (Regex.search Regex.at_line_col errorText).


Fixpoint all_chars (f : ascii -> bool) (s : string) : bool :=
  match s with
  | EmptyString => true
  | String c rest => f c && all_chars f rest
  end.

(** A non-empty run of decimal digits. *)
Definition is_number (s : string) : Prop :=
  s <> EmptyString /\ all_chars Js.is_digit s = true.


End Diagnostic.

(** ** Vocabulary of the properties *)

Module Props.

(** A relation between the page before and after a statement holds of
    every run of the statement, however it completes. *)
Definition always {S A : Type} (R : S -> S -> Prop) (m : Stmt.M S A) : Prop :=
  forall st, R st (snd (m st)).

(** The capital letters the operator names start with. *)
Definition is_initial (c : ascii) : bool :=
  existsb (fun x => Ascii.eqb c x) ["A"; "S"; "M"; "D"; "N"]%char.

Definition no_initial (s : string) : bool :=
  Diagnostic.all_chars (fun c => negb (is_initial c)) s.

(** A text made of word characters only: one word. *)
Definition is_word (s : string) : bool :=
  Regex.nonempty s && Diagnostic.all_chars Js.is_word_char s.

Definition is_operator_name (s : string) : bool :=
  existsb (String.eqb s) Regex.operator_names.

(** No [compile] call is made while another one is parked at its [await]. *)
Fixpoint sequential (events : list Controller.event) (st : Controller.state)
  : bool :=
  match events with
  | [] => true
  | ev :: rest =>
      match ev with
      | Controller.Click | Controller.CtrlEnter =>
          Nat.eqb (Controller.pending st) 0
      | _ => true
      end
      && sequential rest (Controller.step ev st)
  end.

(** Every annotation shown in the editor is tracked by the registry. *)
Definition tracked (st : Controller.state) : Prop :=
  (forall l, In l (Editor.line_classes (Controller.editor st)) ->
             In (Editor.LineHandle l) (Controller.errorMarkers st))
  /\ (forall m, In m (Editor.text_marks (Controller.editor st)) ->
                In (Editor.TextMarker (fst m)) (Controller.errorMarkers st)).

(** A response that fails with [message] and may carry other fields. *)
Definition failure (message : string) (others : list (string * Js.jsval))
  : Js.jsval :=
  Js.JObj (("error", Js.JStr message) :: others).

(** A response with a result and a bytecode listing and no error. *)
Definition success (result : Js.jsval) (bytecode : list string) : Js.jsval :=
  Js.JObj [("result", result); ("bytecode", Js.JArr (map Js.JStr bytecode))].

(** The requests sent and the calls parked are the same. *)
Definition same_traffic (s s' : Controller.state) : Prop :=
  Controller.network s' = Controller.network s
  /\ Controller.pending s' = Controller.pending s.

Definition script_same_traffic (s s' : Script.state) : Prop :=
  Script.network s' = Script.network s
  /\ Script.pending s' = Script.pending s.

(** A text of two lines. *)
Definition two_lines : string := "int x = 1;" ++ String Js.newline "int y = ;".

(** The page after one attempt on [two_lines] that the service answered
    with an error at line 2, column 5. *)
Definition after_failure : Controller.state :=
  Controller.run
    [Controller.CtrlEnter;
     Controller.Settle (Net.Json (failure "Unexpected token ';' at 2:5" []))]
    (Controller.loaded two_lines).

(** The same page once the user has selected the whole text and typed
    blanks over it: the second line is gone, and so is the marked text. *)
Definition blanked_after_failure : Controller.state :=
  Controller.step
    (Controller.Edit "   " (fun _ => false) (fun _ => false)) after_failure.

(** The page while the first attempt on [1;] is in flight. *)
Definition in_flight : Controller.state :=
  Controller.step Controller.CtrlEnter (Controller.loaded "1;").

(** The registry has grown by at most [n] handles. *)
Definition grows (n : nat) (s s' : Controller.state) : Prop :=
  (List.length (Controller.errorMarkers s')
   <= List.length (Controller.errorMarkers s) + n)%nat.

(** [tracked] carries over. *)
Definition keeps_tracked (s s' : Controller.state) : Prop :=
  tracked s -> tracked s'.

(** What holds of the page between attempts that do not overlap: at most one
    call is parked, the registry has at most two handles, and none while a
    call is parked. *)
Definition one_attempt (st : Controller.state) : Prop :=
  (Controller.pending st <= 1)%nat
  /\ (List.length (Controller.errorMarkers st) <= 2)%nat
  /\ (Controller.pending st = 1%nat -> Controller.errorMarkers st = []).

(** Two attempts in flight at once, both answered with an error: Ctrl+Enter,
    an edit, Ctrl+Enter again before the first response, then the two
    responses. *)
Definition overlapping : list Controller.event :=
  [Controller.CtrlEnter;
   Controller.Edit "int y = ;" (fun _ => true) (fun _ => true);
   Controller.CtrlEnter;
   Controller.Settle (Net.Json (failure "Unexpected token ';' at 1:9" []));
   Controller.Settle (Net.Json (failure "Unexpected token ';' at 1:9" []))].

(** Two attempts one after the other, both answered with an error. *)
Definition one_by_one : list Controller.event :=
  [Controller.CtrlEnter;
   Controller.Settle (Net.Json (failure "Unexpected token ';' at 1:9" []));
   Controller.Edit "int y = ;" (fun _ => true) (fun _ => true);
   Controller.CtrlEnter;
   Controller.Settle (Net.Json (failure "Unexpected token ';' at 1:9" []))].

End Props.

(** ** The rest of the two scripts: examples, toast, modal, keys *)

Module Examples.

(** An entry of the [examples] array; the two scripts hold the same four. *)
Record example : Type := mk_example { name : string; code : string }.

Definition examples : list example :=
[
  {| name := "Basic Arithmetic";
     code := "// Basic arithmetic operations
int a = 15;
int b = 4;

int sum = a + b;        // 19
int difference = a - b; // 11
int product = a * b;    // 60
int quotient = a / b;   // 3

sum;" |};
  {| name := "Complex Expression";
     code := "// Complex mathematical expression
int x = 8;
int y = 3;
int z = 2;

int result = (x + y) * z - x / y;
result;" |};
  {| name := "Float Operations";
     code := "// Working with floating-point numbers
float pi = 3.14159;
float radius = 5.0;

float area = pi * radius * radius;
area;" |};
  {| name := "Multiple Variables";
     code := "// Multiple variable calculations
int base = 10;
int height = 15;
int triangleArea = base * height / 2;

int rectangleLength = 12;
int rectangleWidth = 8;
int rectangleArea = rectangleLength * rectangleWidth;

triangleArea + rectangleArea;" |}
].

End Examples.

Module Page.

Import Examples.

(** An element created by the script and appended to the body. *)
Record element : Type := mk_element {
  id : string;
  textContent : string;
  className : string
}.

(** A [keydown] event, by the properties the listener reads. *)
Record key_event : Type := mk_key {
  ctrlKey : bool;
  metaKey : bool;
  key : string
}.

(** The page of the CodeMirror script beyond what [compile] touches: the
    controller's part, the index of the example shown last, the elements
    appended to the body, the display of the modal overlay and the number of
    callbacks scheduled to hide the toast (recorded, not run). *)
Record state : Type := mk_state {
  controller : Controller.state;
  currentExampleIndex : nat;
  body : list element;
  modalOverlay_display : string;
  toast_timeouts : nat
}.

Definition set_controller (c : Controller.state) (p : state) : state :=
  mk_state c (currentExampleIndex p) (body p) (modalOverlay_display p)
    (toast_timeouts p).

Definition set_currentExampleIndex (i : nat) (p : state) : state :=
  mk_state (controller p) i (body p) (modalOverlay_display p)
    (toast_timeouts p).

Definition set_body (b : list element) (p : state) : state :=
  mk_state (controller p) (currentExampleIndex p) b (modalOverlay_display p)
    (toast_timeouts p).

Definition set_modalOverlay_display (d : string) (p : state) : state :=
  mk_state (controller p) (currentExampleIndex p) (body p) d
    (toast_timeouts p).

Definition schedule_toast_timeout (p : state) : state :=
  mk_state (controller p) (currentExampleIndex p) (body p)
    (modalOverlay_display p) (S (toast_timeouts p)).

(** [document.getElementById(name)] among the appended elements: the first
    one with that id. *)
Fixpoint getElementById (name : string) (els : list element) : option element :=
  match els with
  | [] => None
  | e :: rest =>
      if String.eqb (id e) name then Some e else getElementById name rest
  end.

(** The assignments [toast.textContent = ..; toast.className = ..] on the
    element [getElementById] answers with. *)
Fixpoint update_first (name : string) (f : element -> element)
  (els : list element) : list element :=
  match els with
  | [] => []
  | e :: rest =>
      if String.eqb (id e) name then f e :: rest
      else e :: update_first name f rest
  end.

(** [showToast(message)]. *)
Definition showToast (message : string) (p : state) : state :=
  let p :=
    match getElementById "toast" (body p) with
    | Some _ => p
    | None => set_body (body p ++ [mk_element "toast" EmptyString EmptyString]) p
    end in
  let p :=
    set_body
      (update_first "toast"
         (fun e => mk_element (id e) message "toast-visible") (body p)) p in
  schedule_toast_timeout p.

(** [showNextExample()].  Were the index out of the array, reading
    [example.code] of [undefined] would throw after the index has been
    assigned. *)
Definition showNextExample (p : state) : state :=
  let p :=
    set_currentExampleIndex
      (Nat.modulo (currentExampleIndex p + 1) (List.length examples)) p in
  match nth_error examples (currentExampleIndex p) with
  | None => p
  | Some example =>
      let c := controller p in
      let p :=
        set_controller
          (Controller.set_editor
             (Editor.setValue (code example) (Controller.editor c)) c) p in
      showToast ("Example: " ++ name example) p
  end.

Definition showRulesModal (p : state) : state := set_modalOverlay_display "flex" p.

Definition hideModal (p : state) : state := set_modalOverlay_display "none" p.

(** The [keydown] listener of the document: whether it called
    [preventDefault], and the page after it. *)
Definition on_keydown (ev : key_event) (p : state) : bool * state :=
  if (ctrlKey ev || metaKey ev) && String.eqb (key ev) "Enter" then
    (true, set_controller (snd (Controller.compile (controller p))) p)
  else (false, p).

(** What can happen to the page: clicks on the four buttons, a click that
    reaches the listener of the overlay (on the overlay itself or on
    something inside it), a [keydown] event reaching the listener of the
    document, Ctrl+Enter or Cmd+Enter taken by the key map of the editor, an
    edit, the window being resized or scrolled, and the awaits of a parked
    [compile] settling. *)
Inductive event : Type :=
| CompileClick
| RulesClick
| ExamplesClick
| CloseModalClick
| OverlayClick (on_overlay : bool)
| KeyDown (ev : key_event)
| EditorCompileKey
| Edit (text : string) (keep_line : Z -> bool) (keep_mark : nat -> bool)
| View (end_in_view : bool)
| Settle (outcome : Net.settled).

Definition lift (ev : Controller.event) (p : state) : state :=
  set_controller (Controller.step ev (controller p)) p.

Definition step (ev : event) (p : state) : state :=
  match ev with
  | CompileClick => lift Controller.Click p
  | RulesClick => showRulesModal p
  | ExamplesClick => showNextExample p
  | CloseModalClick => hideModal p
  | OverlayClick on_overlay => if on_overlay then hideModal p else p
  | KeyDown ev => snd (on_keydown ev p)
  | EditorCompileKey => lift Controller.CtrlEnter p
  | Edit text keep_line keep_mark =>
      lift (Controller.Edit text keep_line keep_mark) p
  | View shown => lift (Controller.View shown) p
  | Settle outcome => lift (Controller.Settle outcome) p
  end.

Definition run (events : list event) (p : state) : state :=
  fold_left (fun s ev => step ev s) events p.

Definition loaded (text : string) : state :=
  {| controller := Controller.loaded text;
     currentExampleIndex := O;
     body := [];
     modalOverlay_display := EmptyString;
     toast_timeouts := O |}.

(** [n] clicks on the examples button. *)
Fixpoint clicks (n : nat) (p : state) : state :=
  match n with
  | O => p
  | S k => clicks k (showNextExample p)
  end.

End Page.

Module ScriptPage.

Import Examples.

(** The page of [script.js] beyond what [compile] touches: the index of the
    example to load next and the display of the modal overlay. *)
Record state : Type := mk_state {
  script : Script.state;
  currentExampleIndex : nat;
  modalOverlay_display : string
}.

(** [loadExample()]: the example at the index is loaded, then the index
    moves on. *)
Definition loadExample (p : state) : state :=
  match nth_error examples (currentExampleIndex p) with
  | None => p
  | Some example =>
      mk_state (Script.set_sourceCode_value (code example) (script p))
        (Nat.modulo (currentExampleIndex p + 1) (List.length examples))
        (modalOverlay_display p)
  end.

(** [toggleModal(show)]. *)
Definition toggleModal (show : bool) (p : state) : state :=
  mk_state (script p) (currentExampleIndex p)
    (if show then "block" else "none").

Definition loaded (text : string) : state :=
  {| script := Script.loaded text;
     currentExampleIndex := O;
     modalOverlay_display := EmptyString |}.

Fixpoint clicks (n : nat) (p : state) : state :=
  match n with
  | O => p
  | S k => clicks k (loadExample p)
  end.

End ScriptPage.

(** ** Reading markup back *)

Module Markup.

Definition is_lt (c : ascii) : bool := Ascii.eqb c "<".
Definition is_gt (c : ascii) : bool := Ascii.eqb c ">".

Definition is_capital (c : ascii) : bool :=
  let n := nat_of_ascii c in ((65 <=? n) && (n <=? 90))%nat.

(** Whether the reader is inside a tag after one more character. *)
Definition next (inside : bool) (c : ascii) : bool :=
  if inside then negb (is_gt c) else is_lt c.

(** The text outside tags: everything from a [<] to the next [>] is
    dropped.  [inside] tells whether the reader starts inside a tag. *)
Fixpoint erase (inside : bool) (s : string) : string :=
  match s with
  | EmptyString => EmptyString
  | String c rest =>
      if inside || is_lt c then erase (next inside c) rest
      else String c (erase false rest)
  end.

Definition erase_tags (s : string) : string := erase false s.

(** Whether the reader is inside a tag at the end of the text. *)
Fixpoint after (inside : bool) (s : string) : bool :=
  match s with
  | EmptyString => inside
  | String c rest => after (next inside c) rest
  end.

(** No capital letter stands inside a tag. *)
Fixpoint tame (inside : bool) (s : string) : bool :=
  match s with
  | EmptyString => true
  | String c rest =>
      (negb inside || is_gt c || negb (is_capital c)) && tame (next inside c) rest
  end.

(** Neither [<] nor [>] occurs. *)
Definition tag_free (s : string) : bool :=
  Diagnostic.all_chars (fun c => negb (is_lt c) && negb (is_gt c)) s.

(** The capital letters a pattern of the highlighter can start with. *)
Definition is_trigger (c : ascii) : bool :=
  existsb (fun x => Ascii.eqb c x) ["P"; "A"; "S"; "M"; "D"; "N"; "J"; "L"]%char.

Definition plain (s : string) : bool :=
  Diagnostic.all_chars (fun c => negb (is_trigger c)) s.

(** The blocks of [formatBytecode] for instructions numbered from [index]. *)
Fixpoint blocks (index : nat) (lines : list string) : string :=
  match lines with
  | [] => EmptyString
  | line :: rest =>
      Highlight.bytecode_line index (Highlight.highlightBytecode line)
      ++ blocks (S index) rest
  end.

End Markup.

(** ** Vocabulary of the further properties *)

Module More.

(** The triggers of [compile] among the events of a trace. *)
Definition is_trigger (ev : Controller.event) : bool :=
  match ev with
  | Controller.Click | Controller.CtrlEnter => true
  | _ => false
  end.

Definition triggers (events : list Controller.event) : nat :=
  List.length (filter is_trigger events).

(** The two output panels in one of the three final configurations. *)
Inductive final_panels (st : Controller.state) : Prop :=
| panels_failed :
    Controller.resultOutput st = Controller.TextContent Controller.failed_result ->
    Controller.bytecodeOutput st
    = Controller.TextContent Controller.failed_bytecode ->
    final_panels st
| panels_succeeded shown markup :
    Controller.resultOutput st
    = Controller.InnerHTML (Controller.result_markup shown) ->
    Controller.bytecodeOutput st = Controller.InnerHTML markup ->
    final_panels st
| panels_unreachable :
    Controller.resultOutput st
    = Controller.TextContent Controller.unreachable_result ->
    Controller.bytecodeOutput st
    = Controller.TextContent Controller.unreachable_bytecode ->
    final_panels st.

(** The button and the spinner agree, and the button is disabled only
    while a call is parked. *)
Definition consistent (st : Controller.state) : Prop :=
  (Controller.compileBtn_disabled st = true -> Controller.pending st <> O)
  /\ (Controller.compileBtn_disabled st = true
      <-> Controller.spinner_display st = "block")
  /\ (Controller.pending st <= List.length (Controller.network st))%nat.

(** The elements of the body whose id is [toast]. *)
Definition toasts (p : Page.state) : list Page.element :=
  filter (fun e => String.eqb (Page.id e) "toast") (Page.body p).

(** The example at an index, as [examples[i]] reads it. *)
Definition example_at (i : nat) : Examples.example :=
  nth i Examples.examples (Examples.mk_example EmptyString EmptyString).

(** A decoded body that is neither an object nor [null]: a string, a
    number, a boolean or an array. *)
Definition not_an_object (data : Js.jsval) : bool :=
  match data with
  | Js.JStr _ | Js.JNum _ | Js.JBool _ | Js.JArr _ => true
  | _ => false
  end.

Definition is_string (v : Js.jsval) : bool :=
  match v with
  | Js.JStr _ => true
  | _ => false
  end.



(** The location is a character of the text in the editor. *)
Definition on_a_character (loc : Diagnostic.location) (e : Editor.t) (l c : Z)
  : Prop :=
  loc = {| Diagnostic.line := Js.Num l; Diagnostic.column := Some (Js.Num c) |}
  /\ 0 <= l <= Editor.lastLine e
  /\ 0 <= c < Editor.lineLength e l
  /\ c + 1 < 2 ^ 53.



(** The error [Parse error at 0:1], whose line is before the first. *)
Definition at_line_zero : Js.jsval :=
  Js.JObj [("error", Js.JStr "Parse error at 0:1")].



End More.

(** * Properties *)

(** ** Strings *)

Lemma truthy_string (s : string) :
  Js.truthy (Js.JStr s) = false <-> s = EmptyString.
Proof.
  simpl. destruct (String.eqb_spec s EmptyString); simpl; split; congruence.
Qed.

Lemma truthy_nonempty (s : string) :
  s <> EmptyString -> Js.truthy (Js.JStr s) = true.
Proof.
  intros H. destruct (Js.truthy (Js.JStr s)) eqn:E; [reflexivity|].
  apply truthy_string in E. contradiction.
Qed.

(** ** The empty-input path *)

Lemma compile_empty (st : Controller.state) :
  Js.trim (Editor.getValue (Controller.editor st)) = EmptyString ->
  Controller.compile st
  = (Net.Returned, Controller.showError Controller.empty_input_message st).
Proof.
  intros H. unfold Controller.compile. rewrite H. reflexivity.
Qed.

Lemma script_compile_empty (st : Script.state) :
  Js.trim (Script.sourceCode_value st) = EmptyString ->
  Script.compile st
  = (Net.Returned, Script.showError Script.empty_input_message st).
Proof.
  intros H. unfold Script.compile. rewrite H. reflexivity.
Qed.

(** C2.  When the trimmed text is empty, [compile] returns at once: nothing
    is sent and no call is parked (the session stays idle), the button and
    the spinner are as they were, and all it does is show the empty-input
    message in the error panel (scrolled into view later, in the CodeMirror
    script; with the shake animation restarted, in [script.js]). *)
Theorem C2_empty_input_only_surfaces_error :
  (forall st : Controller.state,
     Js.trim (Editor.getValue (Controller.editor st)) = EmptyString ->
     let st' := snd (Controller.compile st) in
     fst (Controller.compile st) = Net.Returned
     /\ Controller.network st' = Controller.network st
     /\ Controller.pending st' = Controller.pending st
     /\ Controller.errorContent st' = Controller.empty_input_message
     /\ Controller.errorPanel_display st' = "block"
     /\ Controller.compileBtn_disabled st' = Controller.compileBtn_disabled st
     /\ Controller.spinner_display st' = Controller.spinner_display st
     /\ st' = Controller.setTimeout Controller.ScrollErrorPanel
                (Controller.set_errorContent Controller.empty_input_message
                   (Controller.set_errorPanel_display "block" st)))
  /\ (forall st : Script.state,
        Js.trim (Script.sourceCode_value st) = EmptyString ->
        let st' := snd (Script.compile st) in
        fst (Script.compile st) = Net.Returned
        /\ Script.network st' = Script.network st
        /\ Script.pending st' = Script.pending st
        /\ Script.errorContent st' = Script.empty_input_message
        /\ Script.errorPanel_display st' = "block"
        /\ Script.compileBtn_disabled st' = Script.compileBtn_disabled st
        /\ Script.compileBtn_label st' = Script.compileBtn_label st
        /\ Script.spinner_display st' = Script.spinner_display st
        /\ Script.resultOutput st' = Script.resultOutput st
        /\ Script.bytecodeOutput st' = Script.bytecodeOutput st).
Proof.
  split; intros st H; cbv zeta.
  - rewrite (compile_empty st H). simpl. repeat split.
  - rewrite (script_compile_empty st H). simpl. repeat split.
Qed.

Lemma C2_witness :
  Js.trim (Editor.getValue (Controller.editor (Controller.loaded "   ")))
  = EmptyString
  /\ Controller.network (snd (Controller.compile (Controller.loaded "   "))) = []
  /\ Controller.errorContent (snd (Controller.compile (Controller.loaded "   ")))
     = Controller.empty_input_message.
Proof.
  split; [reflexivity|].
  pose proof (proj1 C2_empty_input_only_surfaces_error
                (Controller.loaded "   ") eq_refl) as H.
  cbv zeta in H. destruct H as (_ & Hn & _ & Hc & _).
  split; [exact Hn | exact Hc].
Defined.

(** ** Relations kept by every statement of a block *)

Section Always.

Context {S : Type} (R : S -> S -> Prop).
Hypothesis R_refl : forall s, R s s.
Hypothesis R_trans : forall a b c, R a b -> R b c -> R a c.

Lemma always_ret {A : Type} (a : A) : Props.always R (Stmt.ret a).
Proof. intros st. apply R_refl. Qed.

Lemma always_throw {A : Type} (message : string) :
  Props.always R (@Stmt.throw S A message).
Proof. intros st. apply R_refl. Qed.

Lemma always_eval {A : Type} (c : Js.completion A) :
  Props.always R (@Stmt.eval S A c).
Proof. intros st. apply R_refl. Qed.

Lemma always_effect (f : S -> S) :
  (forall st, R st (f st)) -> Props.always R (Stmt.effect f).
Proof. intros H st. apply H. Qed.

Lemma always_weaken {A : Type} (R' : S -> S -> Prop) (m : Stmt.M S A) :
  (forall a b, R a b -> R' a b) -> Props.always R m -> Props.always R' m.
Proof. intros H Hm st. apply H, Hm. Qed.

(** A statement keeping [R1] followed by one keeping [R2]. *)
Lemma always_seq {A B : Type} (R1 R2 : S -> S -> Prop)
  (m : Stmt.M S A) (k : A -> Stmt.M S B) :
  (forall a b, R1 a b -> R a b) ->
  (forall a b c, R1 a b -> R2 b c -> R a c) ->
  Props.always R1 m -> (forall a, Props.always R2 (k a)) ->
  Props.always R (Stmt.bind m k).
Proof.
  intros H1 H12 Hm Hk st. unfold Stmt.bind.
  specialize (Hm st). destruct (m st) as [[a | message] st']; simpl in *.
  - eapply H12; [exact Hm | apply Hk].
  - apply H1, Hm.
Qed.

Lemma always_bind {A B : Type} (m : Stmt.M S A) (k : A -> Stmt.M S B) :
  Props.always R m -> (forall a, Props.always R (k a)) ->
  Props.always R (Stmt.bind m k).
Proof.
  intros Hm Hk st. unfold Stmt.bind.
  specialize (Hm st). destruct (m st) as [[a | message] st']; simpl in *.
  - eapply R_trans; [exact Hm | apply Hk].
  - exact Hm.
Qed.

End Always.

(** A call of a method of the editor keeps what a change of the editor
    keeps. *)
Lemma always_editor_call {A : Type} (R : Controller.state -> Controller.state -> Prop)
  (method : Editor.t -> Js.completion (A * Editor.t)) :
  (forall s, R s s) ->
  (forall s e, R s (Controller.set_editor e s)) ->
  Props.always R (Controller.editor_call method).
Proof.
  intros Hrefl Hset st. unfold Controller.editor_call.
  destruct (method (Controller.editor st)) as [[a e] | message]; simpl;
    [apply Hset | apply Hrefl].
Qed.

(** Proves that a block keeps a relation, statement by statement;
    [frame] is to settle the single assignments.  The highlighting of a
    location is left to a lemma of its own. *)
Ltac always_tac refl trans frame :=
  repeat first
    [ match goal with
      | |- Props.always _ (Controller.highlight_location _) => fail 2
      end
    | apply (always_bind _ trans); [| intros ?]
    | match goal with
      | |- Props.always _ (if ?b then _ else _) => destruct b
      | |- Props.always _ (match ?x with _ => _ end) => destruct x
      end
    | apply (always_ret _ refl)
    | apply (always_throw _ refl)
    | apply (always_eval _ refl)
    | apply (always_editor_call _ _ refl); intros ? ?; frame
    | apply always_effect; intros ?; frame ].

(** ** One request per attempt *)

Lemma same_traffic_refl s : Props.same_traffic s s.
Proof. split; reflexivity. Qed.

Lemma same_traffic_trans a b c :
  Props.same_traffic a b -> Props.same_traffic b c -> Props.same_traffic a c.
Proof. intros [H1 H2] [H3 H4]. split; congruence. Qed.

Lemma script_same_traffic_refl s : Props.script_same_traffic s s.
Proof. split; reflexivity. Qed.

Lemma script_same_traffic_trans a b c :
  Props.script_same_traffic a b -> Props.script_same_traffic b c -> Props.script_same_traffic a c.
Proof. intros [H1 H2] [H3 H4]. split; congruence. Qed.

Lemma highlight_location_traffic f :
  Props.always Props.same_traffic (Controller.highlight_location f).
Proof.
  unfold Controller.highlight_location. cbv zeta.
  always_tac same_traffic_refl same_traffic_trans ltac:(split; reflexivity).
Qed.

Lemma animateResult_traffic st : Props.same_traffic st (Controller.animateResult st).
Proof.
  unfold Controller.animateResult.
  destruct (Controller.resultOutput st); split; reflexivity.
Qed.

Lemma try_block_traffic outcome :
  Props.always Props.same_traffic (Controller.try_block outcome).
Proof.
  unfold Controller.try_block, Controller.showErrorWithHighlighting,
    Controller.showError_value.
  destruct outcome as [message | data].
  - apply (always_throw _ same_traffic_refl).
  - always_tac same_traffic_refl same_traffic_trans
      ltac:(first [ apply animateResult_traffic | split; reflexivity ]);
      apply highlight_location_traffic.
Qed.

Lemma script_try_block_traffic outcome :
  Props.always Props.script_same_traffic (Script.try_block outcome).
Proof.
  unfold Script.try_block, Script.showError_value.
  destruct outcome as [message | data].
  - apply (always_throw _ script_same_traffic_refl).
  - always_tac script_same_traffic_refl script_same_traffic_trans
      ltac:(split; reflexivity).
Qed.

Lemma compile_resume_traffic outcome st :
  Props.same_traffic st (Controller.compile_resume outcome st).
Proof.
  unfold Controller.compile_resume.
  pose proof (try_block_traffic outcome st) as H.
  destruct (Controller.try_block outcome st) as [[u | message] st'];
    simpl in H; destruct H as [H1 H2]; split; simpl; assumption.
Qed.

Lemma script_compile_resume_traffic outcome st :
  Props.script_same_traffic st (Script.compile_resume outcome st).
Proof.
  unfold Script.compile_resume.
  pose proof (script_try_block_traffic outcome st) as H.
  destruct (Script.try_block outcome st) as [[u | message] st'];
    simpl in H; destruct H as [H1 H2]; split; simpl; assumption.
Qed.

Lemma compile_nonempty (st : Controller.state) :
  Js.trim (Editor.getValue (Controller.editor st)) <> EmptyString ->
  Controller.compile st
  = (Net.Awaiting,
     Controller.fetch
       (Controller.compile_request
          (Js.trim (Editor.getValue (Controller.editor st))))
       (Controller.set_bytecodeOutput
          (Controller.TextContent Controller.compiling_bytecode)
          (Controller.set_resultOutput
             (Controller.TextContent Controller.compiling_result)
             (Controller.hideError
                (Controller.setLoadingState true
                   (Controller.clearErrorMarkers st)))))).
Proof.
  intros H. unfold Controller.compile.
  rewrite (truthy_nonempty _ H). reflexivity.
Qed.

Lemma script_compile_nonempty (st : Script.state) :
  Js.trim (Script.sourceCode_value st) <> EmptyString ->
  Script.compile st
  = (Net.Awaiting,
     Script.fetch
       (Script.compile_request (Js.trim (Script.sourceCode_value st)))
       (Script.set_bytecodeOutput Script.compiling_bytecode
          (Script.set_resultOutput Script.compiling_result
             (Script.hideError (Script.setLoadingState true st))))).
Proof.
  intros H. unfold Script.compile.
  rewrite (truthy_nonempty _ H). reflexivity.
Qed.

Lemma step_settle outcome st :
  Controller.pending st <> O ->
  Controller.step (Controller.Settle outcome) st
  = Controller.compile_resume outcome (Controller.wake st).
Proof.
  intros H. simpl. destruct (Controller.pending st); [contradiction | reflexivity].
Qed.

Lemma script_step_settle outcome st :
  Script.pending st <> O ->
  Script.step (Script.Settle outcome) st
  = Script.compile_resume outcome (Script.wake st).
Proof.
  intros H. simpl. destruct (Script.pending st); [contradiction | reflexivity].
Qed.

(** C9.  When the trimmed text is not empty, [compile] sends exactly one
    request before it parks, whose [source] is the trimmed text and whose
    [language] is [custom]; and whatever the outcome of the awaits (a body
    that decodes to any value, or a rejection), the rest of the call sends
    nothing more.  This holds of both scripts. *)
Theorem C9_exactly_one_request :
  (forall st : Controller.state,
     Js.trim (Editor.getValue (Controller.editor st)) <> EmptyString ->
     let code := Js.trim (Editor.getValue (Controller.editor st)) in
     let st' := snd (Controller.compile st) in
     exists r,
       Controller.network st' = (Controller.network st ++ [r])%list
       /\ Net.source r = code /\ Net.language r = "custom"
       /\ Net.url r = "/compile" /\ Net.method r = "POST"
       /\ fst (Controller.compile st) = Net.Awaiting
       /\ forall outcome,
            Controller.network (Controller.step (Controller.Settle outcome) st')
            = (Controller.network st ++ [r])%list)
  /\ (forall st : Script.state,
        Js.trim (Script.sourceCode_value st) <> EmptyString ->
        let code := Js.trim (Script.sourceCode_value st) in
        let st' := snd (Script.compile st) in
        exists r,
          Script.network st' = (Script.network st ++ [r])%list
          /\ Net.source r = code /\ Net.language r = "custom"
          /\ Net.method r = "POST"
          /\ fst (Script.compile st) = Net.Awaiting
          /\ forall outcome,
               Script.network (Script.step (Script.Settle outcome) st')
               = (Script.network st ++ [r])%list).
Proof.
  split; intros st H; cbv zeta.
  - rewrite (compile_nonempty st H). cbn [fst snd].
    eexists. split; [reflexivity|]. repeat (split; [reflexivity|]).
    intros outcome. rewrite step_settle by discriminate.
    match goal with
    | |- Controller.network (Controller.compile_resume _ ?s) = _ =>
        destruct (compile_resume_traffic outcome s) as [Hn _]; rewrite Hn
    end.
    reflexivity.
  - rewrite (script_compile_nonempty st H). cbn [fst snd].
    eexists. split; [reflexivity|]. repeat (split; [reflexivity|]).
    intros outcome. rewrite script_step_settle by discriminate.
    match goal with
    | |- Script.network (Script.compile_resume _ ?s) = _ =>
        destruct (script_compile_resume_traffic outcome s) as [Hn _]; rewrite Hn
    end.
    reflexivity.
Qed.

Lemma C9_witness :
  Js.trim (Editor.getValue (Controller.editor (Controller.loaded " 1 + 2; ")))
  <> EmptyString
  /\ exists r,
       Controller.network (snd (Controller.compile (Controller.loaded " 1 + 2; ")))
       = [r]
       /\ Net.source r = "1 + 2;".
Proof.
  assert (H : Js.trim (Editor.getValue
                         (Controller.editor (Controller.loaded " 1 + 2; ")))
              <> EmptyString) by (vm_compute; discriminate).
  split; [exact H|].
  destruct (proj1 C9_exactly_one_request _ H) as (r & Hn & Hs & _).
  exists r. split; [exact Hn | exact Hs].
Defined.

(** ** The button is released on every way out *)

(** C5.  Once a call with a non-empty text is parked, the button is disabled
    and the spinner shown; and however the awaits settle (a body decoding to
    any value, on the success or the failure branch or throwing half-way, or
    a rejection of [fetch] or of [json()]), the rest of the call ends with
    the button enabled and the spinner hidden.  This holds of both
    scripts. *)
Theorem C5_trigger_released_on_every_exit :
  (forall st : Controller.state,
     Js.trim (Editor.getValue (Controller.editor st)) <> EmptyString ->
     let st' := snd (Controller.compile st) in
     Controller.compileBtn_disabled st' = true
     /\ forall outcome,
          let st'' := Controller.step (Controller.Settle outcome) st' in
          Controller.compileBtn_disabled st'' = false
          /\ Controller.spinner_display st'' = "none")
  /\ (forall st : Script.state,
        Js.trim (Script.sourceCode_value st) <> EmptyString ->
        let st' := snd (Script.compile st) in
        Script.compileBtn_disabled st' = true
        /\ forall outcome,
             let st'' := Script.step (Script.Settle outcome) st' in
             Script.compileBtn_disabled st'' = false
             /\ Script.spinner_display st'' = "none").
Proof.
  split; intros st H; cbv zeta.
  - rewrite (compile_nonempty st H). cbn [fst snd].
    split; [reflexivity|]. intros outcome.
    rewrite step_settle by discriminate.
    unfold Controller.compile_resume. split; reflexivity.
  - rewrite (script_compile_nonempty st H). cbn [fst snd].
    split; [reflexivity|]. intros outcome.
    rewrite script_step_settle by discriminate.
    unfold Script.compile_resume. split; reflexivity.
Qed.

Lemma C5_witness :
  Js.trim (Editor.getValue (Controller.editor (Controller.loaded "x;")))
  <> EmptyString
  /\ Controller.compileBtn_disabled
       (Controller.run
          [Controller.CtrlEnter;
           Controller.Settle (Net.Rejected "Failed to fetch")]
          (Controller.loaded "x;")) = false.
Proof.
  assert (H : Js.trim (Editor.getValue
                         (Controller.editor (Controller.loaded "x;")))
              <> EmptyString) by (vm_compute; discriminate).
  split; [exact H|].
  destruct (proj1 C5_trigger_released_on_every_exit _ H) as [_ Hs].
  exact (proj1 (Hs (Net.Rejected "Failed to fetch"))).
Defined.

(** The button is released by the last statement of the continuation,
    whatever the page looked like when it was woken up. *)
Lemma compile_resume_releases outcome st :
  Controller.compileBtn_disabled (Controller.compile_resume outcome st) = false
  /\ Controller.spinner_display (Controller.compile_resume outcome st) = "none".
Proof. unfold Controller.compile_resume. split; reflexivity. Qed.

(** ** What an empty input leaves alone *)

(** C10.  A call of [compile] with an empty or white-space-only text leaves
    the registry, the editor with its line classes and text marks, and the
    result and bytecode panels exactly as they were: the markers of an
    earlier failed attempt are neither forgotten nor removed from view. *)
Theorem C10_empty_input_keeps_markers_and_panels :
  forall st : Controller.state,
    Js.trim (Editor.getValue (Controller.editor st)) = EmptyString ->
    let st' := snd (Controller.compile st) in
    Controller.errorMarkers st' = Controller.errorMarkers st
    /\ Controller.editor st' = Controller.editor st
    /\ Editor.line_classes (Controller.editor st')
       = Editor.line_classes (Controller.editor st)
    /\ Editor.text_marks (Controller.editor st')
       = Editor.text_marks (Controller.editor st)
    /\ Controller.resultOutput st' = Controller.resultOutput st
    /\ Controller.bytecodeOutput st' = Controller.bytecodeOutput st.
Proof.
  intros st H. cbv zeta. rewrite (compile_empty st H). simpl.
  repeat split.
Qed.

Lemma C10_witness :
  Js.trim (Editor.getValue (Controller.editor Props.blanked_after_failure))
  = EmptyString
  /\ Controller.errorMarkers (snd (Controller.compile Props.blanked_after_failure))
     = [Editor.LineHandle 1; Editor.TextMarker 0]
  /\ Controller.editor (snd (Controller.compile Props.blanked_after_failure))
     = Controller.editor Props.blanked_after_failure
  /\ Controller.resultOutput (snd (Controller.compile Props.blanked_after_failure))
     = Controller.TextContent Controller.failed_result.
Proof.
  split; [reflexivity|].
  pose proof (C10_empty_input_keeps_markers_and_panels
                Props.blanked_after_failure eq_refl) as H.
  cbv zeta in H. destruct H as (Hm & He & _ & _ & Hr & _).
  split; [rewrite Hm; reflexivity|].
  split; [exact He | rewrite Hr; reflexivity].
Defined.

(** ** Calls made while an attempt is in flight *)

(** C1, as stated, fails: with one attempt in flight, a further call of
    [compile] (Ctrl+Enter reaches it although the button is disabled) is
    not ignored; it sends a second request and parks a second call. *)
Lemma C1_second_call_not_ignored :
  Controller.pending Props.in_flight = 1%nat
  /\ Controller.compileBtn_disabled Props.in_flight = true
  /\ List.length (Controller.network Props.in_flight) = 1%nat
  /\ List.length
       (Controller.network (Controller.step Controller.CtrlEnter Props.in_flight))
     = 2%nat
  /\ Controller.pending (Controller.step Controller.CtrlEnter Props.in_flight)
     = 2%nat
  /\ Controller.step Controller.CtrlEnter Props.in_flight <> Props.in_flight.
Proof.
  do 5 (split; [reflexivity|]).
  intros H. apply (f_equal Controller.pending) in H. discriminate H.
Qed.

(** C1, amended.  [compile] looks at nothing but the text: with an attempt
    in flight and a non-empty text, a call that reaches it (the key
    listener's) starts a further attempt like any other: the registry is
    emptied, the panels show the pending placeholders, one more request is
    sent and one more call is parked.  What is inert while the button is
    disabled is the click, which never reaches [compile]. *)
Theorem C1_no_reentrancy_guard :
  forall st : Controller.state,
    Controller.pending st <> O ->
    Js.trim (Editor.getValue (Controller.editor st)) <> EmptyString ->
    let st' := Controller.step Controller.CtrlEnter st in
    Controller.network st'
    = (Controller.network st
       ++ [Controller.compile_request
             (Js.trim (Editor.getValue (Controller.editor st)))])%list
    /\ Controller.pending st' = S (Controller.pending st)
    /\ Controller.errorMarkers st' = []
    /\ Controller.resultOutput st'
       = Controller.TextContent Controller.compiling_result
    /\ Controller.bytecodeOutput st'
       = Controller.TextContent Controller.compiling_bytecode
    /\ Controller.compileBtn_disabled st' = true
    /\ (Controller.compileBtn_disabled st = true ->
        Controller.step Controller.Click st = st).
Proof.
  intros st Hp H. cbv zeta.
  change (Controller.step Controller.CtrlEnter st)
    with (snd (Controller.compile st)).
  rewrite (compile_nonempty st H). cbn [snd].
  do 6 (split; [reflexivity|]).
  intros Hd. simpl. rewrite Hd. reflexivity.
Qed.

Lemma C1_witness :
  Controller.pending Props.in_flight <> O
  /\ Js.trim (Editor.getValue (Controller.editor Props.in_flight)) <> EmptyString
  /\ Controller.pending (Controller.step Controller.CtrlEnter Props.in_flight)
     = 2%nat
  /\ Controller.step Controller.Click Props.in_flight = Props.in_flight.
Proof.
  assert (Hp : Controller.pending Props.in_flight <> O)
    by (vm_compute; discriminate).
  assert (H : Js.trim (Editor.getValue (Controller.editor Props.in_flight))
              <> EmptyString) by (vm_compute; discriminate).
  split; [exact Hp|]. split; [exact H|].
  pose proof (C1_no_reentrancy_guard Props.in_flight Hp H) as T.
  cbv zeta in T. destruct T as (_ & Hq & _ & _ & _ & _ & Hc).
  split; [rewrite Hq; reflexivity | apply Hc; reflexivity].
Defined.

(** ** The failure branch *)




(** With a string, [showErrorWithHighlighting] shows the text, then
    highlights the location if the text has one. *)
Lemma showErrorWithHighlighting_string (message : string) st :
  Controller.showErrorWithHighlighting (Js.JStr message) st
  = match Regex.search Regex.at_line_col message with
    | Some found =>
        Controller.highlight_location found (Controller.showError message st)
    | None => (Js.Normal tt, Controller.showError message st)
    end.
Proof.
  unfold Controller.showErrorWithHighlighting, Controller.showError_value,
    Stmt.bind, Stmt.effect, Stmt.eval. simpl.
  destruct (Regex.search Regex.at_line_col message); reflexivity.
Qed.


Lemma script_compile_resume_failure fields message st :
  Js.own_property "error" fields = Some (Js.JStr message) ->
  message <> EmptyString ->
  Script.compile_resume (Net.Json (Js.JObj fields)) st
  = Script.setLoadingState false
      (Script.set_bytecodeOutput Script.failed_bytecode
         (Script.set_resultOutput Script.failed_result
            (Script.showError message st))).
Proof.
  intros Hf Hm.
  unfold Script.compile_resume, Script.try_block.
  unfold Stmt.bind at 1. unfold Stmt.eval at 1. unfold Js.get. rewrite Hf.
  rewrite (truthy_nonempty _ Hm). reflexivity.
Qed.

(** C4, at the input where the CodeMirror script departs from it.  The
    body carries the non-empty error [Parse error at 0:1].  The script
    shows it and computes line -1 for the highlighting; the editor has no
    such line, [scrollIntoView] throws inside the [try] block, and the
    [catch] block replaces the error text by a network error and the two
    failure texts by the connection-failure texts.  [script.js], which
    highlights nothing, shows the error as it came and the failure texts. *)
Theorem C4_failure_path_lost_at_line_zero :
  Js.get More.at_line_zero "error" = Js.Normal (Js.JStr "Parse error at 0:1")
  /\ Diagnostic.locate "Parse error at 0:1"
     = Some {| Diagnostic.line := Js.Num (-1);
               Diagnostic.column := Some (Js.Num 0) |}
  /\ (forall st : Controller.state,
        let st' := Controller.compile_resume (Net.Json More.at_line_zero) st in
        Controller.errorContent st'
        = "Network error: There is no line -1 in the document."
        /\ Controller.errorContent st' <> "Parse error at 0:1"
        /\ Controller.resultOutput st'
           = Controller.TextContent Controller.unreachable_result
        /\ Controller.bytecodeOutput st'
           = Controller.TextContent Controller.unreachable_bytecode
        /\ Controller.resultOutput st'
           <> Controller.TextContent Controller.failed_result)
  /\ (forall st : Script.state,
        let st' := Script.compile_resume (Net.Json More.at_line_zero) st in
        Script.errorContent st' = "Parse error at 0:1"
        /\ Script.resultOutput st' = Script.failed_result
        /\ Script.bytecodeOutput st' = Script.failed_bytecode).
Proof.
  split; [reflexivity|]. split; [reflexivity|]. split.
  - intros st. cbv zeta.
    split; [reflexivity|]. split; [discriminate|].
    split; [reflexivity|]. split; [reflexivity | discriminate].
  - intros st. cbv zeta. repeat split.
Qed.

(** ** The success branch *)

(** C7, at the input where the code departs from it.  The body carries the
    result [0] (and a bytecode listing, and no error), yet both scripts show
    the placeholder, not the result. *)
Theorem C7_zero_result_shown_as_no_output :
  let data := Props.success (Js.JNum (Js.num_of_Z 0)) ["Push(0)"] in
  Js.get data "result" = Js.Normal (Js.JNum (Js.num_of_Z 0))
  /\ Js.toString (Js.JNum (Js.num_of_Z 0)) = Js.Normal "0"
  /\ (forall st : Controller.state,
        Controller.resultOutput (Controller.compile_resume (Net.Json data) st)
        = Controller.InnerHTML (Controller.result_markup "No output"))
  /\ (forall st : Script.state,
        Script.resultOutput (Script.compile_resume (Net.Json data) st)
        = "✅ Result: No output").
Proof.
  cbv zeta. repeat split.
Qed.

(** The success branch does show a result that is truthy: here the result
    [40] of the end-to-end scenario. *)
Lemma truthy_result_is_shown (st : Controller.state) :
  Controller.resultOutput
    (Controller.compile_resume
       (Net.Json (Props.success (Js.JNum (Js.num_of_Z 40)) ["Push(15)"])) st)
  = Controller.InnerHTML (Controller.result_markup "40").
Proof. reflexivity. Qed.

(** ** The marker registry *)

Lemma clearErrorMarkers_empties st :
  Controller.errorMarkers (Controller.clearErrorMarkers st) = [].
Proof. reflexivity. Qed.

Lemma clearErrorMarkers_idempotent st :
  Controller.clearErrorMarkers (Controller.clearErrorMarkers st)
  = Controller.clearErrorMarkers st.
Proof. reflexivity. Qed.

Lemma grows_refl n s : Props.grows n s s.
Proof. unfold Props.grows. lia. Qed.

Lemma grows_trans a b c :
  Props.grows 0 a b -> Props.grows 0 b c -> Props.grows 0 a c.
Proof. unfold Props.grows. lia. Qed.

Lemma grows_weaken n a b : Props.grows 0 a b -> Props.grows n a b.
Proof. unfold Props.grows. lia. Qed.

Lemma grows_before n a b c :
  Props.grows 0 a b -> Props.grows n b c -> Props.grows n a c.
Proof. unfold Props.grows. lia. Qed.

Lemma grows_after n a b c :
  Props.grows n a b -> Props.grows 0 b c -> Props.grows n a c.
Proof. unfold Props.grows. lia. Qed.

(** *** What the methods of the editor change *)

Lemma clipLine_some e n : Js.isNaN n = false -> exists l, Editor.clipLine e n = Some l.
Proof. destruct n; intros H; try discriminate H; eexists; reflexivity. Qed.

Lemma mem_line_in l ls : Editor.mem_line l ls = true -> In l ls.
Proof.
  induction ls as [|x xs IH]; simpl; [discriminate|]. intros H.
  apply orb_true_iff in H. destruct H as [Hx | Hx].
  - left. apply Z.eqb_eq, Hx.
  - right. apply IH, Hx.
Qed.

Lemma addLineClass_result n e m e' :
  Editor.addLineClass n e = Js.Normal (m, e') ->
  exists l,
    Editor.clipLine e n = Some l /\ m = Editor.LineHandle l
    /\ Editor.value e' = Editor.value e
    /\ Editor.text_marks e' = Editor.text_marks e
    /\ Editor.next_id e' = Editor.next_id e
    /\ Editor.end_in_view e' = Editor.end_in_view e
    /\ In l (Editor.line_classes e')
    /\ (forall x, In x (Editor.line_classes e') ->
                  In x (Editor.line_classes e) \/ x = l).
Proof.
  unfold Editor.addLineClass.
  destruct (Editor.clipLine e n) as [l|]; [|discriminate].
  intros H. inversion H; subst. clear H. exists l.
  do 6 (split; [reflexivity|]). simpl.
  destruct (Editor.mem_line l (Editor.line_classes e)) eqn:E.
  - split; [apply mem_line_in, E | auto].
  - split; [apply in_or_app; right; left; reflexivity|].
    intros x Hx. apply in_app_or in Hx. destruct Hx as [Hx | [Hx | []]]; auto.
Qed.

Lemma clipPos_normal e p :
  Js.isNaN (Editor.pos_line p) = false ->
  exists q, Editor.clipPos e p = Js.Normal q.
Proof.
  unfold Editor.clipPos. destruct (Editor.pos_line p) as [|l| |]; intros H;
    try discriminate H; try (eexists; reflexivity).
  destruct (l <? 0); [eexists; reflexivity|].
  destruct (Editor.lastLine e <? l); eexists; reflexivity.
Qed.

Lemma markText_result from to e m e' :
  Editor.markText from to e = Js.Normal (m, e') ->
  m = Editor.TextMarker (Editor.next_id e)
  /\ Editor.value e' = Editor.value e
  /\ Editor.line_classes e' = Editor.line_classes e
  /\ Editor.end_in_view e' = Editor.end_in_view e
  /\ (forall mk, In mk (Editor.text_marks e') ->
                 In mk (Editor.text_marks e) \/ fst mk = Editor.next_id e).
Proof.
  unfold Editor.markText.
  destruct (Editor.clipPos e from) as [a|]; [|discriminate].
  destruct (Editor.clipPos e to) as [b|]; [|discriminate].
  intros H. inversion H; subst. clear H.
  do 4 (split; [reflexivity|]). simpl. intros mk Hmk.
  apply in_app_or in Hmk. destruct Hmk as [Hmk | Hmk]; [left; exact Hmk|].
  right. destruct a as [a|]; [|destruct Hmk]. destruct b as [b|]; [|destruct Hmk].
  destruct (Editor.before a b); [|destruct Hmk].
  destruct Hmk as [<- | []]. reflexivity.
Qed.

Lemma markText_normal from to e :
  Js.isNaN (Editor.pos_line from) = false ->
  Js.isNaN (Editor.pos_line to) = false ->
  exists e', Editor.markText from to e
             = Js.Normal (Editor.TextMarker (Editor.next_id e), e').
Proof.
  intros Hf Ht. unfold Editor.markText.
  destruct (clipPos_normal e from Hf) as [a ->].
  destruct (clipPos_normal e to Ht) as [b ->].
  eexists. reflexivity.
Qed.

Lemma scrollIntoView_result line e u e' :
  Editor.scrollIntoView line e = Js.Normal (u, e') ->
  Editor.value e' = Editor.value e
  /\ Editor.line_classes e' = Editor.line_classes e
  /\ Editor.text_marks e' = Editor.text_marks e
  /\ Editor.next_id e' = Editor.next_id e.
Proof.
  unfold Editor.scrollIntoView.
  destruct line as [|l| |];
    repeat match goal with
           | |- context [if ?b then _ else _] => destruct b
           end;
    intros H; inversion H; subst; repeat split.
Qed.

(** *** The handles a located error adds *)


Lemma highlight_location_grows f :
  Props.always (Props.grows 2) (Controller.highlight_location f).
Proof.
  intros st. unfold Controller.highlight_location, Props.grows.
  cbv zeta. unfold Stmt.bind, Stmt.effect, Stmt.ret, Controller.editor_call.
  destruct (Editor.addLineClass _ _) as [[m e] | thrown]; [|simpl; lia].
  destruct (negb _).
  - match goal with
    | |- context [Editor.markText ?a ?b ?e] =>
        destruct (Editor.markText a b e) as [[mk e'] | thrown]
    end; [|simpl; rewrite length_app; simpl; lia].
    match goal with
    | |- context [Editor.scrollIntoView ?a ?e] =>
        destruct (Editor.scrollIntoView a e) as [[u e''] | thrown]
    end; simpl; rewrite !length_app; simpl; lia.
  - match goal with
    | |- context [Editor.scrollIntoView ?a ?e] =>
        destruct (Editor.scrollIntoView a e) as [[u e''] | thrown]
    end; simpl; rewrite !length_app; simpl; lia.
Qed.

Lemma animateResult_grows st : Props.grows 0 st (Controller.animateResult st).
Proof.
  unfold Controller.animateResult, Props.grows.
  destruct (Controller.resultOutput st); simpl; lia.
Qed.

Ltac grows0_tac :=
  always_tac (grows_refl 0) grows_trans
    ltac:(first [ apply animateResult_grows
                | unfold Props.grows; simpl; lia ]).

Lemma showErrorWithHighlighting_grows v :
  Props.always (Props.grows 2) (Controller.showErrorWithHighlighting v).
Proof.
  unfold Controller.showErrorWithHighlighting, Controller.showError_value.
  apply (always_seq _ (Props.grows 0) (Props.grows 2));
    [ apply grows_weaken | apply grows_before | grows0_tac | intros _ ].
  apply (always_seq _ (Props.grows 0) (Props.grows 2));
    [ apply grows_weaken | apply grows_before
    | apply (always_eval _ (grows_refl 0)) | intros [found|] ].
  - apply highlight_location_grows.
  - apply (always_ret _ (grows_refl 2)).
Qed.

Lemma try_block_grows outcome :
  Props.always (Props.grows 2) (Controller.try_block outcome).
Proof.
  unfold Controller.try_block. destruct outcome as [message | data].
  - apply (always_throw _ (grows_refl 2)).
  - apply (always_seq _ (Props.grows 0) (Props.grows 2));
      [ apply grows_weaken | apply grows_before
      | apply (always_eval _ (grows_refl 0)) | intros error ].
    destruct (Js.truthy error).
    + apply (always_seq _ (Props.grows 2) (Props.grows 0));
        [ auto | apply grows_after
        | apply showErrorWithHighlighting_grows | intros _; grows0_tac ].
    + apply (always_weaken (Props.grows 0)); [apply grows_weaken|].
      grows0_tac.
Qed.

Lemma compile_resume_grows outcome st :
  Props.grows 2 st (Controller.compile_resume outcome st).
Proof.
  unfold Controller.compile_resume.
  pose proof (try_block_grows outcome st) as H.
  destruct (Controller.try_block outcome st) as [[u | message] st']; exact H.
Qed.

(** A parked call has emptied the registry on its way to the [await]. *)
Lemma compile_awaiting_cleared st st' :
  Controller.compile st = (Net.Awaiting, st') ->
  Controller.errorMarkers st' = []
  /\ Controller.pending st' = S (Controller.pending st).
Proof.
  unfold Controller.compile.
  destruct (negb _); intros H; inversion H; subst. split; reflexivity.
Qed.

Lemma compile_returned_same st st' :
  Controller.compile st = (Net.Returned, st') ->
  Controller.errorMarkers st' = Controller.errorMarkers st
  /\ Controller.pending st' = Controller.pending st.
Proof.
  unfold Controller.compile.
  destruct (negb _); intros H; inversion H; subst. split; reflexivity.
Qed.

Lemma compile_one_attempt st :
  Controller.pending st = O -> Props.one_attempt st ->
  Props.one_attempt (snd (Controller.compile st)).
Proof.
  intros Hp (H1 & H2 & H3).
  destruct (Controller.compile st) as [[|] st'] eqn:E; cbn [snd].
  - destruct (compile_returned_same _ _ E) as [Hm Hq].
    unfold Props.one_attempt. rewrite Hm, Hq. auto.
  - destruct (compile_awaiting_cleared _ _ E) as [Hm Hq].
    unfold Props.one_attempt. rewrite Hm, Hq, Hp. simpl.
    repeat split; auto.
Qed.

Lemma step_one_attempt ev st :
  Props.sequential [ev] st = true -> Props.one_attempt st ->
  Props.one_attempt (Controller.step ev st).
Proof.
  intros Hs Hi. destruct ev as [| | text kl km | shown | outcome]; simpl in Hs.
  - rewrite andb_true_r in Hs. apply Nat.eqb_eq in Hs.
    simpl. destruct (Controller.compileBtn_disabled st); [exact Hi|].
    apply compile_one_attempt; assumption.
  - rewrite andb_true_r in Hs. apply Nat.eqb_eq in Hs.
    apply compile_one_attempt; assumption.
  - exact Hi.
  - exact Hi.
  - destruct Hi as (H1 & H2 & H3). simpl.
    destruct (Controller.pending st) as [|n] eqn:Hp.
    + unfold Props.one_attempt. rewrite Hp. auto.
    + assert (n = O) by lia. subst n.
      pose proof (compile_resume_grows outcome (Controller.wake st)) as Hg.
      destruct (compile_resume_traffic outcome (Controller.wake st)) as [_ Hq].
      unfold Props.grows in Hg. unfold Props.one_attempt. rewrite Hq.
      change (Controller.errorMarkers (Controller.wake st))
        with (Controller.errorMarkers st) in Hg.
      change (Controller.pending (Controller.wake st))
        with (Nat.pred (Controller.pending st)).
      rewrite Hp. rewrite (H3 eq_refl) in Hg. simpl in *.
      repeat split; [lia | lia | discriminate].
Qed.

Lemma run_one_attempt events :
  forall st,
    Props.sequential events st = true -> Props.one_attempt st ->
    Props.one_attempt (Controller.run events st).
Proof.
  induction events as [|ev rest IH]; intros st Hs Hi; [exact Hi|].
  simpl in Hs. apply andb_true_iff in Hs. destruct Hs as [Hev Hrest].
  change (Controller.run (ev :: rest) st)
    with (Controller.run rest (Controller.step ev st)).
  apply IH; [exact Hrest|].
  apply step_one_attempt; [|exact Hi].
  simpl. rewrite Hev. reflexivity.
Qed.

(** *** Every annotation in the editor is tracked, so [clear] empties the view *)

Lemma fold_clear_lines ms :
  forall e l,
    In l (Editor.line_classes
            (fold_left (fun e m => Controller.clear_marker m e) ms e)) ->
    In l (Editor.line_classes e) /\ ~ In (Editor.LineHandle l) ms.
Proof.
  induction ms as [|m ms IH]; intros e l H; simpl in H.
  - split; [exact H | intros []].
  - apply IH in H. destruct H as [H Hn]. destruct m as [l0 | id]; simpl in H.
    + apply filter_In in H. destruct H as [H Hne]. split; [exact H|].
      intros [Heq | Hin]; [|contradiction].
      inversion Heq; subst. rewrite Z.eqb_refl in Hne. discriminate.
    + split; [exact H|]. intros [Heq | Hin]; [discriminate | contradiction].
Qed.

Lemma fold_clear_marks ms :
  forall e mk,
    In mk (Editor.text_marks
             (fold_left (fun e m => Controller.clear_marker m e) ms e)) ->
    In mk (Editor.text_marks e) /\ ~ In (Editor.TextMarker (fst mk)) ms.
Proof.
  induction ms as [|m ms IH]; intros e mk H; simpl in H.
  - split; [exact H | intros []].
  - apply IH in H. destruct H as [H Hn]. destruct m as [l0 | id]; simpl in H.
    + split; [exact H|]. intros [Heq | Hin]; [discriminate | contradiction].
    + apply filter_In in H. destruct H as [H Hne]. split; [exact H|].
      intros [Heq | Hin]; [|contradiction].
      inversion Heq; subst. rewrite Nat.eqb_refl in Hne. discriminate.
Qed.

Lemma nothing_in_nil {A : Type} (l : list A) : (forall x, ~ In x l) -> l = [].
Proof.
  destruct l as [|a l]; [reflexivity|]. intros H. destruct (H a). left. reflexivity.
Qed.

(** [clearErrorMarkers] takes every tracked annotation out of the editor. *)
Lemma clearErrorMarkers_clears_view st :
  Props.tracked st ->
  Editor.line_classes (Controller.editor (Controller.clearErrorMarkers st)) = []
  /\ Editor.text_marks (Controller.editor (Controller.clearErrorMarkers st)) = [].
Proof.
  intros [Hl Hm]. split; apply nothing_in_nil; intros x Hx; simpl in Hx.
  - apply fold_clear_lines in Hx. destruct Hx as [Hin Hn]. apply Hn, Hl, Hin.
  - apply fold_clear_marks in Hx. destruct Hx as [Hin Hn]. apply Hn, Hm, Hin.
Qed.

Lemma keeps_tracked_refl s : Props.keeps_tracked s s.
Proof. intros H. exact H. Qed.

Lemma keeps_tracked_trans a b c :
  Props.keeps_tracked a b -> Props.keeps_tracked b c -> Props.keeps_tracked a c.
Proof. unfold Props.keeps_tracked. auto. Qed.

Lemma clearErrorMarkers_tracked st :
  Props.keeps_tracked st (Controller.clearErrorMarkers st).
Proof.
  intros H. destruct (clearErrorMarkers_clears_view st H) as [Hl Hm].
  split; intros x Hx; [rewrite Hl in Hx | rewrite Hm in Hx]; destruct Hx.
Qed.

Lemma highlight_location_tracked f :
  Props.always Props.keeps_tracked (Controller.highlight_location f).
Proof.
  intros st [Hl Hm]. unfold Controller.highlight_location.
  cbv zeta. unfold Stmt.bind, Stmt.effect, Stmt.ret, Controller.editor_call.
  destruct (Editor.addLineClass _ _) as [[m e] | thrown] eqn:E1;
    [|split; assumption].
  destruct (addLineClass_result _ _ _ _ E1)
    as (l & _ & -> & _ & Hmarks & _ & _ & _ & Hlines).
  assert (T1 : Props.tracked
                 (Controller.push_marker (Editor.LineHandle l)
                    (Controller.set_editor e st))).
  { split; simpl.
    - intros x Hx. apply in_or_app. destruct (Hlines x Hx) as [Hin | ->].
      + left. apply Hl, Hin.
      + right. left. reflexivity.
    - intros mk Hmk. rewrite Hmarks in Hmk. apply in_or_app. left.
      apply Hm, Hmk. }
  revert T1.
  generalize (Controller.push_marker (Editor.LineHandle l)
                (Controller.set_editor e st)).
  intros s1 T1.
  assert (T3 : forall s2, Props.tracked s2 ->
                 Props.tracked
                   (snd (match Editor.scrollIntoView
                                 (Js.minus_one (Js.parseInt (Regex.group 0 f)))
                                 (Controller.editor s2) with
                         | Js.Normal (a, e0) =>
                             (Js.Normal a, Controller.set_editor e0 s2)
                         | Js.Throw message => (Js.Throw message, s2)
                         end))).
  { intros s2 [Gl Gm].
    destruct (Editor.scrollIntoView _ _) as [[u e0] | thrown] eqn:E3;
      [|split; assumption].
    destruct (scrollIntoView_result _ _ _ _ E3) as (_ & Hc & Hk & _).
    split; simpl; [rewrite Hc | rewrite Hk]; assumption. }
  destruct (negb _).
  - destruct (Editor.markText _ _ _) as [[mk e'] | thrown] eqn:E2;
      [|exact T1].
    destruct (markText_result _ _ _ _ _ E2) as (-> & _ & Hc & _ & Hk).
    apply T3. destruct T1 as [Gl Gm]. split; simpl.
    + intros x Hx. rewrite Hc in Hx. apply in_or_app. left. apply Gl, Hx.
    + intros x Hx. apply in_or_app. destruct (Hk x Hx) as [Hin | ->].
      * left. apply Gm, Hin.
      * right. left. reflexivity.
  - apply T3, T1.
Qed.

Lemma animateResult_tracked st :
  Props.keeps_tracked st (Controller.animateResult st).
Proof.
  unfold Controller.animateResult.
  destruct (Controller.resultOutput st); intros H; exact H.
Qed.

Lemma try_block_tracked outcome :
  Props.always Props.keeps_tracked (Controller.try_block outcome).
Proof.
  unfold Controller.try_block, Controller.showErrorWithHighlighting,
    Controller.showError_value.
  destruct outcome as [message | data].
  - apply (always_throw _ keeps_tracked_refl).
  - always_tac keeps_tracked_refl keeps_tracked_trans
      ltac:(first [ apply animateResult_tracked | intros H; exact H ]);
      apply highlight_location_tracked.
Qed.

Lemma compile_resume_tracked outcome st :
  Props.keeps_tracked st (Controller.compile_resume outcome st).
Proof.
  unfold Controller.compile_resume.
  pose proof (try_block_tracked outcome st) as H.
  destruct (Controller.try_block outcome st) as [[u | message] st'];
    intros Ht; apply H in Ht; exact Ht.
Qed.

Lemma compile_tracked st :
  Props.keeps_tracked st (snd (Controller.compile st)).
Proof.
  unfold Controller.compile. destruct (negb _); cbn [snd].
  - intros H. exact H.
  - intros H. apply clearErrorMarkers_tracked in H. exact H.
Qed.

Lemma step_tracked ev st : Props.keeps_tracked st (Controller.step ev st).
Proof.
  destruct ev as [| | text kl km | shown | outcome]; simpl.
  - destruct (Controller.compileBtn_disabled st);
      [apply keeps_tracked_refl | apply compile_tracked].
  - apply compile_tracked.
  - intros [Hl Hm]. split; simpl; intros x Hx; apply filter_In in Hx;
      [apply Hl | apply Hm]; apply Hx.
  - intros H. exact H.
  - destruct (Controller.pending st);
      [apply keeps_tracked_refl|].
    intros H. apply (compile_resume_tracked outcome (Controller.wake st)).
    exact H.
Qed.

Lemma run_tracked events :
  forall st, Props.tracked st -> Props.tracked (Controller.run events st).
Proof.
  induction events as [|ev rest IH]; intros st H; [exact H|].
  apply (IH (Controller.step ev st)), step_tracked, H.
Qed.

Lemma loaded_tracked text : Props.tracked (Controller.loaded text).
Proof. split; intros x []. Qed.

Lemma loaded_one_attempt text : Props.one_attempt (Controller.loaded text).
Proof.
  unfold Props.one_attempt. simpl.
  split; [lia|]. split; [lia|]. reflexivity.
Qed.

(** C6, as stated, fails: when a second attempt is started before the first
    one has been answered (Ctrl+Enter twice), each start finds the registry
    empty, and the two failure responses then leave the handles of both
    attempts in it: four handles, where one attempt makes two. *)
Lemma C6_two_attempts_of_markers :
  Controller.errorMarkers
    (Controller.run Props.overlapping (Controller.loaded "int x = ;"))
  = [Editor.LineHandle 0; Editor.TextMarker 0;
     Editor.LineHandle 0; Editor.TextMarker 1]
  /\ Controller.errorMarkers
       (Controller.run
          [Controller.CtrlEnter;
           Controller.Settle
             (Net.Json (Props.failure "Unexpected token ';' at 1:9" []))]
          (Controller.loaded "int x = ;"))
     = [Editor.LineHandle 0; Editor.TextMarker 0]
  /\ Props.sequential Props.overlapping (Controller.loaded "int x = ;") = false.
Proof. repeat split. Qed.

(** C6, amended.  [clearErrorMarkers] empties the registry, and a second
    call in succession finds it empty and changes nothing; on every page the
    scripts can reach it also leaves no error line and no error mark in the
    editor.  Every attempt on a non-empty text empties the registry before
    it parks, hence before its response can add anything, and the rest of
    the attempt adds at most two handles.  So, as long as no attempt is
    started while another is in flight, the registry never holds more than
    the two handles of one attempt. *)
Theorem C6_one_attempt_of_markers_unless_overlapping :
  forall (events : list Controller.event) (text : string),
    Props.sequential events (Controller.loaded text) = true ->
    let st := Controller.run events (Controller.loaded text) in
    (List.length (Controller.errorMarkers st) <= 2)%nat
    /\ (forall s : Controller.state,
          Controller.errorMarkers (Controller.clearErrorMarkers s) = []
          /\ Controller.clearErrorMarkers (Controller.clearErrorMarkers s)
             = Controller.clearErrorMarkers s)
    /\ (forall (others : list Controller.event),
          let s := Controller.run others (Controller.loaded text) in
          Editor.line_classes
            (Controller.editor (Controller.clearErrorMarkers s)) = []
          /\ Editor.text_marks
               (Controller.editor (Controller.clearErrorMarkers s)) = [])
    /\ (forall s s' : Controller.state,
          Controller.compile s = (Net.Awaiting, s') ->
          Controller.errorMarkers s' = [])
    /\ (forall (outcome : Net.settled) (s : Controller.state),
          (List.length
             (Controller.errorMarkers (Controller.compile_resume outcome s))
           <= List.length (Controller.errorMarkers s) + 2)%nat).
Proof.
  intros events text Hs. cbv zeta.
  split; [|split; [|split; [|split]]].
  - apply (run_one_attempt events _ Hs (loaded_one_attempt text)).
  - intros s. split;
      [apply clearErrorMarkers_empties | apply clearErrorMarkers_idempotent].
  - intros others. apply clearErrorMarkers_clears_view, run_tracked,
      loaded_tracked.
  - intros s s' H. apply (compile_awaiting_cleared _ _ H).
  - intros outcome s. apply compile_resume_grows.
Qed.

Lemma C6_witness :
  Props.sequential Props.one_by_one (Controller.loaded "int x = ;") = true
  /\ (List.length
        (Controller.errorMarkers
           (Controller.run Props.one_by_one (Controller.loaded "int x = ;")))
      <= 2)%nat.
Proof.
  split; [reflexivity|].
  exact (proj1 (C6_one_attempt_of_markers_unless_overlapping
                  Props.one_by_one "int x = ;" eq_refl)).
Defined.

(** ** The diagnostic parser *)

Lemma strip_prefix_spec p :
  forall s r, Js.strip_prefix p s = Some r <-> s = p ++ r.
Proof.
  induction p as [|a p IH]; intros s r; simpl.
  - split; congruence.
  - destruct s as [|b s].
    + split; discriminate.
    + destruct (Ascii.eqb_spec a b) as [->|Hne].
      * rewrite IH. split; congruence.
      * split; [discriminate | congruence].
Qed.

Lemma span_spec f :
  forall s run tl,
    Js.span f s = (run, tl) ->
    s = run ++ tl
    /\ Diagnostic.all_chars f run = true
    /\ (forall c tl', tl = String c tl' -> f c = false).
Proof.
  induction s as [|c s IH]; intros run tl H; simpl in H.
  - inversion H; subst. repeat split. discriminate.
  - destruct (f c) eqn:Hc.
    + destruct (Js.span f s) as [run' tl'] eqn:E. inversion H; subst.
      destruct (IH run' tl eq_refl) as (Hs & Ha & Ht).
      simpl. rewrite Hc, Ha, <- Hs. repeat split. exact Ht.
    + inversion H; subst. repeat split.
      intros c' tl' Heq. inversion Heq; subst. exact Hc.
Qed.

Lemma span_app f l :
  forall s,
    Diagnostic.all_chars f l = true ->
    Js.span f (l ++ s) = (l ++ fst (Js.span f s), snd (Js.span f s)).
Proof.
  induction l as [|c l IH]; intros s H; simpl in *.
  - destruct (Js.span f s); reflexivity.
  - apply andb_true_iff in H. destruct H as [Hc Hl].
    rewrite Hc, (IH s Hl). reflexivity.
Qed.

Lemma span_all f l :
  Diagnostic.all_chars f l = true -> Js.span f l = (l, EmptyString).
Proof.
  induction l as [|c l IH]; intros H; simpl in *; [reflexivity|].
  apply andb_true_iff in H. destruct H as [Hc Hl].
  rewrite Hc, (IH Hl). reflexivity.
Qed.

Lemma nonempty_spec s : Regex.nonempty s = true <-> s <> EmptyString.
Proof. destruct s; simpl; split; congruence. Qed.

(** A match of the pattern at the head of a text, read back. *)
Lemma at_line_col_sound text f :
  Regex.at_line_col text = Some f ->
  exists l c after,
    text = "at " ++ l ++ ":" ++ c ++ after
    /\ Diagnostic.is_number l /\ Diagnostic.is_number c
    /\ Regex.groups f = [l; c].
Proof.
  unfold Regex.at_line_col.
  destruct (Js.strip_prefix "at " text) as [rest|] eqn:E1; [|discriminate].
  destruct (Js.span Js.is_digit rest) as [l tl] eqn:E2.
  destruct (Js.strip_prefix ":" tl) as [tl'|] eqn:E3; [|discriminate].
  destruct (Js.span Js.is_digit tl') as [c after] eqn:E4.
  destruct (Regex.nonempty l && Regex.nonempty c) eqn:E5; [|discriminate].
  intros H. inversion H; subst. clear H.
  apply strip_prefix_spec in E1. apply strip_prefix_spec in E3.
  apply span_spec in E2. apply span_spec in E4.
  destruct E2 as (E2 & Hl & _). destruct E4 as (E4 & Hc & _).
  apply andb_true_iff in E5. destruct E5 as [Nl Nc].
  apply nonempty_spec in Nl. apply nonempty_spec in Nc.
  exists l, c, after. subst. repeat split; assumption.
Qed.

Lemma append_empty_r (s : string) : s ++ EmptyString = s.
Proof. induction s as [|c s IH]; simpl; [|rewrite IH]; reflexivity. Qed.


(** [search] finds a match, and the leftmost one. *)
Lemma search_sound re :
  forall text f,
    Regex.search re text = Some f ->
    exists before rest,
      text = before ++ rest /\ re rest = Some f
      /\ forall b1 b2, before = b1 ++ b2 -> b2 <> EmptyString ->
                       re (b2 ++ rest) = None.
Proof.
  induction text as [|a text IH]; intros f H; simpl in H.
  - exists EmptyString, EmptyString. split; [reflexivity|].
    destruct (re EmptyString) eqn:E; [|discriminate].
    split; [congruence|]. intros b1 b2 Hb Hn.
    destruct b1; [simpl in Hb; congruence | discriminate].
  - destruct (re (String a text)) as [f0|] eqn:E.
    + exists EmptyString, (String a text). split; [reflexivity|].
      split; [congruence|]. intros b1 b2 Hb Hn.
      destruct b1; [simpl in Hb; congruence | discriminate].
    + destruct (IH f H) as (before & rest & Ht & Hr & Hleft).
      exists (String a before), rest. subst text.
      split; [reflexivity|]. split; [exact Hr|].
      intros b1 b2 Hb Hn. destruct b1 as [|x b1]; simpl in Hb.
      * subst b2. exact E.
      * inversion Hb; subst. apply (Hleft b1 b2 eq_refl Hn).
Qed.


(** Two ways of cutting one text: the longer first part extends the
    shorter one. *)
Lemma append_split :
  forall c a b d : string,
    a ++ b = c ++ d -> (String.length c < String.length a)%nat ->
    exists m, a = c ++ m /\ m <> EmptyString /\ d = m ++ b.
Proof.
  induction c as [|x c IH]; intros a b d H Hlen; simpl in *.
  - exists a. repeat split; [|congruence].
    destruct a; [simpl in Hlen; lia | discriminate].
  - destruct a as [|y a]; simpl in *; [lia|].
    inversion H; subst.
    destruct (IH a b d H2 ltac:(lia)) as (m & Ha & Hm & Hd).
    exists m. subst. repeat split; assumption.
Qed.

(** *** Numbers *)

Lemma round_nat_small n : n < 2 ^ 53 -> Js.round_nat n = Some n.
Proof.
  intros H. unfold Js.round_nat.
  destruct (Z.ltb_spec n (2 ^ 53)) as [_ | Hge]; [reflexivity | lia].
Qed.

(** Below 2^53 an integer is a double as it is. *)
Lemma to_number_small z : - 2 ^ 53 < z < 2 ^ 53 -> Js.to_number z = Js.Num z.
Proof.
  intros [Hlo Hhi]. unfold Js.to_number.
  destruct (Z.ltb_spec z 0) as [Hneg | Hpos].
  - rewrite round_nat_small by lia. f_equal. lia.
  - rewrite round_nat_small by lia. reflexivity.
Qed.

Lemma to_number_not_NaN z : Js.isNaN (Js.to_number z) = false.
Proof.
  unfold Js.to_number.
  destruct (z <? 0); [destruct (Js.round_nat (- z)) | destruct (Js.round_nat z)];
    reflexivity.
Qed.

Lemma minus_one_not_NaN x : Js.isNaN x = false -> Js.isNaN (Js.minus_one x) = false.
Proof.
  destruct x; intros H; try discriminate H; try reflexivity.
  apply to_number_not_NaN.
Qed.




(** A digit is no white space and no sign, so [parseInt] reads a number
    from its first character on. *)
Lemma parseInt_starts_with_digit d rest :
  Js.is_digit d = true ->
  Js.parseInt (String d rest)
  = Js.to_number
      (Js.digits_value 0 (fst (Js.span Js.is_digit (String d rest)))).
Proof.
  intros H. unfold Js.parseInt.
  assert (Ht : Js.trimStart (String d rest) = String d rest).
  { destruct d as [[] [] [] [] [] [] [] []]; try discriminate H;
      destruct rest as [|b [|c r]]; reflexivity. }
  rewrite Ht.
  assert (Hs : (match String d rest with
                | String "-" r => (true, r)
                | String "+" r => (false, r)
                | _ => (false, String d rest)
                end) = (false, String d rest)).
  { destruct d as [[] [] [] [] [] [] [] []]; try discriminate H; reflexivity. }
  rewrite Hs. cbn [Js.span]. rewrite H.
  destruct (Js.span Js.is_digit rest) as [run tl]. reflexivity.
Qed.

Lemma parseInt_number l :
  Diagnostic.is_number l ->
  Js.parseInt l = Js.to_number (Js.digits_value 0 l).
Proof.
  intros [Hn Ha]. destruct l as [|d rest]; [contradiction|].
  pose proof Ha as Hd. simpl in Hd. apply andb_true_iff in Hd.
  rewrite (parseInt_starts_with_digit d rest (proj1 Hd)).
  rewrite (span_all _ _ Ha). reflexivity.
Qed.

(** After a match both numbers parse: neither the line nor the column is
    [NaN] there, and the guard of the column always lets it through. *)
Lemma location_of_match text f :
  Regex.at_line_col text = Some f ->
  exists l c after,
    text = "at " ++ l ++ ":" ++ c ++ after
    /\ Diagnostic.is_number l /\ Diagnostic.is_number c
    /\ Diagnostic.location_of f
       = {| Diagnostic.line :=
              Js.minus_one (Js.to_number (Js.digits_value 0 l));
            Diagnostic.column :=
              Some (Js.minus_one (Js.to_number (Js.digits_value 0 c))) |}.
Proof.
  intros H. destruct (at_line_col_sound text f H) as (l & c & after & Ht & Hl & Hc & Hg).
  exists l, c, after. repeat split; try assumption; try apply Hl; try apply Hc.
  unfold Diagnostic.location_of, Regex.group. rewrite Hg. cbn [nth].
  rewrite (parseInt_number l Hl), (parseInt_number c Hc).
  rewrite (minus_one_not_NaN _ (to_number_not_NaN (Js.digits_value 0 c))).
  reflexivity.
Qed.



(** The line of a located error is never [NaN]. *)
Lemma search_line_not_NaN message f :
  Regex.search Regex.at_line_col message = Some f ->
  Js.isNaN (Diagnostic.line (Diagnostic.location_of f)) = false.
Proof.
  intros E. destruct (search_sound _ _ _ E) as (before & rest & _ & Hr & _).
  destruct (location_of_match _ _ Hr) as (l & c & after & _ & _ & _ & ->).
  apply minus_one_not_NaN, to_number_not_NaN.
Qed.




(** ** The operator pass of the bytecode highlighter *)

Lemma replace_no_match re template c rest :
  re (String c rest) = None ->
  Regex.replace re template (String c rest)
  = String c (Regex.replace re template rest).
Proof. intros H. unfold Regex.replace. simpl. rewrite H. reflexivity. Qed.

Lemma operator_needs_initial c rest :
  Props.is_initial c = false -> Regex.operator (String c rest) = None.
Proof.
  intros H.
  destruct c as [[] [] [] [] [] [] [] []]; try discriminate H; reflexivity.
Qed.

(** An operator name at the head of the text is wrapped, whatever follows. *)
Lemma replace_operators_head name rest :
  In name Regex.operator_names ->
  Highlight.replace_operators (name ++ rest)
  = Highlight.span_of "bytecode-op" name ++ Highlight.replace_operators rest.
Proof.
  intros H. simpl in H.
  repeat (destruct H as [<- | H]; [reflexivity|]). destruct H.
Qed.

(** C8, as stated, fails: [Address] is one word and not an operator name,
    and so is the name [Addend] inside the quotes of a variable access, yet
    the [Add] at their head is wrapped as an operator (after which the
    variable access is no longer recognised as one). *)
Lemma C8_operator_inside_longer_word :
  Props.is_word "Address" = true
  /\ Props.is_operator_name "Address" = false
  /\ Highlight.highlightBytecode "Address"
     = Highlight.span_of "bytecode-op" "Add" ++ "ress"
  /\ Highlight.highlightBytecode "Address" <> "Address"
  /\ Highlight.highlightBytecode ("StoreVariable(" ++ Js.quoted "Addend" ++ ")")
     = "StoreVariable("
       ++ Js.quoted (Highlight.span_of "bytecode-op" "Add" ++ "end") ++ ")".
Proof.
  split; [reflexivity|]. split; [reflexivity|]. split; [reflexivity|].
  split; [discriminate | reflexivity].
Qed.

(** ** The success branch in general, and the scenarios of the spec *)

(** The continuation on a body without a truthy [error], when neither the
    conversion of the result nor the formatting of the bytecode throws. *)
Lemma compile_resume_success fields shown markup st :
  let property key :=
    match Js.own_property key fields with
    | Some x => x
    | None => Js.JUndefined
    end in
  Js.truthy (property "error") = false ->
  Js.toString (Controller.or_else (property "result")
                 (Js.JStr Controller.no_output)) = Js.Normal shown ->
  Highlight.formatBytecode (property "bytecode") = Js.Normal markup ->
  Controller.compile_resume (Net.Json (Js.JObj fields)) st
  = Controller.setLoadingState false
      (Controller.animateResult
         (Controller.set_bytecodeOutput (Controller.InnerHTML markup)
            (Controller.set_resultOutput
               (Controller.InnerHTML (Controller.result_markup shown)) st))).
Proof.
  cbv zeta. intros He Hs Hb.
  unfold Controller.compile_resume, Controller.try_block, Stmt.bind, Stmt.eval,
    Stmt.effect, Js.get.
  rewrite He, Hs, Hb. reflexivity.
Qed.

(** A result that is present and truthy is what the result panel shows; a
    result that is present and falsy is replaced by the placeholder. *)
Lemma result_panel_on_success fields result shown markup st :
  Js.own_property "error" fields = None ->
  Js.own_property "result" fields = Some result ->
  Js.toString result = Js.Normal shown ->
  Highlight.formatBytecode
    (match Js.own_property "bytecode" fields with
     | Some x => x
     | None => Js.JUndefined
     end) = Js.Normal markup ->
  Controller.resultOutput
    (Controller.compile_resume (Net.Json (Js.JObj fields)) st)
  = Controller.InnerHTML
      (Controller.result_markup
         (if Js.truthy result then shown else Controller.no_output)).
Proof.
  intros He Hr Hs Hb.
  rewrite (compile_resume_success fields
             (if Js.truthy result then shown else Controller.no_output)
             markup st).
  - reflexivity.
  - rewrite He. reflexivity.
  - rewrite Hr. unfold Controller.or_else.
    destruct (Js.truthy result); [exact Hs | reflexivity].
  - exact Hb.
Qed.

(** The failure scenario: the message is shown as it came, line 1 and
    column 4 (zero-based) are highlighted, the registry holds two handles,
    and the next attempt starts by emptying it. *)
Lemma failure_scenario :
  Controller.errorContent Props.after_failure = "Unexpected token ';' at 2:5"
  /\ Controller.errorMarkers Props.after_failure
     = [Editor.LineHandle 1; Editor.TextMarker 0]
  /\ Editor.line_classes (Controller.editor Props.after_failure) = [1]
  /\ Editor.text_marks (Controller.editor Props.after_failure)
     = [(O, (Editor.mk_place 1 4, Editor.mk_place 1 5))]
  /\ Editor.scrolled_to (Controller.editor Props.after_failure)
     = Some (Editor.mk_place 1 0)
  /\ Controller.errorMarkers
       (Controller.step Controller.CtrlEnter Props.after_failure) = []
  /\ Editor.line_classes
       (Controller.editor
          (Controller.step Controller.CtrlEnter Props.after_failure)) = [].
Proof. repeat split. Qed.

(** The tokenizer examples: the value of a push, and a variable access. *)
Lemma highlight_examples :
  Highlight.highlightBytecode "Push(42)"
  = "Push(" ++ Highlight.span_of "bytecode-value" "42" ++ ")"
  /\ Highlight.highlightBytecode ("LoadVariable(" ++ Js.quoted "x" ++ ")")
     = Highlight.span_of "bytecode-var" "LoadVariable"
       ++ "(" ++ Js.quoted "x" ++ ")".
Proof. split; reflexivity. Qed.

(** * Further properties of the two scripts *)

(** ** Requests and parked calls over a whole trace *)

Lemma compile_traffic st :
  (List.length (Controller.network (snd (Controller.compile st)))
   <= S (List.length (Controller.network st)))%nat
  /\ (List.length (Controller.network st)
      <= List.length (Controller.network (snd (Controller.compile st))))%nat.
Proof.
  unfold Controller.compile. destruct (negb _); cbn [snd]; simpl.
  - lia.
  - rewrite length_app. simpl. lia.
Qed.

Lemma step_requests ev st :
  (List.length (Controller.network (Controller.step ev st))
   <= List.length (Controller.network st)
      + (if More.is_trigger ev then 1 else 0))%nat.
Proof.
  destruct ev as [| | text kl km | shown | outcome]; simpl More.is_trigger.
  - simpl. destruct (Controller.compileBtn_disabled st); [lia|].
    pose proof (compile_traffic st). lia.
  - pose proof (compile_traffic st). simpl. lia.
  - simpl. lia.
  - simpl. lia.
  - simpl. destruct (Controller.pending st); [lia|].
    destruct (compile_resume_traffic outcome (Controller.wake st)) as [Hn _].
    rewrite Hn. simpl. lia.
Qed.

Lemma run_requests events :
  forall st,
    (List.length (Controller.network (Controller.run events st))
     <= List.length (Controller.network st) + More.triggers events)%nat.
Proof.
  induction events as [|ev rest IH]; intros st.
  - simpl. unfold More.triggers. simpl. lia.
  - change (Controller.run (ev :: rest) st)
      with (Controller.run rest (Controller.step ev st)).
    specialize (IH (Controller.step ev st)).
    pose proof (step_requests ev st) as Hs.
    unfold More.triggers in *. simpl filter.
    destruct (More.is_trigger ev); simpl List.length; lia.
Qed.

Lemma compile_consistent st :
  More.consistent st -> More.consistent (snd (Controller.compile st)).
Proof.
  intros (H1 & H2 & H3). unfold Controller.compile.
  destruct (negb _); cbn [snd].
  - exact (conj H1 (conj H2 H3)).
  - unfold More.consistent. simpl. rewrite length_app. simpl.
    split; [discriminate|]. split; [tauto | lia].
Qed.

Lemma step_consistent ev st :
  More.consistent st -> More.consistent (Controller.step ev st).
Proof.
  intros H. destruct ev as [| | text kl km | shown | outcome]; simpl.
  - destruct (Controller.compileBtn_disabled st) eqn:E;
      [exact H | apply compile_consistent, H].
  - apply compile_consistent, H.
  - exact H.
  - exact H.
  - destruct (Controller.pending st) as [|n] eqn:Hp; [exact H|].
    destruct H as (H1 & H2 & H3).
    destruct (compile_resume_traffic outcome (Controller.wake st)) as [Hn Hq].
    destruct (compile_resume_releases outcome (Controller.wake st)) as [Hd Hs].
    unfold More.consistent. rewrite Hn, Hq, Hd, Hs. simpl. rewrite Hp. simpl.
    split; [discriminate|]. split; [split; discriminate | lia].
Qed.

Lemma run_consistent events :
  forall st, More.consistent st -> More.consistent (Controller.run events st).
Proof.
  induction events as [|ev rest IH]; intros st H; [exact H|].
  apply (IH (Controller.step ev st)), step_consistent, H.
Qed.

Lemma loaded_consistent text : More.consistent (Controller.loaded text).
Proof.
  unfold More.consistent. simpl.
  split; [discriminate|]. split; [split; discriminate | lia].
Qed.

(** X1.  Over any sequence of events on the loaded page, the requests sent
    never outnumber the calls of [compile] made by a handler: one for each
    click that reaches the listener of the button, and one for each time a
    key handler calls it (the key map of the editor and the listener of the
    document count separately, so a single press of Ctrl+Enter inside the
    editor is two calls).  Nothing is sent on load, on an edit, on a change
    of the view or on a response; and every parked call has a request of
    its own. *)
Theorem requests_bounded_by_triggers :
  forall (events : list Controller.event) (text : string),
    let st := Controller.run events (Controller.loaded text) in
    (List.length (Controller.network st) <= More.triggers events)%nat
    /\ (Controller.pending st <= List.length (Controller.network st))%nat.
Proof.
  intros events text. cbv zeta. split.
  - pose proof (run_requests events (Controller.loaded text)) as H.
    simpl in H. exact H.
  - apply (run_consistent events _ (loaded_consistent text)).
Qed.

(** X2.  On every page reachable from the loaded one, the compile button is
    disabled only while some call is parked at its [await], and the spinner
    is shown exactly when the button is disabled: the button is never left
    disabled with nothing in flight. *)
Theorem button_disabled_only_in_flight :
  forall (events : list Controller.event) (text : string),
    let st := Controller.run events (Controller.loaded text) in
    (Controller.compileBtn_disabled st = true -> Controller.pending st <> O)
    /\ (Controller.compileBtn_disabled st = true
        <-> Controller.spinner_display st = "block").
Proof.
  intros events text. cbv zeta.
  destruct (run_consistent events _ (loaded_consistent text)) as (H1 & H2 & _).
  split; assumption.
Qed.

(** ** The panels once a response has been handled *)

Lemma try_block_normal outcome st u st' :
  Controller.try_block outcome st = (Js.Normal u, st') ->
  More.final_panels st'.
Proof.
  unfold Controller.try_block. destruct outcome as [message | data].
  - discriminate.
  - unfold Stmt.bind at 1. unfold Stmt.eval at 1.
    destruct (Js.get data "error") as [error | m]; [|discriminate].
    destruct (Js.truthy error).
    + unfold Stmt.bind at 1.
      destruct (Controller.showErrorWithHighlighting error st) as [[v | m] s1];
        [|discriminate].
      intros H. inversion H; subst. apply More.panels_failed; reflexivity.
    + unfold Stmt.bind, Stmt.eval, Stmt.effect.
      destruct (Js.get data "result") as [result | m]; [|discriminate].
      destruct (Js.toString _) as [shown | m]; [|discriminate].
      destruct (Js.get data "bytecode") as [bytecode | m]; [|discriminate].
      destruct (Highlight.formatBytecode bytecode) as [markup | m];
        [|discriminate].
      intros H. inversion H; subst.
      apply (More.panels_succeeded _ shown markup); reflexivity.
Qed.

Lemma compile_resume_final outcome st :
  More.final_panels (Controller.compile_resume outcome st).
Proof.
  unfold Controller.compile_resume.
  destruct (Controller.try_block outcome st) as [[u | message] st'] eqn:E.
  - destruct (try_block_normal _ _ _ _ E) as [Hr Hb | shown markup Hr Hb | Hr Hb].
    + apply More.panels_failed; assumption.
    + apply (More.panels_succeeded _ shown markup); assumption.
    + apply More.panels_unreachable; assumption.
  - apply More.panels_unreachable; reflexivity.
Qed.

(** X3.  However the awaits settle, the continuation leaves the result and
    bytecode panels in one of three configurations: the two failure texts,
    the result markup with a bytecode markup, or the two connection-failure
    texts.  In particular the pending placeholders written when the attempt
    started never survive the response. *)
Theorem panels_final_after_response :
  forall (outcome : Net.settled) (st : Controller.state),
    let st' := Controller.compile_resume outcome st in
    More.final_panels st'
    /\ Controller.resultOutput st'
       <> Controller.TextContent Controller.compiling_result
    /\ Controller.bytecodeOutput st'
       <> Controller.TextContent Controller.compiling_bytecode.
Proof.
  intros outcome st. cbv zeta.
  pose proof (compile_resume_final outcome st) as H.
  split; [exact H|].
  destruct H as [Hr Hb | shown markup Hr Hb | Hr Hb]; rewrite Hr, Hb;
    split; discriminate.
Qed.

Lemma button_disabled_witness :
  Controller.compileBtn_disabled
    (Controller.run [Controller.CtrlEnter] (Controller.loaded "1;")) = true
  /\ Controller.pending
       (Controller.run [Controller.CtrlEnter] (Controller.loaded "1;")) <> O.
Proof.
  split; [reflexivity|].
  apply (proj1 (button_disabled_only_in_flight [Controller.CtrlEnter] "1;")).
  reflexivity.
Defined.

(** ** What a located error adds to the editor *)

Lemma lines_of_nonempty s : (1 <= List.length (Editor.lines_of s))%nat.
Proof.
  induction s as [|c s IH]; simpl; [lia|].
  destruct (Ascii.eqb c Js.newline); simpl; [lia|].
  destruct (Editor.lines_of s); simpl in *; lia.
Qed.

Lemma lastLine_nonneg e : 0 <= Editor.lastLine e.
Proof.
  unfold Editor.lastLine. pose proof (lines_of_nonempty (Editor.value e)). lia.
Qed.

Lemma clipLine_range e n l :
  Editor.clipLine e n = Some l -> 0 <= l <= Editor.lastLine e.
Proof.
  pose proof (lastLine_nonneg e).
  destruct n; simpl; intros E; inversion E; subst; lia.
Qed.

Lemma clipLine_on_a_line e l :
  0 <= l <= Editor.lastLine e -> Editor.clipLine e (Js.Num l) = Some l.
Proof. intros H. simpl. f_equal. lia. Qed.

(** The three calls of [highlight_location] one after the other, for a
    line and a column that are numbers: the first two do not throw, and
    the registry has both handles whatever the third does. *)
Lemma highlight_location_steps f st l :
  let line := Js.minus_one (Js.parseInt (Regex.group 0 f)) in
  let col := Js.minus_one (Js.parseInt (Regex.group 1 f)) in
  let done e :=
    Controller.set_errorMarkers
      (Controller.errorMarkers st
       ++ [Editor.LineHandle l;
           Editor.TextMarker (Editor.next_id (Controller.editor st))])
      (Controller.set_editor e st) in
  Editor.clipLine (Controller.editor st) line = Some l ->
  Js.isNaN col = false ->
  exists e1 e2,
    Editor.addLineClass line (Controller.editor st)
    = Js.Normal (Editor.LineHandle l, e1)
    /\ Editor.markText (Editor.mk_position line col)
         (Editor.mk_position line (Js.plus_one col)) e1
       = Js.Normal (Editor.TextMarker (Editor.next_id (Controller.editor st)), e2)
    /\ Controller.highlight_location f st
       = match Editor.scrollIntoView line e2 with
         | Js.Normal (_, e3) => (Js.Normal tt, done e3)
         | Js.Throw thrown => (Js.Throw thrown, done e2)
         end.
Proof.
  cbv zeta. intros Hl Hcol.
  assert (Hline : Js.isNaN (Js.minus_one (Js.parseInt (Regex.group 0 f))) = false).
  { destruct (Js.minus_one (Js.parseInt (Regex.group 0 f)));
      [discriminate Hl | reflexivity | reflexivity | reflexivity]. }
  destruct (Editor.addLineClass (Js.minus_one (Js.parseInt (Regex.group 0 f)))
              (Controller.editor st)) as [[m e1] | thrown] eqn:E1.
  2: { unfold Editor.addLineClass in E1. rewrite Hl in E1. discriminate E1. }
  destruct (addLineClass_result _ _ _ _ E1) as (l0 & Hl0 & -> & _ & _ & Hid & _).
  rewrite Hl in Hl0. inversion Hl0; subst l0. clear Hl0.
  destruct (markText_normal
              (Editor.mk_position (Js.minus_one (Js.parseInt (Regex.group 0 f)))
                 (Js.minus_one (Js.parseInt (Regex.group 1 f))))
              (Editor.mk_position (Js.minus_one (Js.parseInt (Regex.group 0 f)))
                 (Js.plus_one (Js.minus_one (Js.parseInt (Regex.group 1 f)))))
              e1 Hline Hline) as [e2 E2].
  rewrite Hid in E2.
  exists e1, e2. split; [reflexivity|]. split; [exact E2|].
  unfold Controller.highlight_location. cbv zeta.
  unfold Stmt.bind at 1. unfold Controller.editor_call at 1. rewrite E1.
  unfold Stmt.bind at 1. unfold Stmt.effect at 1.
  unfold Stmt.bind at 1. rewrite Hcol. cbn [negb].
  unfold Stmt.bind at 1. unfold Controller.editor_call at 1.
  cbn [Controller.editor Controller.push_marker Controller.set_errorMarkers
         Controller.set_editor].
  rewrite E2. unfold Stmt.effect. unfold Controller.editor_call.
  cbn [Controller.editor Controller.push_marker Controller.set_errorMarkers
         Controller.set_editor].
  destruct (Editor.scrollIntoView _ e2) as [[[] e3] | thrown];
    unfold Controller.push_marker, Controller.set_errorMarkers,
      Controller.set_editor; simpl; rewrite <- app_assoc; reflexivity.
Qed.

(** What [location_of] says of the two numbers [highlight_location]
    works with. *)
Lemma location_of_numbers f line col :
  Diagnostic.location_of f
  = {| Diagnostic.line := line; Diagnostic.column := Some col |} ->
  Js.minus_one (Js.parseInt (Regex.group 0 f)) = line
  /\ Js.minus_one (Js.parseInt (Regex.group 1 f)) = col
  /\ Js.isNaN col = false.
Proof.
  unfold Diagnostic.location_of. intros H. inversion H as [[Hl Hc]].
  destruct (Js.isNaN (Js.minus_one (Js.parseInt (Regex.group 1 f)))) eqn:E;
    simpl in Hc; [discriminate Hc|].
  inversion Hc; subst. repeat split. exact E.
Qed.

(** A mark over one character of the text is kept as asked. *)
Lemma markText_on_character e l c :
  0 <= l <= Editor.lastLine e ->
  0 <= c < Editor.lineLength e l ->
  c + 1 < 2 ^ 53 ->
  Editor.markText (Editor.mk_position (Js.Num l) (Js.Num c))
    (Editor.mk_position (Js.Num l) (Js.plus_one (Js.Num c))) e
  = Js.Normal
      (Editor.TextMarker (Editor.next_id e),
       {| Editor.value := Editor.value e;
          Editor.line_classes := Editor.line_classes e;
          Editor.text_marks :=
            Editor.text_marks e
            ++ [(Editor.next_id e, (Editor.mk_place l c, Editor.mk_place l (c + 1)))];
          Editor.next_id := S (Editor.next_id e);
          Editor.scrolled_to := Editor.scrolled_to e;
          Editor.end_in_view := Editor.end_in_view e |}).
Proof.
  intros Hl Hc Hsmall.
  assert (P : 2 ^ 53 = 9007199254740992) by reflexivity.
  unfold Editor.markText, Editor.clipPos, Js.plus_one.
  rewrite (to_number_small (c + 1)) by lia.
  cbn [Editor.pos_line Editor.pos_ch Editor.clip_ch option_map].
  destruct (Z.ltb_spec l 0) as [H1 | _]; [lia|].
  destruct (Z.ltb_spec (Editor.lastLine e) l) as [H2 | _]; [lia|].
  destruct (Z.ltb_spec (Editor.lineLength e l) c) as [H3 | _]; [lia|].
  destruct (Z.ltb_spec c 0) as [H4 | _]; [lia|].
  destruct (Z.ltb_spec (Editor.lineLength e l) (c + 1)) as [H5 | _]; [lia|].
  destruct (Z.ltb_spec (c + 1) 0) as [H6 | _]; [lia|].
  unfold Editor.before. cbn [Editor.place_line Editor.place_ch].
  rewrite Z.eqb_refl, (proj2 (Z.ltb_lt c (c + 1))) by lia.
  rewrite orb_true_r. reflexivity.
Qed.

(** A mark asked for on the line before the first is clipped to nothing. *)
Lemma markText_before_first e c c' :
  Js.isNaN c = false ->
  Editor.markText (Editor.mk_position (Js.Num (-1)) c)
    (Editor.mk_position (Js.Num (-1)) c') e
  = Js.Normal
      (Editor.TextMarker (Editor.next_id e),
       {| Editor.value := Editor.value e;
          Editor.line_classes := Editor.line_classes e;
          Editor.text_marks := Editor.text_marks e ++ [];
          Editor.next_id := S (Editor.next_id e);
          Editor.scrolled_to := Editor.scrolled_to e;
          Editor.end_in_view := Editor.end_in_view e |}).
Proof. intros _. reflexivity. Qed.

(** X4.  [showErrorWithHighlighting] on an error text with a location
    always pushes exactly two handles, that of the line the editor clips
    the line number to and a fresh text marker, and that line gets the
    error class; this is so whether or not the scroll that follows throws.
    When the location is a character of the text, nothing throws, the
    classed line is the line of the location, the editor gets a mark over
    that one character and is scrolled to the start of the line.  When the
    line is the one before the first (the error said line 0), line 0 gets
    the class, no mark stays, and the scroll throws.  On a text without a
    location the registry and the editor are as they were. *)
Theorem located_error_adds_two_markers :
  forall (message : string) (st : Controller.state),
    let attempt := Controller.showErrorWithHighlighting (Js.JStr message) st in
    let st' := snd attempt in
    let e := Controller.editor st in
    match Diagnostic.locate message with
    | Some loc =>
        (exists l',
            Editor.clipLine e (Diagnostic.line loc) = Some l'
            /\ 0 <= l' <= Editor.lastLine e
            /\ Controller.errorMarkers st'
               = (Controller.errorMarkers st
                  ++ [Editor.LineHandle l'; Editor.TextMarker (Editor.next_id e)])%list
            /\ In l' (Editor.line_classes (Controller.editor st')))
        /\ (forall l c,
              More.on_a_character loc e l c ->
              fst attempt = Js.Normal tt
              /\ Controller.errorMarkers st'
                 = (Controller.errorMarkers st
                    ++ [Editor.LineHandle l; Editor.TextMarker (Editor.next_id e)])%list
              /\ In l (Editor.line_classes (Controller.editor st'))
              /\ Editor.text_marks (Controller.editor st')
                 = (Editor.text_marks e
                    ++ [(Editor.next_id e,
                         (Editor.mk_place l c, Editor.mk_place l (c + 1)))])%list
              /\ Editor.scrolled_to (Controller.editor st')
                 = Some (Editor.mk_place l 0))
        /\ (Diagnostic.line loc = Js.Num (-1) ->
            fst attempt = Js.Throw (Editor.no_line (Js.Num (-1)))
            /\ In 0 (Editor.line_classes (Controller.editor st'))
            /\ Editor.text_marks (Controller.editor st') = Editor.text_marks e)
    | None =>
        fst attempt = Js.Normal tt
        /\ Controller.errorMarkers st' = Controller.errorMarkers st
        /\ Controller.editor st' = Controller.editor st
    end.
Proof.
  intros message st. cbv zeta.
  rewrite showErrorWithHighlighting_string. unfold Diagnostic.locate.
  destruct (Regex.search Regex.at_line_col message) as [f|] eqn:E;
    cbn [option_map snd fst]; [|repeat split].
  destruct (search_sound _ _ _ E) as (before & rest & _ & Hr & _).
  destruct (location_of_match _ _ Hr) as (ld & cd & after & _ & _ & _ & Hloc).
  destruct (location_of_numbers f _ _ Hloc) as (_ & Hcol & Hnan).
  clear Hloc.
  pose proof (search_line_not_NaN _ _ E) as Hlnan.
  destruct (clipLine_some (Controller.editor st) _ Hlnan) as [l' Hl'].
  assert (Hl0 : Editor.clipLine
                  (Controller.editor (Controller.showError message st))
                  (Js.minus_one (Js.parseInt (Regex.group 0 f))) = Some l').
  { unfold Diagnostic.location_of in Hl'. exact Hl'. }
  assert (Hc0 : Js.isNaN (Js.minus_one (Js.parseInt (Regex.group 1 f))) = false)
    by (rewrite Hcol; exact Hnan).
  destruct (highlight_location_steps f (Controller.showError message st) l'
              Hl0 Hc0) as (e1 & e2 & E1 & E2 & Hrun).
  cbv zeta in Hrun.
  change (Controller.editor (Controller.showError message st))
    with (Controller.editor st) in *.
  change (Controller.errorMarkers (Controller.showError message st))
    with (Controller.errorMarkers st) in *.
  destruct (addLineClass_result _ _ _ _ E1)
    as (l0 & _ & Hh & Hv1 & Hm1 & Hid1 & Hview1 & Hin1 & _).
  inversion Hh; subst l0. clear Hh.
  destruct (markText_result _ _ _ _ _ E2) as (_ & Hv2 & Hc2 & _ & _).
  assert (Hclass : forall l, In l (Editor.line_classes e1) ->
                     In l (Editor.line_classes
                             (Controller.editor
                                (snd (Controller.highlight_location f
                                        (Controller.showError message st)))))).
  { intros l Hl. rewrite Hrun.
    destruct (Editor.scrollIntoView _ e2) as [[u e3] | thrown] eqn:E3;
      cbn [snd Controller.editor Controller.set_errorMarkers
             Controller.set_editor].
    - destruct (scrollIntoView_result _ _ _ _ E3) as (_ & Hc3 & _).
      rewrite Hc3, Hc2. exact Hl.
    - rewrite Hc2. exact Hl. }
  split; [|split].
  - exists l'. split; [exact Hl'|].
    split; [apply (clipLine_range _ _ _ Hl')|].
    split.
    + rewrite Hrun. destruct (Editor.scrollIntoView _ e2) as [[u e3] | thrown];
        reflexivity.
    + apply Hclass, Hin1.
  - intros l c (Hon & Hlr & Hcr & Hsmall).
    destruct (location_of_numbers f _ _ Hon) as (Hline' & Hcol' & _).
    rewrite Hline' in *. rewrite Hcol' in *.
    rewrite (clipLine_on_a_line _ l Hlr) in Hl0. inversion Hl0; subst l'.
    unfold Editor.addLineClass in E1.
    rewrite (clipLine_on_a_line _ l Hlr) in E1. inversion E1; subst e1. clear E1.
    rewrite markText_on_character in E2 by assumption.
    inversion E2; subst e2. clear E2.
    rewrite Hrun. unfold Editor.scrollIntoView.
    destruct (Z.ltb_spec l 0) as [H1 | _]; [lia|].
    match goal with
    | |- context [Editor.lastLine ?x <? l] =>
        change (Editor.lastLine x) with (Editor.lastLine (Controller.editor st))
    end.
    destruct (Z.ltb_spec (Editor.lastLine (Controller.editor st)) l)
      as [H2 | _]; [lia|].
    cbn [fst snd Controller.editor Controller.set_errorMarkers
           Controller.set_editor Controller.errorMarkers Editor.scrolled
           Editor.line_classes Editor.text_marks Editor.scrolled_to].
    split; [reflexivity|]. split; [reflexivity|].
    split; [|split; reflexivity].
    destruct (Editor.mem_line l (Editor.line_classes (Controller.editor st)))
      eqn:Em; [apply mem_line_in, Em|].
    apply in_or_app. right. left. reflexivity.
  - intros Hminus. unfold Diagnostic.location_of in Hminus.
    cbn [Diagnostic.line] in Hminus. rewrite Hminus in *.
    assert (Hzero : l' = 0).
    { simpl in Hl0. inversion Hl0. pose proof (lastLine_nonneg (Controller.editor st)).
      lia. }
    subst l'.
    rewrite markText_before_first in E2 by exact Hc0.
    inversion E2; subst e2. clear E2.
    rewrite Hrun.
    cbn [Editor.scrollIntoView Z.ltb Z.compare fst snd Controller.editor
           Controller.set_errorMarkers Controller.set_editor
           Editor.line_classes Editor.text_marks].
    split; [reflexivity|].
    split; [exact Hin1 |]. rewrite app_nil_r. exact Hm1.
Qed.

Lemma located_error_witness :
  More.on_a_character
    {| Diagnostic.line := Js.Num 1; Diagnostic.column := Some (Js.Num 4) |}
    (Controller.editor (Controller.loaded Props.two_lines)) 1 4
  /\ Editor.text_marks
       (Controller.editor
          (snd (Controller.showErrorWithHighlighting
                  (Js.JStr "Unexpected token ';' at 2:5")
                  (Controller.loaded Props.two_lines))))
     = [(O, (Editor.mk_place 1 4, Editor.mk_place 1 5))].
Proof.
  assert (H : More.on_a_character
                {| Diagnostic.line := Js.Num 1;
                   Diagnostic.column := Some (Js.Num 4) |}
                (Controller.editor (Controller.loaded Props.two_lines)) 1 4).
  { split; [reflexivity|]. vm_compute. repeat split; discriminate. }
  split; [exact H|].
  pose proof (located_error_adds_two_markers "Unexpected token ';' at 2:5"
                (Controller.loaded Props.two_lines)) as T.
  cbv zeta in T.
  change (Diagnostic.locate "Unexpected token ';' at 2:5")
    with (Some {| Diagnostic.line := Js.Num 1;
                  Diagnostic.column := Some (Js.Num 4) |}) in T.
  destruct T as (_ & T & _).
  destruct (T 1 4 H) as (_ & _ & _ & Hm & _). exact Hm.
Defined.

(** ** When a failure is shown as a failure *)






(** ** One press, two calls *)




(** ** A successful attempt *)

(** X5.  An attempt on a non-empty text that is answered by a body without
    a truthy [error], whose result converts to text and whose bytecode
    formats, leaves no error highlighting behind: the registry is empty, no
    line class and no text mark remains in the editor, the error panel is
    hidden, and the panels show the result and the bytecode markup. *)
Theorem successful_attempt_leaves_no_highlighting :
  forall (st : Controller.state) (fields : list (string * Js.jsval))
         (shown markup : string),
    let property key :=
      match Js.own_property key fields with
      | Some x => x
      | None => Js.JUndefined
      end in
    Props.tracked st ->
    Js.trim (Editor.getValue (Controller.editor st)) <> EmptyString ->
    Js.truthy (property "error") = false ->
    Js.toString (Controller.or_else (property "result")
                   (Js.JStr Controller.no_output)) = Js.Normal shown ->
    Highlight.formatBytecode (property "bytecode") = Js.Normal markup ->
    let st' :=
      Controller.run
        [Controller.CtrlEnter; Controller.Settle (Net.Json (Js.JObj fields))] st in
    Controller.errorMarkers st' = []
    /\ Editor.line_classes (Controller.editor st') = []
    /\ Editor.text_marks (Controller.editor st') = []
    /\ Controller.errorPanel_display st' = "none"
    /\ Controller.resultOutput st'
       = Controller.InnerHTML (Controller.result_markup shown)
    /\ Controller.bytecodeOutput st' = Controller.InnerHTML markup.
Proof.
  cbv zeta. intros st fields shown markup Ht Hn He Hs Hb.
  destruct (clearErrorMarkers_clears_view st Ht) as [Hl Hm].
  unfold Controller.run. cbn [fold_left].
  change (Controller.step Controller.CtrlEnter st)
    with (snd (Controller.compile st)).
  rewrite (compile_nonempty st Hn). cbn [snd].
  rewrite step_settle by discriminate.
  rewrite (compile_resume_success fields shown markup _ He Hs Hb).
  repeat split; try reflexivity; simpl; assumption.
Qed.

Lemma successful_attempt_witness :
  Props.tracked Props.after_failure
  /\ Controller.errorMarkers Props.after_failure <> []
  /\ Controller.errorMarkers
       (Controller.run
          [Controller.CtrlEnter;
           Controller.Settle
             (Net.Json (Props.success (Js.JNum (Js.num_of_Z 40)) ["Push(40)"]))]
          Props.after_failure) = []
  /\ Controller.errorPanel_display
       (Controller.run
          [Controller.CtrlEnter;
           Controller.Settle
             (Net.Json (Props.success (Js.JNum (Js.num_of_Z 40)) ["Push(40)"]))]
          Props.after_failure) = "none".
Proof.
  assert (Ht : Props.tracked Props.after_failure)
    by (apply run_tracked, loaded_tracked).
  split; [exact Ht|]. split; [discriminate|].
  assert (Hn : Js.trim (Editor.getValue (Controller.editor Props.after_failure))
               <> EmptyString) by (vm_compute; discriminate).
  destruct (successful_attempt_leaves_no_highlighting Props.after_failure
              [("result", Js.JNum (Js.num_of_Z 40));
               ("bytecode", Js.JArr (map Js.JStr ["Push(40)"]))]
              "40"
              (Markup.blocks 0 ["Push(40)"])
              Ht Hn eq_refl eq_refl eq_refl) as (Hm & _ & _ & Hd & _).
  split; [exact Hm | exact Hd].
Defined.

(** ** Formatting the bytecode *)

Lemma map_lines_strings lines :
  forall index,
    Highlight.map_lines index (map Js.JStr lines)
    = Js.Normal (Markup.blocks index lines).
Proof.
  induction lines as [|line rest IH]; intros index; simpl; [reflexivity|].
  rewrite IH. reflexivity.
Qed.

Lemma map_lines_normal items :
  forall index markup,
    Highlight.map_lines index items = Js.Normal markup ->
    exists lines, items = map Js.JStr lines.
Proof.
  induction items as [|x rest IH]; intros index markup H.
  - exists []. reflexivity.
  - simpl in H.
    destruct x as [| | b | n | s | l | o]; simpl in H; try discriminate.
    destruct (Highlight.map_lines (S index) rest) as [r | m] eqn:E;
      [|discriminate].
    destruct (IH _ _ E) as [lines ->]. exists (s :: lines). reflexivity.
Qed.

(** X6.  [formatBytecode] completes without throwing exactly on a falsy
    value, on a value whose length is zero, and on an array whose elements
    are all strings; every other value (a number, a non-empty string, an
    object, an array with a number or [null] in it) makes it throw.  On an
    array of strings it gives the placeholder when the array is empty and
    otherwise one block per instruction, in order, numbered from zero. *)
Theorem formatBytecode_completes_iff :
  forall bytecode : Js.jsval,
    ((exists markup, Highlight.formatBytecode bytecode = Js.Normal markup)
     <-> (Js.truthy bytecode = false
          \/ Highlight.length_is_zero bytecode = true
          \/ exists lines, bytecode = Js.JArr (map Js.JStr lines)))
    /\ (forall lines,
          bytecode = Js.JArr (map Js.JStr lines) ->
          Highlight.formatBytecode bytecode
          = Js.Normal (match lines with
                       | [] => Highlight.no_bytecode
                       | _ => Markup.blocks 0 lines
                       end)).
Proof.
  intros bytecode. split; [split|].
  - intros [markup H]. unfold Highlight.formatBytecode in H.
    destruct (Js.truthy bytecode) eqn:Et; [|left; reflexivity].
    destruct (Highlight.length_is_zero bytecode) eqn:Ez;
      [right; left; reflexivity|].
    simpl in H. right. right.
    destruct bytecode as [| | b | n | s | items | o]; try discriminate.
    destruct (map_lines_normal items _ _ H) as [lines ->].
    exists lines. reflexivity.
  - unfold Highlight.formatBytecode.
    intros [Ht | [Hz | [lines ->]]].
    + rewrite Ht. simpl. eexists. reflexivity.
    + rewrite Hz, orb_true_r. eexists. reflexivity.
    + destruct lines as [|line rest]; [eexists; reflexivity|].
      simpl negb. simpl Highlight.length_is_zero. cbn [orb].
      rewrite map_lines_strings. eexists. reflexivity.
  - intros lines ->. unfold Highlight.formatBytecode.
    destruct lines as [|line rest]; [reflexivity|].
    simpl negb. simpl Highlight.length_is_zero. cbn [orb].
    apply map_lines_strings.
Qed.

Lemma formatBytecode_witness :
  Highlight.formatBytecode (Js.JArr (map Js.JStr ["Push(1)"; "Negate"]))
  = Js.Normal (Markup.blocks 0 ["Push(1)"; "Negate"])
  /\ exists message,
       Highlight.formatBytecode
         (Js.JArr [Js.JStr "Push(1)"; Js.JNum (Js.num_of_Z 7)])
       = Js.Throw message.
Proof.
  split.
  - exact (proj2 (formatBytecode_completes_iff
                    (Js.JArr (map Js.JStr ["Push(1)"; "Negate"])))
             ["Push(1)"; "Negate"] eq_refl).
  - eexists. reflexivity.
Defined.

(** X7.  A body that has no truthy [error] and a result that converts, but a
    bytecode that [formatBytecode] throws on, ends in the [catch] block
    although the service has answered: the error panel shows the exception
    behind the words [Network error], both panels show the
    connection-failure texts (the result markup written a moment before is
    overwritten), and the button is released. *)
Theorem malformed_bytecode_reported_as_network_error :
  forall (fields : list (string * Js.jsval)) (shown message : string)
         (st : Controller.state),
    let property key :=
      match Js.own_property key fields with
      | Some x => x
      | None => Js.JUndefined
      end in
    Js.truthy (property "error") = false ->
    Js.toString (Controller.or_else (property "result")
                   (Js.JStr Controller.no_output)) = Js.Normal shown ->
    Highlight.formatBytecode (property "bytecode") = Js.Throw message ->
    let st' := Controller.compile_resume (Net.Json (Js.JObj fields)) st in
    Controller.errorPanel_display st' = "block"
    /\ Controller.errorContent st' = "Network error: " ++ message
    /\ Controller.resultOutput st'
       = Controller.TextContent Controller.unreachable_result
    /\ Controller.bytecodeOutput st'
       = Controller.TextContent Controller.unreachable_bytecode
    /\ Controller.compileBtn_disabled st' = false
    /\ Controller.errorMarkers st' = Controller.errorMarkers st.
Proof.
  cbv zeta. intros fields shown message st He Hs Hb.
  unfold Controller.compile_resume, Controller.try_block, Stmt.bind, Stmt.eval,
    Stmt.effect, Js.get.
  rewrite He, Hs, Hb. repeat split.
Qed.

Lemma malformed_bytecode_witness :
  let fields :=
    [("result", Js.JNum (Js.num_of_Z 3)); ("bytecode", Js.JStr "Push(3)")] in
  Highlight.formatBytecode (Js.JStr "Push(3)")
  = Js.Throw Highlight.not_a_function
  /\ Controller.errorContent
       (Controller.compile_resume (Net.Json (Js.JObj fields)) Props.in_flight)
     = "Network error: " ++ Highlight.not_a_function.
Proof.
  cbv zeta. split; [reflexivity|].
  exact (proj1 (proj2 (malformed_bytecode_reported_as_network_error
                         [("result", Js.JNum (Js.num_of_Z 3));
                          ("bytecode", Js.JStr "Push(3)")]
                         "3" Highlight.not_a_function Props.in_flight
                         eq_refl eq_refl eq_refl))).
Defined.

(** ** The listing of [script.js] *)

Lemma append_associative (a b c : string) : (a ++ b) ++ c = a ++ b ++ c.
Proof. induction a as [|x a IH]; simpl; [|rewrite IH]; reflexivity. Qed.

Lemma join_strings sep lines :
  forall first,
    Js.join sep first (map Js.JStr lines)
    = Js.Normal (match lines with
                 | [] => EmptyString
                 | _ => (if first then EmptyString else sep)
                        ++ String.concat sep lines
                 end).
Proof.
  induction lines as [|a rest IH]; intros first; [reflexivity|].
  simpl map. cbn [Js.join Js.toString]. rewrite (IH false).
  destruct rest as [|b rest'].
  - simpl. destruct first; simpl; rewrite ?append_empty_r; reflexivity.
  - destruct first; simpl; [reflexivity|].
    rewrite append_associative. reflexivity.
Qed.

(** X8.  In [script.js], a body without a truthy [error] whose result
    converts to text and whose bytecode is an array of strings is shown as
    the result behind the words [Result:] and the instructions joined by
    line feeds; when the joined text is empty (no instruction, or a single
    empty one) the bytecode panel shows the placeholder instead.  The error panel
    is left as the start of the attempt set it. *)
Theorem script_listing_joined_by_newlines :
  forall (fields : list (string * Js.jsval)) (lines : list string)
         (shown : string) (st : Script.state),
    let property key :=
      match Js.own_property key fields with
      | Some x => x
      | None => Js.JUndefined
      end in
    Js.truthy (property "error") = false ->
    Js.toString (Script.or_else (property "result") (Js.JStr Script.no_output))
    = Js.Normal shown ->
    property "bytecode" = Js.JArr (map Js.JStr lines) ->
    let st' := Script.compile_resume (Net.Json (Js.JObj fields)) st in
    let listing := String.concat (String Js.newline EmptyString) lines in
    Script.resultOutput st' = "✅ Result: " ++ shown
    /\ Script.bytecodeOutput st'
       = (if String.eqb listing EmptyString then Script.no_bytecode else listing)
    /\ Script.errorPanel_display st' = Script.errorPanel_display st
    /\ Script.compileBtn_disabled st' = false.
Proof.
  cbv zeta. intros fields lines shown st He Hs Hb.
  unfold Script.compile_resume, Script.try_block, Stmt.bind, Stmt.eval,
    Stmt.effect, Js.get.
  rewrite He, Hs, Hb. unfold Script.optional_join.
  rewrite (join_strings _ lines true).
  assert (Hl : match lines with
               | [] => EmptyString
               | _ :: _ => EmptyString
                           ++ String.concat (String Js.newline EmptyString) lines
               end = String.concat (String Js.newline EmptyString) lines)
    by (destruct lines; reflexivity).
  rewrite Hl. unfold Script.or_else. simpl Js.truthy.
  destruct (String.eqb _ EmptyString); simpl; repeat split.
Qed.

Lemma script_listing_witness :
  Script.bytecodeOutput
    (Script.compile_resume
       (Net.Json (Props.success (Js.JNum (Js.num_of_Z 40)) ["Push(15)"; "Add"]))
       (Script.loaded "x;"))
  = "Push(15)" ++ String Js.newline "Add"
  /\ Script.bytecodeOutput
       (Script.compile_resume
          (Net.Json (Props.success (Js.JNum (Js.num_of_Z 40)) [""]))
          (Script.loaded "x;"))
     = Script.no_bytecode.
Proof.
  split.
  - exact (proj1 (proj2 (script_listing_joined_by_newlines
                           [("result", Js.JNum (Js.num_of_Z 40));
                            ("bytecode", Js.JArr (map Js.JStr ["Push(15)"; "Add"]))]
                           ["Push(15)"; "Add"] "40" (Script.loaded "x;")
                           eq_refl eq_refl eq_refl))).
  - exact (proj1 (proj2 (script_listing_joined_by_newlines
                           [("result", Js.JNum (Js.num_of_Z 40));
                            ("bytecode", Js.JArr (map Js.JStr [""]))]
                           [""] "40" (Script.loaded "x;")
                           eq_refl eq_refl eq_refl))).
Defined.

(** ** The examples button and the toast *)

Lemma nth_error_examples i :
  (i < 4)%nat -> nth_error Examples.examples i = Some (More.example_at i).
Proof.
  intros H. destruct i as [|[|[|[|i]]]]; try reflexivity. lia.
Qed.

Lemma examples_trimmed i :
  (i < 4)%nat ->
  Js.trim (Examples.code (More.example_at i)) = Examples.code (More.example_at i)
  /\ Examples.code (More.example_at i) <> EmptyString.
Proof.
  intros H. destruct i as [|[|[|[|i]]]]; try lia;
    (split; [vm_compute; reflexivity | discriminate]).
Qed.

Lemma next_index_bound i : ((i + 1) mod 4 < 4)%nat.
Proof. apply Nat.mod_upper_bound. discriminate. Qed.

(** The examples are written with line feeds, so the editor keeps them as
    they are. *)
Lemma examples_normalised i :
  (i < 4)%nat ->
  Editor.normalise (Examples.code (More.example_at i))
  = Examples.code (More.example_at i).
Proof.
  intros H. destruct i as [|[|[|[|i]]]]; try lia; vm_compute; reflexivity.
Qed.

Lemma showNextExample_unfold p :
  let i := ((Page.currentExampleIndex p + 1) mod 4)%nat in
  Page.showNextExample p
  = Page.showToast ("Example: " ++ Examples.name (More.example_at i))
      (Page.set_controller
         (Controller.set_editor
            (Editor.setValue (Examples.code (More.example_at i))
               (Controller.editor (Page.controller p)))
            (Page.controller p))
         (Page.set_currentExampleIndex i p)).
Proof.
  cbv zeta. unfold Page.showNextExample.
  change (List.length Examples.examples) with 4%nat.
  cbn [Page.currentExampleIndex Page.set_currentExampleIndex].
  rewrite (nth_error_examples _ (next_index_bound _)). reflexivity.
Qed.

Lemma getElementById_update name f els :
  (forall e, Page.id (f e) = Page.id e) ->
  Page.getElementById name (Page.update_first name f els)
  = option_map f (Page.getElementById name els).
Proof.
  intros Hf. induction els as [|e rest IH]; [reflexivity|]. simpl.
  destruct (String.eqb (Page.id e) name) eqn:E; simpl.
  - rewrite Hf, E. reflexivity.
  - rewrite E. exact IH.
Qed.

Lemma getElementById_app_none name els extra :
  Page.getElementById name els = None ->
  Page.getElementById name (els ++ extra) = Page.getElementById name extra.
Proof.
  induction els as [|e rest IH]; intros H; [reflexivity|]. simpl in *.
  destruct (String.eqb (Page.id e) name); [discriminate | apply IH, H].
Qed.

(** After [showToast] the toast element carries the message and is
    visible. *)
Lemma showToast_shows message p :
  Page.getElementById "toast" (Page.body (Page.showToast message p))
  = Some (Page.mk_element "toast" message "toast-visible").
Proof.
  unfold Page.showToast.
  destruct (Page.getElementById "toast" (Page.body p)) as [e|] eqn:E;
    cbn [Page.body Page.set_body Page.schedule_toast_timeout];
    rewrite getElementById_update by reflexivity.
  - rewrite E. simpl. f_equal. f_equal.
    clear - E. induction (Page.body p) as [|x rest IH]; [discriminate|].
    simpl in E. destruct (String.eqb_spec (Page.id x) "toast") as [Hx|Hx].
    + inversion E; subst. exact Hx.
    + apply IH, E.
  - rewrite (getElementById_app_none _ _ _ E). reflexivity.
Qed.

Lemma toasts_none els :
  Page.getElementById "toast" els = None ->
  filter (fun e => String.eqb (Page.id e) "toast") els = [].
Proof.
  induction els as [|e rest IH]; intros H; [reflexivity|]. simpl in *.
  destruct (String.eqb (Page.id e) "toast"); [discriminate | apply IH, H].
Qed.

Lemma toasts_update f els :
  (forall e, Page.id (f e) = Page.id e) ->
  List.length
    (filter (fun e => String.eqb (Page.id e) "toast")
       (Page.update_first "toast" f els))
  = List.length (filter (fun e => String.eqb (Page.id e) "toast") els).
Proof.
  intros Hf. induction els as [|e rest IH]; [reflexivity|]. simpl.
  destruct (String.eqb (Page.id e) "toast") eqn:E; simpl.
  - rewrite Hf, E. reflexivity.
  - rewrite E. exact IH.
Qed.

Lemma showToast_toasts message p :
  (List.length (More.toasts p) <= 1)%nat ->
  List.length (More.toasts (Page.showToast message p)) = 1%nat.
Proof.
  unfold More.toasts, Page.showToast. intros H.
  destruct (Page.getElementById "toast" (Page.body p)) as [e|] eqn:E;
    cbn [Page.body Page.set_body Page.schedule_toast_timeout];
    rewrite toasts_update by reflexivity.
  - destruct (filter _ (Page.body p)) as [|x [|y l]] eqn:F; simpl in *;
      [|reflexivity|lia].
    exfalso. clear - E F.
    induction (Page.body p) as [|a rest IH]; [discriminate|].
    simpl in E, F. destruct (String.eqb (Page.id a) "toast");
      [discriminate | apply IH; assumption].
  - rewrite filter_app, (toasts_none _ E). reflexivity.
Qed.

Lemma step_toasts ev p :
  (List.length (More.toasts p) <= 1)%nat ->
  (List.length (More.toasts (Page.step ev p)) <= 1)%nat.
Proof.
  intros H. destruct ev; simpl; try exact H.
  - rewrite showNextExample_unfold. cbv zeta.
    rewrite showToast_toasts; [lia | exact H].
  - destruct on_overlay; exact H.
  - unfold Page.on_keydown. destruct (_ && _); exact H.
Qed.

Lemma showToast_frame message p :
  Page.currentExampleIndex (Page.showToast message p)
  = Page.currentExampleIndex p
  /\ Page.controller (Page.showToast message p) = Page.controller p.
Proof.
  unfold Page.showToast.
  destruct (Page.getElementById _ _); split; reflexivity.
Qed.

Lemma showNextExample_frame p :
  let i := ((Page.currentExampleIndex p + 1) mod 4)%nat in
  Page.currentExampleIndex (Page.showNextExample p) = i
  /\ Page.controller (Page.showNextExample p)
     = Controller.set_editor
         (Editor.setValue (Examples.code (More.example_at i))
            (Controller.editor (Page.controller p)))
         (Page.controller p).
Proof.
  cbv zeta. rewrite showNextExample_unfold. cbv zeta.
  destruct (showToast_frame
              ("Example: "
               ++ Examples.name
                    (More.example_at ((Page.currentExampleIndex p + 1) mod 4)))
              (Page.set_controller
                 (Controller.set_editor
                    (Editor.setValue
                       (Examples.code
                          (More.example_at
                             ((Page.currentExampleIndex p + 1) mod 4)))
                       (Controller.editor (Page.controller p)))
                    (Page.controller p))
                 (Page.set_currentExampleIndex
                    ((Page.currentExampleIndex p + 1) mod 4) p)))
    as [Hi Hc].
  rewrite Hi, Hc. split; reflexivity.
Qed.

(** X9.  In the CodeMirror script the examples button moves the index on by
    one, modulo four, before it loads: after [n + 1] clicks the index is the
    old one plus [n + 1] modulo four, the editor holds the code of that
    example, and the toast names it.  From the loaded page the first click
    therefore shows the second example, and the first example comes with
    the fourth click.  The panels, the error panel, the registry and the
    requests are not touched. *)
Theorem examples_rotate_from_the_next :
  forall (n : nat) (p : Page.state),
    let p' := Page.clicks (S n) p in
    let i := ((Page.currentExampleIndex p + S n) mod 4)%nat in
    Page.currentExampleIndex p' = i
    /\ Editor.getValue (Controller.editor (Page.controller p'))
       = Examples.code (More.example_at i)
    /\ Page.getElementById "toast" (Page.body p')
       = Some (Page.mk_element "toast"
                 ("Example: " ++ Examples.name (More.example_at i))
                 "toast-visible")
    /\ Controller.errorMarkers (Page.controller p')
       = Controller.errorMarkers (Page.controller p)
    /\ Controller.resultOutput (Page.controller p')
       = Controller.resultOutput (Page.controller p)
    /\ Controller.errorPanel_display (Page.controller p')
       = Controller.errorPanel_display (Page.controller p)
    /\ Controller.network (Page.controller p')
       = Controller.network (Page.controller p).
Proof.
  induction n as [|n IH]; intros p; cbv zeta.
  - simpl Page.clicks.
    destruct (showNextExample_frame p) as [Hi Hc]. cbv zeta in Hi, Hc.
    rewrite Hc. split; [exact Hi|].
    split; [exact (examples_normalised _ (next_index_bound _))|].
    split; [|repeat split].
    rewrite showNextExample_unfold. apply showToast_shows.
  - change (Page.clicks (S (S n)) p)
      with (Page.clicks (S n) (Page.showNextExample p)).
    specialize (IH (Page.showNextExample p)). cbv zeta in IH.
    destruct (showNextExample_frame p) as [Hi Hc]. cbv zeta in Hi, Hc.
    rewrite Hi in IH.
    replace (((Page.currentExampleIndex p + 1) mod 4 + S n) mod 4)%nat
      with ((Page.currentExampleIndex p + S (S n)) mod 4)%nat in IH
      by (rewrite Nat.Div0.add_mod_idemp_l; f_equal; lia).
    destruct IH as (H1 & H2 & H3 & H4 & H5 & H6 & H7).
    split; [exact H1|]. split; [exact H2|]. split; [exact H3|].
    rewrite H4, H5, H6, H7, Hc. repeat split.
Qed.

Lemma examples_rotate_witness :
  Editor.getValue
    (Controller.editor (Page.controller (Page.clicks 1 (Page.loaded ""))))
  = Examples.code (More.example_at 1)
  /\ Editor.getValue
       (Controller.editor (Page.controller (Page.clicks 4 (Page.loaded ""))))
     = Examples.code (More.example_at 0).
Proof.
  split.
  - exact (proj1 (proj2 (examples_rotate_from_the_next 0 (Page.loaded "")))).
  - exact (proj1 (proj2 (examples_rotate_from_the_next 3 (Page.loaded "")))).
Defined.

(** X10.  Whatever happens on the page, the body never holds more than one
    element with the id [toast]: the first toast creates it and every later
    one reuses it. *)
Theorem at_most_one_toast_element :
  forall (events : list Page.event) (text : string),
    (List.length (More.toasts (Page.run events (Page.loaded text))) <= 1)%nat.
Proof.
  intros events text.
  assert (H : (List.length (More.toasts (Page.loaded text)) <= 1)%nat)
    by (simpl; lia).
  revert H. generalize (Page.loaded text).
  induction events as [|ev rest IH]; intros p H; [exact H|].
  apply (IH (Page.step ev p)), step_toasts, H.
Qed.

(** X11.  Every built-in example is sent as it is written: when the button
    is enabled, a click on the examples button followed by a click on the
    compile button sends exactly one more request, whose source is the code
    of the example just loaded, unchanged by the trimming. *)
Theorem loaded_example_is_sent_verbatim :
  forall p : Page.state,
    Controller.compileBtn_disabled (Page.controller p) = false ->
    let p' := Page.run [Page.ExamplesClick; Page.CompileClick] p in
    let i := ((Page.currentExampleIndex p + 1) mod 4)%nat in
    Controller.network (Page.controller p')
    = (Controller.network (Page.controller p)
       ++ [Controller.compile_request (Examples.code (More.example_at i))])%list
    /\ (i < List.length Examples.examples)%nat.
Proof.
  intros p Hd. cbv zeta.
  pose proof (next_index_bound (Page.currentExampleIndex p)) as Hi.
  split; [|exact Hi].
  destruct (examples_trimmed _ Hi) as [Ht Hn].
  unfold Page.run. cbn [fold_left]. cbn [Page.step].
  destruct (showNextExample_frame p) as [_ Hc]. cbv zeta in Hc.
  unfold Page.lift. cbn [Page.controller Page.set_controller]. rewrite Hc.
  set (c := Controller.set_editor _ _).
  assert (Hg : Js.trim (Editor.getValue (Controller.editor c))
               = Examples.code
                   (More.example_at ((Page.currentExampleIndex p + 1) mod 4))).
  { subst c. cbn [Controller.editor Controller.set_editor Editor.getValue
                    Editor.setValue Editor.value].
    rewrite (examples_normalised _ Hi). exact Ht. }
  assert (Hv : Js.trim (Editor.getValue (Controller.editor c)) <> EmptyString)
    by (rewrite Hg; exact Hn).
  assert (Hs : Controller.step Controller.Click c
               = snd (Controller.compile c)).
  { change (Controller.step Controller.Click c)
      with (if Controller.compileBtn_disabled (Page.controller p)
            then c else snd (Controller.compile c)).
    rewrite Hd. reflexivity. }
  rewrite Hs, (compile_nonempty c Hv), Hg. reflexivity.
Qed.

Lemma loaded_example_witness :
  Controller.compileBtn_disabled (Page.controller (Page.loaded "")) = false
  /\ List.map Net.source
       (Controller.network
          (Page.controller
             (Page.run [Page.ExamplesClick; Page.CompileClick] (Page.loaded ""))))
     = [Examples.code (More.example_at 1)].
Proof.
  split; [reflexivity|].
  rewrite (proj1 (loaded_example_is_sent_verbatim (Page.loaded "") eq_refl)).
  reflexivity.
Defined.

Lemma loadExample_unfold p :
  (ScriptPage.currentExampleIndex p < 4)%nat ->
  ScriptPage.loadExample p
  = ScriptPage.mk_state
      (Script.set_sourceCode_value
         (Examples.code (More.example_at (ScriptPage.currentExampleIndex p)))
         (ScriptPage.script p))
      ((ScriptPage.currentExampleIndex p + 1) mod 4)%nat
      (ScriptPage.modalOverlay_display p).
Proof.
  intros H. unfold ScriptPage.loadExample.
  rewrite (nth_error_examples _ H). reflexivity.
Qed.

(** X12.  In [script.js] the examples button loads the example at the index
    and moves the index on afterwards: starting from an index inside the
    array, after [n + 1] clicks the textarea holds the example at the old
    index plus [n] modulo four and the index is the old one plus [n + 1]
    modulo four.  From the loaded page the first click shows the first
    example, one earlier than in the CodeMirror script. *)
Theorem script_examples_rotate_from_the_current :
  forall (n : nat) (p : ScriptPage.state),
    (ScriptPage.currentExampleIndex p < 4)%nat ->
    let p' := ScriptPage.clicks (S n) p in
    Script.sourceCode_value (ScriptPage.script p')
    = Examples.code
        (More.example_at ((ScriptPage.currentExampleIndex p + n) mod 4))
    /\ ScriptPage.currentExampleIndex p'
       = ((ScriptPage.currentExampleIndex p + S n) mod 4)%nat
    /\ Script.network (ScriptPage.script p')
       = Script.network (ScriptPage.script p).
Proof.
  induction n as [|n IH]; intros p H; cbv zeta.
  - simpl ScriptPage.clicks. rewrite (loadExample_unfold p H).
    cbn [ScriptPage.script ScriptPage.currentExampleIndex].
    rewrite Nat.add_0_r, (Nat.mod_small _ _ H). repeat split.
  - change (ScriptPage.clicks (S (S n)) p)
      with (ScriptPage.clicks (S n) (ScriptPage.loadExample p)).
    assert (Hi : ScriptPage.currentExampleIndex (ScriptPage.loadExample p)
                 = ((ScriptPage.currentExampleIndex p + 1) mod 4)%nat)
      by (rewrite (loadExample_unfold p H); reflexivity).
    assert (Hn : Script.network (ScriptPage.script (ScriptPage.loadExample p))
                 = Script.network (ScriptPage.script p))
      by (rewrite (loadExample_unfold p H); reflexivity).
    assert (Hb : (ScriptPage.currentExampleIndex (ScriptPage.loadExample p)
                  < 4)%nat)
      by (rewrite Hi; apply next_index_bound).
    destruct (IH (ScriptPage.loadExample p) Hb) as (H1 & H2 & H3).
    rewrite H1, H2, H3, Hi, Hn.
    rewrite !Nat.Div0.add_mod_idemp_l.
    replace (ScriptPage.currentExampleIndex p + 1 + n)%nat
      with (ScriptPage.currentExampleIndex p + S n)%nat by lia.
    replace (ScriptPage.currentExampleIndex p + 1 + S n)%nat
      with (ScriptPage.currentExampleIndex p + S (S n))%nat by lia.
    split; [reflexivity|]. split; reflexivity.
Qed.

Lemma script_examples_witness :
  (ScriptPage.currentExampleIndex (ScriptPage.loaded "") < 4)%nat
  /\ Script.sourceCode_value
       (ScriptPage.script (ScriptPage.clicks 1 (ScriptPage.loaded "")))
     = Examples.code (More.example_at 0).
Proof.
  assert (H : (ScriptPage.currentExampleIndex (ScriptPage.loaded "") < 4)%nat)
    by (simpl; lia).
  split; [exact H|].
  exact (proj1 (script_examples_rotate_from_the_current 0
                  (ScriptPage.loaded "") H)).
Defined.

(** ** The four passes of the highlighter on whole instructions *)

Section Passes.

Variables (re : Regex.pattern) (template : Regex.found -> string).

Lemma replace_from_skip m :
  forall rest,
    Regex.replace_from re template (String.length m) (m ++ rest)
    = Regex.replace re template rest.
Proof.
  induction m as [|c m IH]; intros rest; simpl.
  - destruct rest; reflexivity.
  - apply IH.
Qed.

(** At a match the template is emitted and the scan goes on behind the
    matched text. *)
Lemma replace_match m rest f :
  re (m ++ rest) = Some f ->
  m <> EmptyString ->
  Regex.matched f = String.length m ->
  Regex.replace re template (m ++ rest)
  = template f ++ Regex.replace re template rest.
Proof.
  intros Hre Hm Hlen. destruct m as [|c m]; [contradiction|].
  unfold Regex.replace at 1. simpl. simpl in Hre. rewrite Hre, Hlen. simpl.
  rewrite replace_from_skip. reflexivity.
Qed.

Variable starts : ascii -> bool.
Hypothesis re_starts : forall c r, starts c = false -> re (String c r) = None.

(** Text in which no match can start is copied. *)
Lemma replace_prefix pre :
  forall rest,
    Diagnostic.all_chars (fun c => negb (starts c)) pre = true ->
    Regex.replace re template (pre ++ rest)
    = pre ++ Regex.replace re template rest.
Proof.
  induction pre as [|c pre IH]; intros rest H; [reflexivity|].
  simpl in H. apply andb_true_iff in H. destruct H as [Hc Hpre].
  apply negb_true_iff in Hc. simpl.
  rewrite replace_no_match by (apply re_starts, Hc).
  rewrite (IH rest Hpre). reflexivity.
Qed.

Lemma replace_identity s :
  Diagnostic.all_chars (fun c => negb (starts c)) s = true ->
  Regex.replace re template s = s.
Proof.
  intros H. pose proof (replace_prefix s EmptyString H) as E.
  rewrite append_empty_r in E. rewrite E. apply append_empty_r.
Qed.

End Passes.

Lemma all_chars_app f a b :
  Diagnostic.all_chars f (a ++ b)
  = Diagnostic.all_chars f a && Diagnostic.all_chars f b.
Proof.
  induction a as [|c a IH]; simpl; [reflexivity|].
  rewrite IH, andb_assoc. reflexivity.
Qed.

Lemma all_chars_weaken (f g : ascii -> bool) s :
  (forall c, f c = true -> g c = true) ->
  Diagnostic.all_chars f s = true -> Diagnostic.all_chars g s = true.
Proof.
  intros Hfg. induction s as [|c s IH]; simpl; [reflexivity|].
  intros H. apply andb_true_iff in H. destruct H as [Hc Hs].
  rewrite (Hfg c Hc), (IH Hs). reflexivity.
Qed.

(** The letter each pattern starts with. *)
Lemma push_starts c r :
  Ascii.eqb c "P" = false -> Regex.push_value (String c r) = None.
Proof.
  intros H. unfold Regex.push_value. cbn [Js.strip_prefix].
  rewrite Ascii.eqb_sym, H. reflexivity.
Qed.

Lemma jump_starts c r :
  Ascii.eqb c "J" = false -> Regex.jump (String c r) = None.
Proof.
  intros H. unfold Regex.jump. cbn [Js.strip_prefix].
  rewrite Ascii.eqb_sym, H. reflexivity.
Qed.

Lemma variable_starts c r :
  Ascii.eqb c "L" || Ascii.eqb c "S" = false ->
  Regex.variable (String c r) = None.
Proof.
  intros H. apply orb_false_iff in H. destruct H as [HL HS].
  unfold Regex.variable. cbn [Js.strip_prefix].
  rewrite (Ascii.eqb_sym "L" c), (Ascii.eqb_sym "S" c), HL, HS. reflexivity.
Qed.

Lemma trigger_covers c :
  Markup.is_trigger c = false ->
  Ascii.eqb c "P" = false
  /\ Props.is_initial c = false
  /\ Ascii.eqb c "J" = false
  /\ Ascii.eqb c "L" || Ascii.eqb c "S" = false.
Proof.
  unfold Markup.is_trigger, Props.is_initial. simpl. intros H.
  repeat match type of H with
         | _ || _ = false => apply orb_false_iff in H; destruct H as [? H]
         end.
  repeat split; repeat (apply orb_false_iff; split); assumption.
Qed.

Lemma plain_parts s :
  Markup.plain s = true ->
  Diagnostic.all_chars (fun c => negb (Ascii.eqb c "P")) s = true
  /\ Props.no_initial s = true
  /\ Diagnostic.all_chars (fun c => negb (Ascii.eqb c "J")) s = true
  /\ Diagnostic.all_chars
       (fun c => negb (Ascii.eqb c "L" || Ascii.eqb c "S")) s = true.
Proof.
  intros H. unfold Markup.plain in H. unfold Props.no_initial.
  repeat split; refine (all_chars_weaken _ _ s _ H); intros c Hc;
    apply negb_true_iff in Hc; apply trigger_covers in Hc;
    apply negb_true_iff; tauto.
Qed.

Lemma replace_push_identity s :
  Diagnostic.all_chars (fun c => negb (Ascii.eqb c "P")) s = true ->
  Highlight.replace_push s = s.
Proof. apply (replace_identity _ _ _ push_starts). Qed.

Lemma replace_operators_identity s :
  Props.no_initial s = true -> Highlight.replace_operators s = s.
Proof. apply (replace_identity _ _ _ operator_needs_initial). Qed.

Lemma replace_jumps_identity s :
  Diagnostic.all_chars (fun c => negb (Ascii.eqb c "J")) s = true ->
  Highlight.replace_jumps s = s.
Proof. apply (replace_identity _ _ _ jump_starts). Qed.

Lemma replace_variables_identity s :
  Diagnostic.all_chars
    (fun c => negb (Ascii.eqb c "L" || Ascii.eqb c "S")) s = true ->
  Highlight.replace_variables s = s.
Proof. apply (replace_identity _ _ _ variable_starts). Qed.

(** X13.  An instruction in which none of the capitals P, A, S, M, D, N, J
    and L occurs matches none of the four patterns and comes out of
    [highlightBytecode] exactly as it went in. *)
Theorem plain_instruction_unchanged :
  forall instruction : string,
    Markup.plain instruction = true ->
    Highlight.highlightBytecode instruction = instruction.
Proof.
  intros s H. destruct (plain_parts s H) as (Hp & Ho & Hj & Hv).
  unfold Highlight.highlightBytecode.
  rewrite (replace_push_identity s Hp), (replace_operators_identity s Ho),
    (replace_jumps_identity s Hj).
  apply (replace_variables_identity s Hv).
Qed.

Lemma plain_instruction_witness :
  Markup.plain "Halt 0x1f; nop" = true
  /\ Highlight.highlightBytecode "Halt 0x1f; nop" = "Halt 0x1f; nop".
Proof.
  split; [reflexivity|].
  exact (plain_instruction_unchanged "Halt 0x1f; nop" eq_refl).
Defined.

Lemma length_append (a b : string) :
  String.length (a ++ b) = (String.length a + String.length b)%nat.
Proof. induction a as [|c a IH]; simpl; [|rewrite IH]; reflexivity. Qed.

Lemma all_chars_cons f c s :
  Diagnostic.all_chars f (String c s) = f c && Diagnostic.all_chars f s.
Proof. reflexivity. Qed.

(** Settles [all_chars] goals over texts put together from literals and
    from parts covered by hypotheses. *)
Ltac chars_tac :=
  unfold Highlight.span_of, Js.quoted, Props.no_initial, Markup.plain in *;
  repeat (rewrite all_chars_app || rewrite all_chars_cons);
  repeat (apply andb_true_intro; split);
  first [ assumption | reflexivity ].

Lemma push_value_head v rest :
  v <> EmptyString ->
  Diagnostic.all_chars (Regex.is_not ")") v = true ->
  Regex.push_value ("Push(" ++ v ++ ")" ++ rest)
  = Some {| Regex.groups := [v];
            Regex.matched := 5 + String.length v + 1 |}.
Proof.
  intros Hn Hv. unfold Regex.push_value.
  change (Js.strip_prefix "Push(" ("Push(" ++ v ++ ")" ++ rest))
    with (Some (v ++ ")" ++ rest)).
  cbv beta iota.
  rewrite (span_app _ v _ Hv).
  change (Js.span (Regex.is_not ")") (")" ++ rest))
    with (EmptyString, ")" ++ rest).
  cbn [fst snd]. rewrite append_empty_r.
  change (Js.strip_prefix ")" (")" ++ rest)) with (Some rest).
  cbv beta iota.
  apply nonempty_spec in Hn. rewrite Hn. reflexivity.
Qed.

Lemma replace_push_value v :
  v <> EmptyString ->
  Diagnostic.all_chars (Regex.is_not ")") v = true ->
  Highlight.replace_push ("Push(" ++ v ++ ")")
  = "Push(" ++ Highlight.span_of "bytecode-value" v ++ ")".
Proof.
  intros Hn Hv. unfold Highlight.replace_push.
  rewrite <- (append_empty_r ("Push(" ++ v ++ ")")) at 1.
  rewrite (replace_match _ _ ("Push(" ++ v ++ ")") EmptyString
             {| Regex.groups := [v];
                Regex.matched := 5 + String.length v + 1 |}).
  - unfold Highlight.push_template, Regex.group. cbn [Regex.groups nth].
    change (Regex.replace Regex.push_value Highlight.push_template EmptyString)
      with EmptyString.
    rewrite !append_associative, append_empty_r. reflexivity.
  - rewrite append_empty_r. apply (push_value_head v EmptyString Hn Hv).
  - discriminate.
  - cbn [Regex.matched]. change ("Push(" ++ v ++ ")")
      with (String "P" (String "u" (String "s" (String "h"
             (String "(" (v ++ ")")))))).
    simpl String.length. rewrite length_append. simpl. lia.
Qed.

(** X14.  A push of a value that is not empty, holds no closing
    parenthesis and none of the capitals P, A, S, M, D, N, J, L (any number
    does) is rendered with exactly the value wrapped as a
    [bytecode-value]; the later passes change nothing. *)
Theorem push_value_is_wrapped :
  forall v : string,
    v <> EmptyString ->
    Diagnostic.all_chars (Regex.is_not ")") v = true ->
    Markup.plain v = true ->
    Highlight.highlightBytecode ("Push(" ++ v ++ ")")
    = "Push(" ++ Highlight.span_of "bytecode-value" v ++ ")".
Proof.
  intros v Hn Hv Hp. destruct (plain_parts v Hp) as (_ & Ho & Hj & Hl).
  unfold Highlight.highlightBytecode. rewrite (replace_push_value v Hn Hv).
  rewrite replace_operators_identity by chars_tac.
  rewrite replace_jumps_identity by chars_tac.
  apply replace_variables_identity. chars_tac.
Qed.

Lemma push_value_witness :
  "-3.25" <> EmptyString
  /\ Markup.plain "-3.25" = true
  /\ Highlight.highlightBytecode "Push(-3.25)"
     = "Push(" ++ Highlight.span_of "bytecode-value" "-3.25" ++ ")".
Proof.
  split; [discriminate|]. split; [reflexivity|].
  exact (push_value_is_wrapped "-3.25" ltac:(discriminate) eq_refl eq_refl).
Defined.

Lemma digits_plain n :
  Diagnostic.all_chars Js.is_digit n = true -> Markup.plain n = true.
Proof.
  apply all_chars_weaken. intros c H.
  destruct c as [[] [] [] [] [] [] [] []]; try discriminate H; reflexivity.
Qed.

Lemma jump_argument_head keyword n rest :
  Diagnostic.is_number n ->
  Regex.jump_argument keyword ("(" ++ n ++ ")" ++ rest)
  = Some {| Regex.groups := [keyword; n];
            Regex.matched :=
              String.length keyword + 1 + String.length n + 1 |}.
Proof.
  intros [Hn Hd]. unfold Regex.jump_argument.
  change (Js.strip_prefix "(" ("(" ++ n ++ ")" ++ rest))
    with (Some (n ++ ")" ++ rest)).
  cbv beta iota. rewrite (span_app _ n _ Hd).
  change (Js.span Js.is_digit (")" ++ rest)) with (EmptyString, ")" ++ rest).
  cbn [fst snd]. rewrite append_empty_r.
  change (Js.strip_prefix ")" (")" ++ rest)) with (Some rest).
  cbv beta iota. apply nonempty_spec in Hn. rewrite Hn. reflexivity.
Qed.

Lemma jump_head keyword n :
  keyword = "Jump" \/ keyword = "JumpIfFalse" ->
  Diagnostic.is_number n ->
  Regex.jump (keyword ++ "(" ++ n ++ ")")
  = Some {| Regex.groups := [keyword; n];
            Regex.matched :=
              String.length keyword + 1 + String.length n + 1 |}.
Proof.
  intros [-> | ->] Hn; unfold Regex.jump; cbv beta zeta.
  - change (Js.strip_prefix "Jump" ("Jump" ++ "(" ++ n ++ ")"))
      with (Some ("(" ++ n ++ ")" ++ EmptyString)).
    cbv beta iota.
    rewrite (jump_argument_head "Jump" n EmptyString Hn). reflexivity.
  - change (Js.strip_prefix "Jump" ("JumpIfFalse" ++ "(" ++ n ++ ")"))
      with (Some ("IfFalse(" ++ n ++ ")")).
    cbv beta iota.
    change (Regex.jump_argument "Jump" ("IfFalse(" ++ n ++ ")"))
      with (@None Regex.found).
    cbv beta iota.
    change (Js.strip_prefix "JumpIfFalse" ("JumpIfFalse" ++ "(" ++ n ++ ")"))
      with (Some ("(" ++ n ++ ")" ++ EmptyString)).
    cbv beta iota.
    rewrite (jump_argument_head "JumpIfFalse" n EmptyString Hn). reflexivity.
Qed.

Lemma replace_jumps_head keyword n :
  keyword = "Jump" \/ keyword = "JumpIfFalse" ->
  Diagnostic.is_number n ->
  Highlight.replace_jumps (keyword ++ "(" ++ n ++ ")")
  = Highlight.span_of "bytecode-flow" keyword
    ++ "(" ++ Highlight.span_of "bytecode-number" n ++ ")".
Proof.
  intros Hk Hn. unfold Highlight.replace_jumps.
  rewrite <- (append_empty_r (keyword ++ "(" ++ n ++ ")")) at 1.
  rewrite (replace_match _ _ (keyword ++ "(" ++ n ++ ")") EmptyString
             {| Regex.groups := [keyword; n];
                Regex.matched :=
                  String.length keyword + 1 + String.length n + 1 |}).
  - unfold Highlight.jump_template, Regex.group. cbn [Regex.groups nth].
    change (Regex.replace Regex.jump Highlight.jump_template EmptyString)
      with EmptyString.
    rewrite !append_associative, append_empty_r. reflexivity.
  - rewrite append_empty_r. apply (jump_head keyword n Hk Hn).
  - destruct Hk as [-> | ->]; discriminate.
  - cbn [Regex.matched]. rewrite !length_append. simpl. lia.
Qed.

(** X15.  A jump, conditional or not, to a target written as a non-empty
    run of digits is rendered with the keyword wrapped as [bytecode-flow]
    and the target as [bytecode-number].  [JumpIfFalse] is taken whole: the
    shorter keyword [Jump], tried first, fails on what follows it. *)
Theorem jump_is_wrapped :
  forall keyword n : string,
    keyword = "Jump" \/ keyword = "JumpIfFalse" ->
    Diagnostic.is_number n ->
    Highlight.highlightBytecode (keyword ++ "(" ++ n ++ ")")
    = Highlight.span_of "bytecode-flow" keyword
      ++ "(" ++ Highlight.span_of "bytecode-number" n ++ ")".
Proof.
  intros keyword n Hk Hn.
  destruct (plain_parts n (digits_plain n (proj2 Hn))) as (Hp & Ho & _ & Hl).
  unfold Highlight.highlightBytecode.
  rewrite replace_push_identity by (destruct Hk as [-> | ->]; chars_tac).
  rewrite replace_operators_identity by (destruct Hk as [-> | ->]; chars_tac).
  rewrite (replace_jumps_head keyword n Hk Hn).
  apply replace_variables_identity. destruct Hk as [-> | ->]; chars_tac.
Qed.

Lemma jump_witness :
  Diagnostic.is_number "12"
  /\ Highlight.highlightBytecode "JumpIfFalse(12)"
     = Highlight.span_of "bytecode-flow" "JumpIfFalse"
       ++ "(" ++ Highlight.span_of "bytecode-number" "12" ++ ")".
Proof.
  assert (H : Diagnostic.is_number "12") by (split; [discriminate | reflexivity]).
  split; [exact H|].
  exact (jump_is_wrapped "JumpIfFalse" "12" (or_intror eq_refl) H).
Defined.

Lemma variable_argument_head keyword name rest :
  name <> EmptyString ->
  Diagnostic.all_chars (Regex.is_not Js.dquote) name = true ->
  Regex.variable_argument keyword
    ("Variable(" ++ Js.quoted name ++ ")" ++ rest)
  = Some {| Regex.groups := [keyword; name];
            Regex.matched :=
              String.length keyword + 10 + String.length name + 2 |}.
Proof.
  intros Hn Hq. unfold Regex.variable_argument, Js.quoted.
  change (Js.strip_prefix ("Variable(" ++ String Js.dquote EmptyString)
            ("Variable("
             ++ String Js.dquote (name ++ String Js.dquote EmptyString)
             ++ ")" ++ rest))
    with (Some ((name ++ String Js.dquote EmptyString) ++ ")" ++ rest)).
  cbv beta iota. rewrite append_associative.
  rewrite (span_app _ name _ Hq).
  change (Js.span (Regex.is_not Js.dquote)
            (String Js.dquote EmptyString ++ ")" ++ rest))
    with (EmptyString, String Js.dquote EmptyString ++ ")" ++ rest).
  cbn [fst snd]. rewrite append_empty_r.
  change (Js.strip_prefix (String Js.dquote ")")
            (String Js.dquote EmptyString ++ ")" ++ rest))
    with (Some rest).
  cbv beta iota. apply nonempty_spec in Hn. rewrite Hn. reflexivity.
Qed.

Lemma variable_head keyword name :
  keyword = "Load" \/ keyword = "Store" ->
  name <> EmptyString ->
  Diagnostic.all_chars (Regex.is_not Js.dquote) name = true ->
  Regex.variable (keyword ++ "Variable(" ++ Js.quoted name ++ ")")
  = Some {| Regex.groups := [keyword; name];
            Regex.matched :=
              String.length keyword + 10 + String.length name + 2 |}.
Proof.
  intros [-> | ->] Hn Hq; unfold Regex.variable; cbv beta zeta.
  - change (Js.strip_prefix "Load"
              ("Load" ++ "Variable(" ++ Js.quoted name ++ ")"))
      with (Some ("Variable(" ++ Js.quoted name ++ ")" ++ EmptyString)).
    cbv beta iota.
    rewrite (variable_argument_head "Load" name EmptyString Hn Hq).
    reflexivity.
  - change (Js.strip_prefix "Load"
              ("Store" ++ "Variable(" ++ Js.quoted name ++ ")"))
      with (@None string).
    cbv beta iota.
    change (Js.strip_prefix "Store"
              ("Store" ++ "Variable(" ++ Js.quoted name ++ ")"))
      with (Some ("Variable(" ++ Js.quoted name ++ ")" ++ EmptyString)).
    cbv beta iota.
    rewrite (variable_argument_head "Store" name EmptyString Hn Hq).
    reflexivity.
Qed.

Lemma replace_variables_head keyword name :
  keyword = "Load" \/ keyword = "Store" ->
  name <> EmptyString ->
  Diagnostic.all_chars (Regex.is_not Js.dquote) name = true ->
  Highlight.replace_variables (keyword ++ "Variable(" ++ Js.quoted name ++ ")")
  = Highlight.span_of "bytecode-var" (keyword ++ "Variable")
    ++ "(" ++ Js.quoted name ++ ")".
Proof.
  intros Hk Hn Hq. unfold Highlight.replace_variables.
  rewrite <- (append_empty_r (keyword ++ "Variable(" ++ Js.quoted name ++ ")"))
    at 1.
  rewrite (replace_match _ _
             (keyword ++ "Variable(" ++ Js.quoted name ++ ")") EmptyString
             {| Regex.groups := [keyword; name];
                Regex.matched :=
                  String.length keyword + 10 + String.length name + 2 |}).
  - unfold Highlight.variable_template, Regex.group. cbn [Regex.groups nth].
    change (Regex.replace Regex.variable Highlight.variable_template EmptyString)
      with EmptyString.
    rewrite !append_associative, append_empty_r. reflexivity.
  - rewrite append_empty_r. apply (variable_head keyword name Hk Hn Hq).
  - destruct Hk as [-> | ->]; discriminate.
  - cbn [Regex.matched]. unfold Js.quoted. rewrite !length_append.
    simpl. rewrite length_append. simpl. lia.
Qed.

Lemma replace_operators_store rest :
  Props.no_initial rest = true ->
  Highlight.replace_operators ("Store" ++ rest) = "Store" ++ rest.
Proof.
  intros H. unfold Highlight.replace_operators.
  change ("Store" ++ rest) with (String "S" ("tore" ++ rest)).
  rewrite replace_no_match by reflexivity.
  f_equal. apply replace_operators_identity. chars_tac.
Qed.

(** X16.  A variable access, load or store, of a name that is not empty,
    holds no double quote and none of the capitals P, A, S, M, D, N, J, L
    is rendered with the keyword and the word [Variable] wrapped as
    [bytecode-var] and the quoted name left as it is.  The capital S of
    [Store] does not mislead the operator pass. *)
Theorem variable_access_is_wrapped :
  forall keyword name : string,
    keyword = "Load" \/ keyword = "Store" ->
    name <> EmptyString ->
    Diagnostic.all_chars (Regex.is_not Js.dquote) name = true ->
    Markup.plain name = true ->
    Highlight.highlightBytecode
      (keyword ++ "Variable(" ++ Js.quoted name ++ ")")
    = Highlight.span_of "bytecode-var" (keyword ++ "Variable")
      ++ "(" ++ Js.quoted name ++ ")".
Proof.
  intros keyword name Hk Hn Hq Hplain.
  destruct (plain_parts name Hplain) as (Hp & Ho & Hj & _).
  unfold Highlight.highlightBytecode.
  rewrite replace_push_identity by (destruct Hk as [-> | ->]; chars_tac).
  assert (Hops : Highlight.replace_operators
                   (keyword ++ "Variable(" ++ Js.quoted name ++ ")")
                 = keyword ++ "Variable(" ++ Js.quoted name ++ ")").
  { destruct Hk as [-> | ->].
    - apply replace_operators_identity. chars_tac.
    - apply replace_operators_store. chars_tac. }
  rewrite Hops.
  rewrite replace_jumps_identity by (destruct Hk as [-> | ->]; chars_tac).
  apply (replace_variables_head keyword name Hk Hn Hq).
Qed.

Lemma variable_access_witness :
  Markup.plain "total_1" = true
  /\ Highlight.highlightBytecode ("StoreVariable(" ++ Js.quoted "total_1" ++ ")")
     = Highlight.span_of "bytecode-var" "StoreVariable"
       ++ "(" ++ Js.quoted "total_1" ++ ")".
Proof.
  split; [reflexivity|].
  exact (variable_access_is_wrapped "Store" "total_1" (or_intror eq_refl)
           ltac:(discriminate) eq_refl eq_refl).
Defined.

(** ** The markup differs from the instruction by tags only *)

Lemma erase_app u :
  forall b v,
    Markup.erase b (u ++ v)
    = Markup.erase b u ++ Markup.erase (Markup.after b u) v.
Proof.
  induction u as [|c u IH]; intros b v; [reflexivity|]. simpl.
  unfold Markup.next. destruct b; simpl; [apply IH|].
  destruct (Markup.is_lt c); [apply IH|].
  simpl. rewrite IH. reflexivity.
Qed.

Lemma after_app u :
  forall b v, Markup.after b (u ++ v) = Markup.after (Markup.after b u) v.
Proof. induction u as [|c u IH]; intros b v; [reflexivity | apply IH]. Qed.

Lemma tame_app u :
  forall b v,
    Markup.tame b (u ++ v)
    = Markup.tame b u && Markup.tame (Markup.after b u) v.
Proof.
  induction u as [|c u IH]; intros b v; [reflexivity|]. simpl.
  rewrite IH, andb_assoc. reflexivity.
Qed.

Lemma tag_free_reads s :
  Markup.tag_free s = true ->
  Markup.erase false s = s
  /\ Markup.after false s = false
  /\ Markup.tame false s = true.
Proof.
  unfold Markup.tag_free. induction s as [|c s IH]; intros H;
    [repeat split|].
  simpl in H. apply andb_true_iff in H. destruct H as [Hc Hs].
  apply andb_true_iff in Hc. destruct Hc as [Hlt _].
  apply negb_true_iff in Hlt. destruct (IH Hs) as (He & Ha & Ht).
  simpl. unfold Markup.next. rewrite Hlt. simpl. rewrite He, Ha, Ht.
  repeat split.
Qed.

Section Preserve.

Variables (re : Regex.pattern) (template : Regex.found -> string).

(** What is known of the text a pass reads, given whether the reader is
    inside a tag where the text starts. *)
Variable known : bool -> string -> Prop.
Hypothesis known_step :
  forall b c r, known b (String c r) -> known (Markup.next b c) r.
Hypothesis known_inside :
  forall c r f, known true (String c r) -> re (String c r) = Some f -> False.
Hypothesis faithful :
  forall text f,
    known false text -> re text = Some f ->
    exists m rest,
      text = m ++ rest /\ m <> EmptyString
      /\ Regex.matched f = String.length m
      /\ Markup.erase false (template f) = Markup.erase false m
      /\ Markup.after false (template f) = Markup.after false m
      /\ (Markup.tame false m = true -> Markup.tame false (template f) = true).

Lemma known_app u :
  forall b v, known b (u ++ v) -> known (Markup.after b u) v.
Proof.
  induction u as [|c u IH]; intros b v H; [exact H|].
  simpl. apply IH, known_step, H.
Qed.

Lemma replace_preserves n :
  forall s b,
    (String.length s <= n)%nat -> known b s ->
    Markup.erase b (Regex.replace re template s) = Markup.erase b s
    /\ Markup.after b (Regex.replace re template s) = Markup.after b s
    /\ (Markup.tame b s = true ->
        Markup.tame b (Regex.replace re template s) = true).
Proof.
  induction n as [|n IH]; intros s b Hlen Hk.
  - destruct s; [repeat split; auto | simpl in Hlen; lia].
  - destruct s as [|c r]; [repeat split; auto|].
    destruct (re (String c r)) as [f|] eqn:E.
    + destruct b; [destruct (known_inside c r f Hk E)|].
      destruct (faithful _ f Hk E)
        as (m & rest & Hs & Hm & Hlenm & He & Ha & Ht).
      rewrite Hs in *.
      rewrite (replace_match re template m rest f E Hm Hlenm).
      assert (Hr : (String.length rest <= n)%nat).
      { rewrite length_append in Hlen.
        destruct m; [contradiction | simpl in Hlen; lia]. }
      destruct (IH rest (Markup.after false m) Hr (known_app m false rest Hk))
        as (IHe & IHa & IHt).
      rewrite !erase_app, !after_app, !tame_app, He, Ha, IHe, IHa.
      repeat split. intros Htame. apply andb_true_iff in Htame.
      destruct Htame as [Htm Htr]. rewrite (Ht Htm), (IHt Htr). reflexivity.
    + rewrite (replace_no_match re template c r E).
      assert (Hr : (String.length r <= n)%nat) by (simpl in Hlen; lia).
      destruct (IH r (Markup.next b c) Hr (known_step b c r Hk))
        as (IHe & IHa & IHt).
      simpl. destruct (b || Markup.is_lt c) eqn:Eb.
      * rewrite IHe, IHa. repeat split. intros Htame.
        apply andb_true_iff in Htame. destruct Htame as [Hc Htr].
        rewrite Hc, (IHt Htr). reflexivity.
      * apply orb_false_iff in Eb. destruct Eb as [-> Hlt].
        unfold Markup.next in *. rewrite Hlt in *.
        rewrite IHe, IHa. repeat split. intros Htame.
        simpl in Htame. rewrite (IHt Htame). reflexivity.
Qed.

End Preserve.

(** What a match of each pattern at the head of a text looks like. *)
Lemma push_value_sound text f :
  Regex.push_value text = Some f ->
  exists v rest,
    text = "Push(" ++ v ++ ")" ++ rest /\ v <> EmptyString
    /\ Diagnostic.all_chars (Regex.is_not ")") v = true
    /\ f = {| Regex.groups := [v];
              Regex.matched := 5 + String.length v + 1 |}.
Proof.
  unfold Regex.push_value.
  destruct (Js.strip_prefix "Push(" text) as [rest|] eqn:E1; [|discriminate].
  destruct (Js.span (Regex.is_not ")") rest) as [v tl] eqn:E2.
  destruct (Js.strip_prefix ")" tl) as [tl'|] eqn:E3; [|discriminate].
  destruct (Regex.nonempty v) eqn:E4; [|discriminate].
  intros H. inversion H; subst. clear H.
  apply strip_prefix_spec in E1. apply strip_prefix_spec in E3.
  apply span_spec in E2. destruct E2 as (E2 & Hv & _).
  apply nonempty_spec in E4.
  exists v, tl'. subst. repeat split; assumption.
Qed.

Lemma first_alternative_sound alts :
  forall text a rest,
    Regex.first_alternative alts text = Some (a, rest) ->
    In a alts /\ text = a ++ rest.
Proof.
  induction alts as [|x alts IH]; intros text a rest H; [discriminate|].
  simpl in H. destruct (Js.strip_prefix x text) as [r|] eqn:E.
  - inversion H; subst. apply strip_prefix_spec in E.
    split; [left; reflexivity | exact E].
  - destruct (IH _ _ _ H) as [Hin Ht]. split; [right; exact Hin | exact Ht].
Qed.

Lemma operator_sound text f :
  Regex.operator text = Some f ->
  exists name rest,
    text = name ++ rest /\ In name Regex.operator_names
    /\ f = {| Regex.groups := [name]; Regex.matched := String.length name |}.
Proof.
  unfold Regex.operator.
  destruct (Regex.first_alternative Regex.operator_names text)
    as [[name rest]|] eqn:E; [|discriminate].
  intros H. inversion H; subst.
  destruct (first_alternative_sound _ _ _ _ E) as [Hin Ht].
  exists name, rest. repeat split; assumption.
Qed.

Lemma jump_argument_sound keyword rest f :
  Regex.jump_argument keyword rest = Some f ->
  exists n tl,
    rest = "(" ++ n ++ ")" ++ tl /\ Diagnostic.is_number n
    /\ f = {| Regex.groups := [keyword; n];
              Regex.matched :=
                String.length keyword + 1 + String.length n + 1 |}.
Proof.
  unfold Regex.jump_argument.
  destruct (Js.strip_prefix "(" rest) as [tl|] eqn:E1; [|discriminate].
  destruct (Js.span Js.is_digit tl) as [n tl'] eqn:E2.
  destruct (Js.strip_prefix ")" tl') as [tl''|] eqn:E3; [|discriminate].
  destruct (Regex.nonempty n) eqn:E4; [|discriminate].
  intros H. inversion H; subst. clear H.
  apply strip_prefix_spec in E1. apply strip_prefix_spec in E3.
  apply span_spec in E2. destruct E2 as (E2 & Hn & _).
  apply nonempty_spec in E4.
  exists n, tl''. subst. repeat split; assumption.
Qed.

Lemma jump_sound text f :
  Regex.jump text = Some f ->
  exists keyword n rest,
    (keyword = "Jump" \/ keyword = "JumpIfFalse")
    /\ text = keyword ++ "(" ++ n ++ ")" ++ rest
    /\ Diagnostic.is_number n
    /\ f = {| Regex.groups := [keyword; n];
              Regex.matched :=
                String.length keyword + 1 + String.length n + 1 |}.
Proof.
  unfold Regex.jump. cbv beta zeta.
  destruct (Js.strip_prefix "Jump" text) as [r1|] eqn:E1.
  - destruct (Regex.jump_argument "Jump" r1) as [f1|] eqn:A1.
    + intros H. inversion H; subst.
      destruct (jump_argument_sound _ _ _ A1) as (n & tl & Hr & [Hn1 Hn2] & Hf).
      apply strip_prefix_spec in E1.
      exists "Jump", n, tl. subst. split; [auto|]. repeat split; assumption.
    + destruct (Js.strip_prefix "JumpIfFalse" text) as [r2|] eqn:E2;
        [|discriminate].
      intros H.
      destruct (jump_argument_sound _ _ _ H) as (n & tl & Hr & [Hn1 Hn2] & Hf).
      apply strip_prefix_spec in E2.
      exists "JumpIfFalse", n, tl. subst. split; [auto|]. repeat split; assumption.
  - destruct (Js.strip_prefix "JumpIfFalse" text) as [r2|] eqn:E2;
      [|discriminate].
    intros H.
    destruct (jump_argument_sound _ _ _ H) as (n & tl & Hr & [Hn1 Hn2] & Hf).
    apply strip_prefix_spec in E2.
    exists "JumpIfFalse", n, tl. subst. split; [auto|]. repeat split; assumption.
Qed.

Lemma variable_argument_sound keyword rest f :
  Regex.variable_argument keyword rest = Some f ->
  exists name tl,
    rest = "Variable(" ++ Js.quoted name ++ ")" ++ tl
    /\ name <> EmptyString
    /\ f = {| Regex.groups := [keyword; name];
              Regex.matched :=
                String.length keyword + 10 + String.length name + 2 |}.
Proof.
  unfold Regex.variable_argument.
  destruct (Js.strip_prefix _ rest) as [tl|] eqn:E1; [|discriminate].
  destruct (Js.span (Regex.is_not Js.dquote) tl) as [name tl'] eqn:E2.
  destruct (Js.strip_prefix _ tl') as [tl''|] eqn:E3; [|discriminate].
  destruct (Regex.nonempty name) eqn:E4; [|discriminate].
  intros H. inversion H; subst. clear H.
  apply strip_prefix_spec in E1. apply strip_prefix_spec in E3.
  apply span_spec in E2. destruct E2 as (E2 & _ & _).
  apply nonempty_spec in E4.
  exists name, tl''. subst. split; [|split; [assumption | reflexivity]].
  unfold Js.quoted. simpl. rewrite !append_associative. reflexivity.
Qed.

Lemma variable_sound text f :
  Regex.variable text = Some f ->
  exists keyword name rest,
    (keyword = "Load" \/ keyword = "Store")
    /\ text = keyword ++ "Variable(" ++ Js.quoted name ++ ")" ++ rest
    /\ name <> EmptyString
    /\ f = {| Regex.groups := [keyword; name];
              Regex.matched :=
                String.length keyword + 10 + String.length name + 2 |}.
Proof.
  unfold Regex.variable. cbv beta zeta.
  destruct (Js.strip_prefix "Load" text) as [r1|] eqn:E1.
  - destruct (Regex.variable_argument "Load" r1) as [f1|] eqn:A1.
    + intros H. inversion H; subst.
      destruct (variable_argument_sound _ _ _ A1) as (n & tl & Hr & Hn & Hf).
      apply strip_prefix_spec in E1.
      exists "Load", n, tl. subst. split; [auto|]. repeat split; assumption.
    + destruct (Js.strip_prefix "Store" text) as [r2|] eqn:E2;
        [|discriminate].
      intros H.
      destruct (variable_argument_sound _ _ _ H) as (n & tl & Hr & Hn & Hf).
      apply strip_prefix_spec in E2.
      exists "Store", n, tl. subst. split; [auto|]. repeat split; assumption.
  - destruct (Js.strip_prefix "Store" text) as [r2|] eqn:E2; [|discriminate].
    intros H.
    destruct (variable_argument_sound _ _ _ H) as (n & tl & Hr & Hn & Hf).
    apply strip_prefix_spec in E2.
    exists "Store", n, tl. subst. split; [auto|]. repeat split; assumption.
Qed.

(** Inside a tag, text without [>] and without capitals is skipped. *)
Lemma inside_reads u :
  Diagnostic.all_chars
    (fun c => negb (Markup.is_gt c) && negb (Markup.is_capital c)) u = true ->
  forall v,
    Markup.erase true (u ++ v) = Markup.erase true v
    /\ Markup.after true (u ++ v) = Markup.after true v
    /\ Markup.tame true (u ++ v) = Markup.tame true v.
Proof.
  induction u as [|c u IH]; intros H v; [repeat split|].
  simpl in H. apply andb_true_iff in H. destruct H as [Hc Hu].
  apply andb_true_iff in Hc. destruct Hc as [Hgt Hcap].
  apply negb_true_iff in Hgt.
  destruct (IH Hu v) as (He & Ha & Ht).
  simpl. unfold Markup.next. rewrite Hgt, Hcap. simpl.
  rewrite He, Ha, Ht. repeat split.
Qed.

(** A [span] around tag-free text reads as that text. *)
Lemma span_reads cls body rest :
  Diagnostic.all_chars
    (fun c => negb (Markup.is_gt c) && negb (Markup.is_capital c)) cls = true ->
  Markup.tag_free body = true ->
  Markup.erase false (Highlight.span_of cls body ++ rest)
  = body ++ Markup.erase false rest
  /\ Markup.after false (Highlight.span_of cls body ++ rest)
     = Markup.after false rest
  /\ Markup.tame false (Highlight.span_of cls body ++ rest)
     = Markup.tame false rest.
Proof.
  intros Hcls Hbody.
  destruct (tag_free_reads body Hbody) as (Be & Ba & Bt).
  unfold Highlight.span_of, Js.quoted.
  rewrite !append_associative.
  assert (Hq : Diagnostic.all_chars
                 (fun c => negb (Markup.is_gt c) && negb (Markup.is_capital c))
                 (cls ++ String Js.dquote EmptyString) = true)
    by (rewrite all_chars_app, Hcls; reflexivity).
  destruct (inside_reads _ Hq (">" ++ body ++ "</span>" ++ rest))
    as (He & Ha & Ht).
  set (Z := ">" ++ body ++ "</span>" ++ rest) in *.
  change (Markup.erase false
            ("<span class="
             ++ String Js.dquote (cls ++ String Js.dquote EmptyString) ++ Z))
    with (Markup.erase true ((cls ++ String Js.dquote EmptyString) ++ Z)).
  change (Markup.after false
            ("<span class="
             ++ String Js.dquote (cls ++ String Js.dquote EmptyString) ++ Z))
    with (Markup.after true ((cls ++ String Js.dquote EmptyString) ++ Z)).
  change (Markup.tame false
            ("<span class="
             ++ String Js.dquote (cls ++ String Js.dquote EmptyString) ++ Z))
    with (Markup.tame true ((cls ++ String Js.dquote EmptyString) ++ Z)).
  rewrite He, Ha, Ht. subst Z.
  change (Markup.erase true (">" ++ body ++ "</span>" ++ rest))
    with (Markup.erase false (body ++ "</span>" ++ rest)).
  change (Markup.after true (">" ++ body ++ "</span>" ++ rest))
    with (Markup.after false (body ++ "</span>" ++ rest)).
  change (Markup.tame true (">" ++ body ++ "</span>" ++ rest))
    with (Markup.tame false (body ++ "</span>" ++ rest)).
  rewrite erase_app, after_app, tame_app, Be, Ba, Bt.
  repeat split.
Qed.

Lemma class_ok cls :
  In cls ["bytecode-value"; "bytecode-op"; "bytecode-flow"; "bytecode-number";
          "bytecode-var"] ->
  Diagnostic.all_chars
    (fun c => negb (Markup.is_gt c) && negb (Markup.is_capital c)) cls = true.
Proof.
  intros H. simpl in H.
  repeat (destruct H as [<- | H]; [reflexivity|]). destruct H.
Qed.

(** The push pass on a text without angle brackets. *)
Lemma push_faithful text f :
  false = false /\ Markup.tag_free text = true ->
  Regex.push_value text = Some f ->
  exists m rest,
    text = m ++ rest /\ m <> EmptyString
    /\ Regex.matched f = String.length m
    /\ Markup.erase false (Highlight.push_template f) = Markup.erase false m
    /\ Markup.after false (Highlight.push_template f) = Markup.after false m
    /\ (Markup.tame false m = true ->
        Markup.tame false (Highlight.push_template f) = true).
Proof.
  intros [_ Htf] Hre.
  destruct (push_value_sound text f Hre) as (v & rest & Ht & Hn & Hv & Hf).
  exists ("Push(" ++ v ++ ")"), rest. subst text f.
  unfold Markup.tag_free in Htf. rewrite !all_chars_app in Htf.
  apply andb_true_iff in Htf. destruct Htf as [_ Htf].
  apply andb_true_iff in Htf. destruct Htf as [Hvf _].
  assert (Hm : Markup.tag_free ("Push(" ++ v ++ ")") = true).
  { unfold Markup.tag_free. rewrite !all_chars_app, Hvf. reflexivity. }
  destruct (tag_free_reads _ Hm) as (Me & Ma & Mt).
  destruct (span_reads "bytecode-value" v ")"
              (class_ok _ ltac:(simpl; tauto)) Hvf) as (Se & Sa & St).
  unfold Highlight.push_template, Regex.group. cbn [Regex.groups nth Regex.matched].
  split; [rewrite !append_associative; reflexivity|].
  split; [discriminate|].
  split.
  { change ("Push(" ++ v ++ ")")
      with (String "P" (String "u" (String "s" (String "h"
             (String "(" (v ++ ")")))))).
    simpl String.length. rewrite length_append. simpl. lia. }
  rewrite Me, Ma.
  change (Markup.erase false
            ("Push(" ++ Highlight.span_of "bytecode-value" v ++ ")"))
    with ("Push("
          ++ Markup.erase false (Highlight.span_of "bytecode-value" v ++ ")")).
  change (Markup.after false
            ("Push(" ++ Highlight.span_of "bytecode-value" v ++ ")"))
    with (Markup.after false (Highlight.span_of "bytecode-value" v ++ ")")).
  change (Markup.tame false
            ("Push(" ++ Highlight.span_of "bytecode-value" v ++ ")"))
    with (Markup.tame false (Highlight.span_of "bytecode-value" v ++ ")")).
  rewrite Se, Sa, St. repeat split.
Qed.

Lemma tag_free_step b c r :
  b = false /\ Markup.tag_free (String c r) = true ->
  Markup.next b c = false /\ Markup.tag_free r = true.
Proof.
  intros [-> H]. unfold Markup.tag_free in *. simpl in H.
  apply andb_true_iff in H. destruct H as [Hc Hr].
  apply andb_true_iff in Hc. destruct Hc as [Hlt _].
  apply negb_true_iff in Hlt. unfold Markup.next. rewrite Hlt.
  split; [reflexivity | exact Hr].
Qed.

Lemma push_pass_preserves s :
  Markup.tag_free s = true ->
  Markup.erase false (Highlight.replace_push s) = s
  /\ Markup.tame false (Highlight.replace_push s) = true.
Proof.
  intros H. destruct (tag_free_reads s H) as (He & _ & Ht).
  destruct (replace_preserves Regex.push_value Highlight.push_template
              (fun b t => b = false /\ Markup.tag_free t = true)
              tag_free_step
              ltac:(intros c r f [Hb _]; discriminate Hb)
              push_faithful
              (String.length s) s false (le_n _) (conj eq_refl H))
    as (Pe & _ & Pt).
  unfold Highlight.replace_push. rewrite Pe, He. split; [reflexivity|].
  apply Pt, Ht.
Qed.

Lemma tame_step b c r :
  Markup.tame b (String c r) = true -> Markup.tame (Markup.next b c) r = true.
Proof. simpl. intros H. apply andb_true_iff in H. apply H. Qed.

Lemma tame_inside_no_trigger c r :
  Markup.tame true (String c r) = true -> Markup.is_trigger c = false.
Proof.
  simpl. intros H. apply andb_true_iff in H. destruct H as [H _].
  destruct c as [[] [] [] [] [] [] [] []]; try reflexivity; discriminate H.
Qed.

Lemma operator_faithful text f :
  Markup.tame false text = true ->
  Regex.operator text = Some f ->
  exists m rest,
    text = m ++ rest /\ m <> EmptyString
    /\ Regex.matched f = String.length m
    /\ Markup.erase false (Highlight.operator_template f)
       = Markup.erase false m
    /\ Markup.after false (Highlight.operator_template f)
       = Markup.after false m
    /\ (Markup.tame false m = true ->
        Markup.tame false (Highlight.operator_template f) = true).
Proof.
  intros _ Hre.
  destruct (operator_sound text f Hre) as (name & rest & Ht & Hin & Hf).
  exists name, rest. subst f. split; [exact Ht|].
  simpl in Hin.
  repeat (destruct Hin as [<- | Hin];
          [split; [discriminate|]; repeat split|]).
  destruct Hin.
Qed.

Lemma digits_tag_free n :
  Diagnostic.all_chars Js.is_digit n = true -> Markup.tag_free n = true.
Proof.
  apply all_chars_weaken. intros c H.
  destruct c as [[] [] [] [] [] [] [] []]; try discriminate H; reflexivity.
Qed.

Lemma jump_faithful text f :
  Markup.tame false text = true ->
  Regex.jump text = Some f ->
  exists m rest,
    text = m ++ rest /\ m <> EmptyString
    /\ Regex.matched f = String.length m
    /\ Markup.erase false (Highlight.jump_template f) = Markup.erase false m
    /\ Markup.after false (Highlight.jump_template f) = Markup.after false m
    /\ (Markup.tame false m = true ->
        Markup.tame false (Highlight.jump_template f) = true).
Proof.
  intros _ Hre.
  destruct (jump_sound text f Hre) as (kw & n & rest & Hk & Ht & Hn & Hf).
  exists (kw ++ "(" ++ n ++ ")"), rest. subst text f.
  pose proof (digits_tag_free n (proj2 Hn)) as Hnf.
  assert (Hkf : Markup.tag_free kw = true)
    by (destruct Hk as [-> | ->]; reflexivity).
  assert (Hm : Markup.tag_free (kw ++ "(" ++ n ++ ")") = true).
  { unfold Markup.tag_free in *. rewrite !all_chars_app, Hkf, Hnf. reflexivity. }
  destruct (tag_free_reads _ Hm) as (Me & Ma & Mt).
  destruct (span_reads "bytecode-number" n ")"
              (class_ok _ ltac:(simpl; tauto)) Hnf) as (Ne & Na & Nt).
  destruct (span_reads "bytecode-flow" kw
              ("(" ++ Highlight.span_of "bytecode-number" n ++ ")")
              (class_ok _ ltac:(simpl; tauto)) Hkf) as (Ke & Ka & Kt).
  unfold Highlight.jump_template, Regex.group.
  cbn [Regex.groups nth Regex.matched].
  split; [rewrite !append_associative; reflexivity|].
  split; [destruct Hk as [-> | ->]; discriminate|].
  split; [rewrite !length_append; simpl; lia|].
  rewrite Me, Ma, Ke, Ka, Kt.
  change (Markup.erase false
            ("(" ++ Highlight.span_of "bytecode-number" n ++ ")"))
    with ("(" ++ Markup.erase false
                   (Highlight.span_of "bytecode-number" n ++ ")")).
  change (Markup.after false
            ("(" ++ Highlight.span_of "bytecode-number" n ++ ")"))
    with (Markup.after false (Highlight.span_of "bytecode-number" n ++ ")")).
  change (Markup.tame false
            ("(" ++ Highlight.span_of "bytecode-number" n ++ ")"))
    with (Markup.tame false (Highlight.span_of "bytecode-number" n ++ ")")).
  rewrite Ne, Na, Nt. repeat split.
Qed.

Lemma variable_faithful text f :
  Markup.tame false text = true ->
  Regex.variable text = Some f ->
  exists m rest,
    text = m ++ rest /\ m <> EmptyString
    /\ Regex.matched f = String.length m
    /\ Markup.erase false (Highlight.variable_template f)
       = Markup.erase false m
    /\ Markup.after false (Highlight.variable_template f)
       = Markup.after false m
    /\ (Markup.tame false m = true ->
        Markup.tame false (Highlight.variable_template f) = true).
Proof.
  intros _ Hre.
  destruct (variable_sound text f Hre) as (kw & name & rest & Hk & Ht & Hn & Hf).
  exists (kw ++ "Variable(" ++ Js.quoted name ++ ")"), rest. subst text f.
  assert (Hkf : Markup.tag_free (kw ++ "Variable") = true)
    by (destruct Hk as [-> | ->]; reflexivity).
  destruct (tag_free_reads _ Hkf) as (Ve & Va & Vt).
  destruct (span_reads "bytecode-var" (kw ++ "Variable")
              ("(" ++ Js.quoted name ++ ")")
              (class_ok _ ltac:(simpl; tauto)) Hkf) as (Ke & Ka & Kt).
  unfold Highlight.variable_template, Regex.group.
  cbn [Regex.groups nth Regex.matched].
  split; [rewrite !append_associative; reflexivity|].
  split; [destruct Hk as [-> | ->]; discriminate|].
  split; [unfold Js.quoted; rewrite !length_append; simpl;
          rewrite length_append; simpl; lia|].
  rewrite Ke, Ka, Kt.
  assert (Hm : kw ++ "Variable(" ++ Js.quoted name ++ ")"
               = (kw ++ "Variable") ++ "(" ++ Js.quoted name ++ ")")
    by (rewrite append_associative; reflexivity).
  rewrite Hm, (erase_app (kw ++ "Variable")), (after_app (kw ++ "Variable")),
    (tame_app (kw ++ "Variable")), Ve, Va, Vt.
  split; [reflexivity|]. split; [reflexivity|]. intros X. exact X.
Qed.

Ltac no_match_inside starts_lemma :=
  let c := fresh "c" in
  let r := fresh "r" in
  let f := fresh "f" in
  let Hk := fresh "Hk" in
  let Hre := fresh "Hre" in
  intros c r f Hk Hre;
  apply tame_inside_no_trigger in Hk;
  destruct (trigger_covers c Hk) as (Hp & Ho & Hj & Hl);
  rewrite starts_lemma in Hre by assumption; discriminate Hre.

Lemma later_passes_preserve s :
  Markup.tame false s = true ->
  let s' :=
    Highlight.replace_variables
      (Highlight.replace_jumps (Highlight.replace_operators s)) in
  Markup.erase false s' = Markup.erase false s.
Proof.
  intros H. cbv zeta.
  destruct (replace_preserves Regex.operator Highlight.operator_template
              (fun b t => Markup.tame b t = true) tame_step
              ltac:(no_match_inside operator_needs_initial)
              operator_faithful (String.length s) s false (le_n _) H)
    as (E1 & _ & T1).
  specialize (T1 H).
  destruct (replace_preserves Regex.jump Highlight.jump_template
              (fun b t => Markup.tame b t = true) tame_step
              ltac:(no_match_inside jump_starts)
              jump_faithful _ _ false (le_n _) T1)
    as (E2 & _ & T2).
  specialize (T2 T1).
  destruct (replace_preserves Regex.variable Highlight.variable_template
              (fun b t => Markup.tame b t = true) tame_step
              ltac:(no_match_inside variable_starts)
              variable_faithful _ _ false (le_n _) T2)
    as (E3 & _ & _).
  unfold Highlight.replace_variables, Highlight.replace_jumps,
    Highlight.replace_operators in *.
  rewrite E3, E2, E1. reflexivity.
Qed.

(** X17.  For an instruction without angle brackets, taking the tags out of
    what [highlightBytecode] returns gives back the instruction, character
    for character: the four passes only ever insert [span] tags, whichever
    of their patterns match and however the matches nest. *)
Theorem highlighting_only_adds_tags :
  forall instruction : string,
    Markup.tag_free instruction = true ->
    Markup.erase_tags (Highlight.highlightBytecode instruction) = instruction.
Proof.
  intros s H. destruct (push_pass_preserves s H) as [He Ht].
  unfold Markup.erase_tags, Highlight.highlightBytecode.
  pose proof (later_passes_preserve (Highlight.replace_push s) Ht) as L.
  cbv zeta in L. rewrite L. exact He.
Qed.

Lemma highlighting_witness :
  Markup.tag_free ("Push(LoadVariable(" ++ Js.quoted "x)" ++ ") Add Jump(3)")
  = true
  /\ Markup.erase_tags
       (Highlight.highlightBytecode
          ("Push(LoadVariable(" ++ Js.quoted "x)" ++ ") Add Jump(3)"))
     = "Push(LoadVariable(" ++ Js.quoted "x)" ++ ") Add Jump(3)".
Proof.
  split; [reflexivity|].
  exact (highlighting_only_adds_tags
           ("Push(LoadVariable(" ++ Js.quoted "x)" ++ ") Add Jump(3)") eq_refl).
Defined.

(** ** Every occurrence of an operator name is wrapped *)

Lemma append_injective (a x y : string) : a ++ x = a ++ y -> x = y.
Proof. induction a as [|c a IH]; simpl; intros H; [exact H|]. inversion H. auto. Qed.

(** Two ways of cutting one text: one of the first parts extends the
    other. *)
Lemma append_prefix :
  forall m a b rest : string,
    a ++ b = m ++ rest -> (String.length m <= String.length a)%nat ->
    exists x, a = m ++ x /\ rest = x ++ b.
Proof.
  induction m as [|c m IH]; intros a b rest H Hlen; simpl in *.
  - exists a. split; [reflexivity | congruence].
  - destruct a as [|d a]; simpl in *; [lia|].
    inversion H; subst.
    destruct (IH a b rest H2 ltac:(lia)) as (x & Ha & Hr).
    exists x. subst. split; reflexivity.
Qed.

Lemma head_of_append (u y rest : string) c y' :
  u <> EmptyString -> y = u ++ rest -> y = String c y' ->
  exists u', u = String c u'.
Proof.
  intros Hu Hy Hc. destruct u as [|d u']; [contradiction|].
  subst y. simpl in Hc. inversion Hc; subst. exists u'. reflexivity.
Qed.

Section Split.

Variables (re : Regex.pattern) (template : Regex.found -> string).

(** A match is a non-empty head of the text, and is one whatever
    follows it. *)
Hypothesis re_local :
  forall text f,
    re text = Some f ->
    exists m rest,
      text = m ++ rest /\ m <> EmptyString
      /\ Regex.matched f = String.length m
      /\ forall rest', re (m ++ rest') = Some f.

(** When no match that begins in [x] runs into [y], the pass works on
    the two parts one after the other. *)
Lemma replace_split n :
  forall x y,
    (String.length x <= n)%nat ->
    (forall x1 x2 f,
        x = x1 ++ x2 -> x2 <> EmptyString -> re (x2 ++ y) = Some f ->
        (Regex.matched f <= String.length x2)%nat) ->
    Regex.replace re template (x ++ y)
    = Regex.replace re template x ++ Regex.replace re template y.
Proof.
  induction n as [|n IH]; intros x y Hlen Hcross.
  - destruct x; [reflexivity | simpl in Hlen; lia].
  - destruct x as [|c r]; [reflexivity|].
    destruct (re (String c r ++ y)) as [f|] eqn:E.
    + destruct (re_local _ _ E) as (m & rest & Ht & Hm & Hlenm & Hloc).
      pose proof (Hcross EmptyString (String c r) f eq_refl ltac:(discriminate) E)
        as Hle.
      rewrite Hlenm in Hle.
      destruct (append_prefix m (String c r) y rest Ht Hle) as (x' & Hx & Hrest).
      rewrite Hx, append_associative.
      rewrite (replace_match re template m (x' ++ y) f (Hloc _) Hm Hlenm).
      rewrite (replace_match re template m x' f (Hloc _) Hm Hlenm).
      rewrite append_associative. f_equal.
      apply IH.
      * assert (L : String.length (String c r)
                    = (String.length m + String.length x')%nat)
          by (rewrite Hx; apply length_append).
        destruct m; [contradiction | simpl in *; lia].
      * intros x1 x2 f' Hx' Hx2 Hre.
        apply (Hcross (m ++ x1) x2 f'); [|exact Hx2 | exact Hre].
        rewrite Hx, Hx', append_associative. reflexivity.
    + assert (E' : re (String c r) = None).
      { destruct (re (String c r)) as [f'|] eqn:E'; [|reflexivity].
        destruct (re_local _ _ E') as (m & rest & Ht & _ & _ & Hloc).
        specialize (Hloc (rest ++ y)).
        rewrite <- append_associative, <- Ht in Hloc. congruence. }
      change (String c r ++ y) with (String c (r ++ y)) in *.
      rewrite (replace_no_match re template c (r ++ y) E).
      rewrite (replace_no_match re template c r E').
      simpl. f_equal. apply IH; [simpl in Hlen; lia|].
      intros x1 x2 f' Hx' Hx2 Hre.
      apply (Hcross (String c x1) x2 f'); [|exact Hx2 | exact Hre].
      rewrite Hx'. reflexivity.
Qed.

End Split.

(** A match that runs from [x2] into [y] holds the first character of
    [y]; it cannot where that character is none of its own. *)
Lemma no_crossing (allowed : ascii -> bool) (m x2 y rest : string) c y' :
  x2 ++ y = m ++ rest ->
  y = String c y' ->
  allowed c = false ->
  Diagnostic.all_chars allowed m = true ->
  (String.length m <= String.length x2)%nat.
Proof.
  intros Ht Hy Hc Hall.
  destruct (Nat.le_gt_cases (String.length m) (String.length x2))
    as [Hle | Hlt]; [exact Hle | exfalso].
  symmetry in Ht.
  destruct (append_split _ _ _ _ Ht Hlt) as (u & Hm & Hu & Hyu).
  destruct (head_of_append u y rest c y' Hu Hyu Hy) as [u' ->].
  rewrite Hm, all_chars_app in Hall. simpl in Hall.
  rewrite Hc in Hall. rewrite andb_false_r in Hall. discriminate Hall.
Qed.

(** *** The operator pass *)

Lemma operator_name_shape name :
  In name Regex.operator_names ->
  exists c t,
    name = String c t /\ Markup.is_capital c = true
    /\ Diagnostic.all_chars (fun x => negb (Markup.is_capital x)) t = true
    /\ Markup.tag_free name = true
    /\ Diagnostic.all_chars (Regex.is_not ")") name = true
    /\ Diagnostic.all_chars (fun x => negb (Ascii.eqb x "P")) name = true.
Proof.
  intros H. simpl in H.
  repeat (destruct H as [<- | H];
          [eexists; eexists; split; [reflexivity|]; repeat split|]).
  destruct H.
Qed.

Lemma operator_local text f :
  Regex.operator text = Some f ->
  exists m rest,
    text = m ++ rest /\ m <> EmptyString
    /\ Regex.matched f = String.length m
    /\ forall rest', Regex.operator (m ++ rest') = Some f.
Proof.
  intros H. destruct (operator_sound text f H) as (name & rest & Ht & Hin & ->).
  exists name, rest. split; [exact Ht|].
  simpl in Hin.
  repeat (destruct Hin as [<- | Hin];
          [split; [discriminate|]; split; reflexivity|]).
  destruct Hin.
Qed.

(** The operator pass goes through the text before a capital letter and
    through the text from it on separately: no operator name has a capital
    letter anywhere but at its head. *)
Lemma replace_operators_split x c y :
  Markup.is_capital c = true ->
  Highlight.replace_operators (x ++ String c y)
  = Highlight.replace_operators x ++ Highlight.replace_operators (String c y).
Proof.
  intros Hc. unfold Highlight.replace_operators.
  apply (replace_split _ _ operator_local (String.length x)); [apply le_n|].
  intros x1 x2 f _ Hx2 Hre.
  destruct (operator_sound _ _ Hre) as (name & rest & Ht & Hin & ->).
  cbn [Regex.matched].
  destruct (Nat.le_gt_cases (String.length name) (String.length x2))
    as [Hle | Hlt]; [exact Hle | exfalso].
  symmetry in Ht.
  destruct (append_split _ _ _ _ Ht Hlt) as (u & Hname & Hu & Hy).
  destruct (head_of_append u _ rest c y Hu Hy eq_refl) as [u' ->].
  destruct (operator_name_shape name Hin) as (a & t & Hn & _ & Hlow & _).
  destruct x2 as [|b x2']; [contradiction|].
  rewrite Hn in Hname. simpl in Hname. inversion Hname; subst.
  rewrite all_chars_app in Hlow. simpl in Hlow. rewrite Hc in Hlow.
  simpl in Hlow. rewrite andb_false_r in Hlow. discriminate Hlow.
Qed.

(** The general law of the operator pass: an operator name is wrapped
    wherever it stands, and the pass goes on behind it. *)
Lemma replace_operators_at pre name post :
  In name Regex.operator_names ->
  Highlight.replace_operators (pre ++ name ++ post)
  = Highlight.replace_operators pre
    ++ Highlight.span_of "bytecode-op" name
    ++ Highlight.replace_operators post.
Proof.
  intros Hin.
  destruct (operator_name_shape name Hin) as (c & t & Hn & Hcap & _).
  rewrite Hn at 1.
  change (pre ++ String c t ++ post) with (pre ++ String c (t ++ post)).
  rewrite (replace_operators_split pre c (t ++ post) Hcap).
  change (String c (t ++ post)) with (String c t ++ post).
  rewrite <- Hn, (replace_operators_head name post Hin). reflexivity.
Qed.

(** *** The jump pass and the variable pass leave a wrapped name alone *)

Lemma jump_local text f :
  Regex.jump text = Some f ->
  exists m rest,
    text = m ++ rest /\ m <> EmptyString
    /\ Regex.matched f = String.length m
    /\ forall rest', Regex.jump (m ++ rest') = Some f.
Proof.
  intros H.
  destruct (jump_sound text f H) as (kw & n & rest & Hk & Ht & Hn & ->).
  exists (kw ++ "(" ++ n ++ ")"), rest.
  split; [rewrite Ht, !append_associative; reflexivity|].
  split; [destruct Hk as [-> | ->]; discriminate|].
  split; [cbn [Regex.matched]; rewrite !length_append; simpl; lia|].
  intros rest'. rewrite !append_associative.
  unfold Regex.jump. cbv beta zeta.
  destruct Hk as [-> | ->].
  - change (Js.strip_prefix "Jump" ("Jump" ++ "(" ++ n ++ ")" ++ rest'))
      with (Some ("(" ++ n ++ ")" ++ rest')).
    cbv beta iota. rewrite (jump_argument_head "Jump" n rest' Hn). reflexivity.
  - change (Js.strip_prefix "Jump" ("JumpIfFalse" ++ "(" ++ n ++ ")" ++ rest'))
      with (Some ("IfFalse(" ++ n ++ ")" ++ rest')).
    cbv beta iota.
    change (Regex.jump_argument "Jump" ("IfFalse(" ++ n ++ ")" ++ rest'))
      with (@None Regex.found).
    cbv beta iota.
    change (Js.strip_prefix "JumpIfFalse"
              ("JumpIfFalse" ++ "(" ++ n ++ ")" ++ rest'))
      with (Some ("(" ++ n ++ ")" ++ rest')).
    cbv beta iota.
    rewrite (jump_argument_head "JumpIfFalse" n rest' Hn). reflexivity.
Qed.

(** No jump holds an opening angle bracket, so the jump pass goes through
    the text before a tag and through the text from it on separately. *)
Lemma replace_jumps_split x y :
  Highlight.replace_jumps (x ++ String "<" y)
  = Highlight.replace_jumps x ++ Highlight.replace_jumps (String "<" y).
Proof.
  unfold Highlight.replace_jumps.
  apply (replace_split _ _ jump_local (String.length x)); [apply le_n|].
  intros x1 x2 f _ Hx2 Hre.
  destruct (jump_sound _ _ Hre) as (kw & n & rest & Hk & Ht & Hn & ->).
  cbn [Regex.matched].
  assert (L : (String.length kw + 1 + String.length n + 1)%nat
              = String.length (kw ++ "(" ++ n ++ ")"))
    by (rewrite !length_append; simpl; lia).
  rewrite L.
  apply (no_crossing (Regex.is_not "<") _ x2 (String "<" y) rest "<" y);
    [rewrite Ht, !append_associative; reflexivity
    | reflexivity | reflexivity |].
  pose proof (digits_tag_free n (proj2 Hn)) as Hd.
  unfold Markup.tag_free in Hd.
  rewrite !all_chars_app.
  assert (Hn' : Diagnostic.all_chars (Regex.is_not "<") n = true).
  { refine (all_chars_weaken _ _ n _ Hd). intros c Hc.
    apply andb_true_iff in Hc. destruct Hc as [Hc _]. exact Hc. }
  rewrite Hn'. destruct Hk as [-> | ->]; reflexivity.
Qed.

Lemma replace_jumps_wrapped name rest :
  In name Regex.operator_names ->
  Highlight.replace_jumps (Highlight.span_of "bytecode-op" name ++ rest)
  = Highlight.span_of "bytecode-op" name ++ Highlight.replace_jumps rest.
Proof.
  intros H. simpl in H.
  repeat (destruct H as [<- | H]; [reflexivity|]). destruct H.
Qed.

Lemma replace_variables_wrapped name rest :
  In name Regex.operator_names ->
  Highlight.replace_variables (Highlight.span_of "bytecode-op" name ++ rest)
  = Highlight.span_of "bytecode-op" name ++ Highlight.replace_variables rest.
Proof.
  intros H. simpl in H.
  repeat (destruct H as [<- | H]; [reflexivity|]). destruct H.
Qed.

Lemma variable_argument_shape keyword rest f :
  Regex.variable_argument keyword rest = Some f ->
  exists name tl,
    rest = "Variable(" ++ Js.quoted name ++ ")" ++ tl
    /\ name <> EmptyString
    /\ Diagnostic.all_chars (Regex.is_not Js.dquote) name = true
    /\ f = {| Regex.groups := [keyword; name];
              Regex.matched :=
                String.length keyword + 10 + String.length name + 2 |}.
Proof.
  unfold Regex.variable_argument.
  destruct (Js.strip_prefix _ rest) as [tl|] eqn:E1; [|discriminate].
  destruct (Js.span (Regex.is_not Js.dquote) tl) as [name tl'] eqn:E2.
  destruct (Js.strip_prefix _ tl') as [tl''|] eqn:E3; [|discriminate].
  destruct (Regex.nonempty name) eqn:E4; [|discriminate].
  intros H. inversion H; subst. clear H.
  apply strip_prefix_spec in E1. apply strip_prefix_spec in E3.
  apply span_spec in E2. destruct E2 as (E2 & Hq & _).
  apply nonempty_spec in E4.
  exists name, tl''. subst.
  split; [|split; [assumption | split; [assumption | reflexivity]]].
  unfold Js.quoted. simpl. rewrite !append_associative. reflexivity.
Qed.

Lemma variable_shape text f :
  Regex.variable text = Some f ->
  exists keyword name rest,
    (keyword = "Load" \/ keyword = "Store")
    /\ text = keyword ++ "Variable(" ++ Js.quoted name ++ ")" ++ rest
    /\ name <> EmptyString
    /\ Diagnostic.all_chars (Regex.is_not Js.dquote) name = true
    /\ f = {| Regex.groups := [keyword; name];
              Regex.matched :=
                String.length keyword + 10 + String.length name + 2 |}.
Proof.
  unfold Regex.variable. cbv beta zeta.
  destruct (Js.strip_prefix "Load" text) as [r1|] eqn:E1.
  - destruct (Regex.variable_argument "Load" r1) as [f1|] eqn:A1.
    + intros H. inversion H; subst.
      destruct (variable_argument_shape _ _ _ A1) as (n & tl & Hr & Hn & Hq & Hf).
      apply strip_prefix_spec in E1.
      exists "Load", n, tl. subst. split; [auto|]. repeat split; assumption.
    + destruct (Js.strip_prefix "Store" text) as [r2|] eqn:E2;
        [|discriminate].
      intros H.
      destruct (variable_argument_shape _ _ _ H) as (n & tl & Hr & Hn & Hq & Hf).
      apply strip_prefix_spec in E2.
      exists "Store", n, tl. subst. split; [auto|]. repeat split; assumption.
  - destruct (Js.strip_prefix "Store" text) as [r2|] eqn:E2; [|discriminate].
    intros H.
    destruct (variable_argument_shape _ _ _ H) as (n & tl & Hr & Hn & Hq & Hf).
    apply strip_prefix_spec in E2.
    exists "Store", n, tl. subst. split; [auto|]. repeat split; assumption.
Qed.

Lemma variable_local text f :
  Regex.variable text = Some f ->
  exists m rest,
    text = m ++ rest /\ m <> EmptyString
    /\ Regex.matched f = String.length m
    /\ forall rest', Regex.variable (m ++ rest') = Some f.
Proof.
  intros H.
  destruct (variable_shape text f H) as (kw & g & rest & Hk & Ht & Hg & Hq & ->).
  exists (kw ++ "Variable(" ++ Js.quoted g ++ ")"), rest.
  split; [rewrite Ht, !append_associative; reflexivity|].
  split; [destruct Hk as [-> | ->]; discriminate|].
  split.
  { cbn [Regex.matched]. unfold Js.quoted. rewrite !length_append. simpl.
    rewrite length_append. simpl. lia. }
  intros rest'. rewrite !append_associative.
  unfold Regex.variable. cbv beta zeta.
  destruct Hk as [-> | ->].
  - change (Js.strip_prefix "Load"
              ("Load" ++ "Variable(" ++ Js.quoted g ++ ")" ++ rest'))
      with (Some ("Variable(" ++ Js.quoted g ++ ")" ++ rest')).
    cbv beta iota.
    rewrite (variable_argument_head "Load" g rest' Hg Hq). reflexivity.
  - change (Js.strip_prefix "Load"
              ("Store" ++ "Variable(" ++ Js.quoted g ++ ")" ++ rest'))
      with (@None string).
    cbv beta iota.
    change (Js.strip_prefix "Store"
              ("Store" ++ "Variable(" ++ Js.quoted g ++ ")" ++ rest'))
      with (Some ("Variable(" ++ Js.quoted g ++ ")" ++ rest')).
    cbv beta iota.
    rewrite (variable_argument_head "Store" g rest' Hg Hq). reflexivity.
Qed.

(** A variable access cannot end inside the opening tag of a [span]: its
    only angle bracket would be inside the quoted name, and the quote that
    ends the name is followed by a parenthesis, that of the tag by the name
    of the class. *)
Lemma replace_variables_split x cls rest :
  cls <> EmptyString ->
  Diagnostic.all_chars
    (fun c => Regex.is_not Js.dquote c && Regex.is_not ")" c) cls = true ->
  let y := "<span class=" ++ String Js.dquote (cls ++ rest) in
  Highlight.replace_variables (x ++ y)
  = Highlight.replace_variables x ++ Highlight.replace_variables y.
Proof.
  intros Hcls Hchars. cbv zeta. unfold Highlight.replace_variables.
  apply (replace_split _ _ variable_local (String.length x)); [apply le_n|].
  intros x1 x2 f _ Hx2 Hre.
  destruct (variable_shape _ _ Hre) as (kw & g & tl & Hk & Ht & Hg & Hq & ->).
  cbn [Regex.matched].
  set (P := kw ++ "Variable(" ++ String Js.dquote EmptyString).
  set (Q := String Js.dquote ")").
  assert (Hm : kw ++ "Variable(" ++ Js.quoted g ++ ")" ++ tl
               = P ++ g ++ Q ++ tl).
  { unfold P, Q, Js.quoted. rewrite !append_associative. simpl.
    rewrite !append_associative. reflexivity. }
  rewrite Hm in Ht. clear Hm.
  assert (L : (String.length kw + 10 + String.length g + 2)%nat
              = String.length (P ++ g ++ Q)).
  { unfold P, Q. rewrite !length_append. simpl. lia. }
  rewrite L. clear L.
  destruct (Nat.le_gt_cases (String.length (P ++ g ++ Q)) (String.length x2))
    as [Hle | Hlt]; [exact Hle | exfalso].
  assert (Ht' : (P ++ g ++ Q) ++ tl
                = x2 ++ "<span class=" ++ String Js.dquote (cls ++ rest))
    by (rewrite Ht, !append_associative; reflexivity).
  destruct (append_split _ _ _ _ Ht' Hlt) as (u & Hmu & Hu & Hy).
  destruct (head_of_append u _ tl "<" _ Hu Hy eq_refl) as [u' Hu'].
  (* where the match is cut: inside the keyword, the name, or the end *)
  destruct (Nat.le_gt_cases (String.length P) (String.length x2))
    as [HP | HP].
  - symmetry in Hmu.
    destruct (append_prefix P x2 u (g ++ Q) Hmu HP) as (x' & Hx2' & Hgq).
    destruct (Nat.le_gt_cases (String.length g) (String.length x'))
      as [Hgx | Hgx].
    + symmetry in Hgq.
      destruct (append_prefix g x' u Q Hgq Hgx) as (x'' & _ & HQ).
      subst u. unfold Q in HQ.
      destruct x'' as [|a [|b [|c x'']]]; simpl in HQ; inversion HQ.
    + destruct (append_split _ _ _ _ Hgq Hgx) as (e & Hge & He & Hue).
      (* the name ends inside the tag *)
      assert (Hqe : Diagnostic.all_chars (Regex.is_not Js.dquote) e = true).
      { rewrite Hge, all_chars_app in Hq. apply andb_true_iff in Hq. apply Hq. }
      rewrite Hue in Hy.
      assert (S1 : Js.span (Regex.is_not Js.dquote)
                     ("<span class=" ++ String Js.dquote (cls ++ rest))
                   = ("<span class=", String Js.dquote (cls ++ rest)))
        by reflexivity.
      rewrite Hy in S1. rewrite append_associative in S1.
      rewrite (span_app _ e _ Hqe) in S1. unfold Q in S1.
      simpl in S1. inversion S1 as [[He1 He2]].
      destruct cls as [|c0 cls']; [contradiction|].
      simpl in He2. inversion He2 as [Hc0]. subst c0.
      simpl in Hchars. discriminate Hchars.
  - destruct (append_split _ _ _ _ Hmu HP) as (e & HPe & He & Hue).
    rewrite Hu' in Hue.
    destruct e as [|a e']; [contradiction|].
    simpl in Hue. inversion Hue; subst a.
    assert (HPc : Diagnostic.all_chars (Regex.is_not "<") P = true)
      by (unfold P; destruct Hk as [-> | ->]; reflexivity).
    rewrite HPe, all_chars_app in HPc. simpl in HPc.
    rewrite andb_false_r in HPc. discriminate HPc.
Qed.

(** *** The push pass keeps the name in one piece *)

Lemma push_local text f :
  Regex.push_value text = Some f ->
  exists m rest,
    text = m ++ rest /\ m <> EmptyString
    /\ Regex.matched f = String.length m
    /\ forall rest', Regex.push_value (m ++ rest') = Some f.
Proof.
  intros H.
  destruct (push_value_sound text f H) as (v & rest & Ht & Hn & Hv & ->).
  exists ("Push(" ++ v ++ ")"), rest.
  split; [rewrite Ht, !append_associative; reflexivity|].
  split; [discriminate|].
  split.
  { cbn [Regex.matched].
    change ("Push(" ++ v ++ ")")
      with (String "P" (String "u" (String "s" (String "h"
             (String "(" (v ++ ")")))))).
    simpl String.length. rewrite length_append. simpl. lia. }
  intros rest'. rewrite !append_associative.
  apply (push_value_head v rest' Hn Hv).
Qed.

(** What the template of a push reads as, for a value without angle
    brackets. *)
Lemma push_template_reads v rest :
  Markup.tag_free v = true ->
  Markup.erase false
    (Highlight.push_template {| Regex.groups := [v]; Regex.matched := 0 |} ++ rest)
  = "Push(" ++ v ++ ")" ++ Markup.erase false rest
  /\ Markup.after false
       (Highlight.push_template {| Regex.groups := [v]; Regex.matched := 0 |}
        ++ rest)
     = Markup.after false rest.
Proof.
  intros Hv. unfold Highlight.push_template, Regex.group.
  cbn [Regex.groups nth].
  destruct (span_reads "bytecode-value" v (")" ++ rest)
              (class_ok _ ltac:(simpl; tauto)) Hv) as (Se & Sa & _).
  rewrite !append_associative.
  change (Markup.erase false
            ("Push(" ++ Highlight.span_of "bytecode-value" v ++ ")" ++ rest))
    with ("Push("
          ++ Markup.erase false
               (Highlight.span_of "bytecode-value" v ++ ")" ++ rest)).
  change (Markup.after false
            ("Push(" ++ Highlight.span_of "bytecode-value" v ++ ")" ++ rest))
    with (Markup.after false
            (Highlight.span_of "bytecode-value" v ++ ")" ++ rest)).
  rewrite Se, Sa. split; reflexivity.
Qed.

Lemma tag_free_app a b :
  Markup.tag_free (a ++ b) = Markup.tag_free a && Markup.tag_free b.
Proof. apply all_chars_app. Qed.

(** An operator name that stands in the instruction stands, in one piece,
    in what the push pass makes of it: either outside every push, or inside
    the value of one, which the template gives back as it is.  What stands
    before it reads, tags apart, as before. *)
Lemma replace_push_keeps_name n :
  forall pre name post,
    (String.length pre <= n)%nat ->
    In name Regex.operator_names ->
    exists a1 b1,
      Highlight.replace_push (pre ++ name ++ post) = a1 ++ name ++ b1
      /\ (Markup.tag_free pre = true ->
          Markup.erase false a1 = pre /\ Markup.after false a1 = false).
Proof.
  induction n as [|n IH]; intros pre name post Hlen Hin;
    destruct (operator_name_shape name Hin)
      as (c0 & t0 & Hname & Hcap & _ & Hfree & Hparen & HnoP).
  - destruct pre; [|simpl in Hlen; lia].
    exists EmptyString, (Highlight.replace_push post).
    split; [|intros _; split; reflexivity].
    apply (replace_prefix _ _ (fun c => Ascii.eqb c "P") push_starts name post HnoP).
  - destruct pre as [|c r].
    { exists EmptyString, (Highlight.replace_push post).
      split; [|intros _; split; reflexivity].
      apply (replace_prefix _ _ (fun c => Ascii.eqb c "P") push_starts
               name post HnoP). }
    destruct (Regex.push_value (String c r ++ name ++ post)) as [f|] eqn:E.
    + destruct (push_value_sound _ _ E) as (v & rest & Ht & Hv & Hvp & Hf).
      (* the text starts with the five characters of the keyword, none of
         which starts an operator name *)
      assert (Hpre : exists r', String c r = "Push(" ++ r'
                                /\ r' ++ name ++ post = v ++ ")" ++ rest).
      { rewrite Hname in Ht.
        destruct r as [|c2 [|c3 [|c4 [|c5 r']]]]; simpl in Ht;
          inversion Ht; subst;
          try (simpl in Hcap; discriminate Hcap).
        exists r'. split; [reflexivity | assumption]. }
      destruct Hpre as (r' & Hr & Ht').
      assert (S1 : Js.span (Regex.is_not ")") (v ++ ")" ++ rest)
                   = (v, ")" ++ rest)).
      { rewrite (span_app _ v _ Hvp). simpl. rewrite append_empty_r. reflexivity. }
      rewrite <- Ht' in S1.
      destruct (Js.span (Regex.is_not ")") r') as [v' t'] eqn:S2.
      destruct (span_spec _ _ _ _ S2) as (Hr' & Hv' & Hstop).
      destruct t' as [|x t''].
      * (* no closing parenthesis before the name: the name is inside
           the value *)
        rewrite append_empty_r in Hr'. subst v'.
        rewrite (span_app _ r' _ Hv'), (span_app _ name _ Hparen) in S1.
        cbn [fst snd] in S1. inversion S1 as [[Hv1 Hv2]].
        destruct (Js.span (Regex.is_not ")") post) as [v2 tl2] eqn:S3.
        destruct (span_spec _ _ _ _ S3) as (Hpost & _ & _).
        cbn [fst snd] in Hv1, Hv2.
        exists ("Push(<span class=" ++ Js.quoted "bytecode-value" ++ ">" ++ r'),
          (v2 ++ "</span>)" ++ Highlight.replace_push rest).
        split.
        -- unfold Highlight.replace_push.
           rewrite Ht.
           assert (Hm : "Push(" ++ v ++ ")" ++ rest = ("Push(" ++ v ++ ")") ++ rest)
             by (rewrite !append_associative; reflexivity).
           rewrite Hm.
           rewrite (replace_match _ _ ("Push(" ++ v ++ ")") rest f).
           ++ rewrite Hf. unfold Highlight.push_template, Highlight.span_of, Regex.group.
              cbn [Regex.groups nth]. rewrite <- Hv1.
              rewrite !append_associative. reflexivity.
           ++ rewrite <- Hm, <- Ht. exact E.
           ++ discriminate.
           ++ rewrite Hf. cbn [Regex.matched].
              change ("Push(" ++ v ++ ")")
                with (String "P" (String "u" (String "s" (String "h"
                       (String "(" (v ++ ")")))))).
              simpl String.length. rewrite length_append. simpl. lia.
        -- intros Hfree'. rewrite Hr in Hfree'.
           rewrite tag_free_app in Hfree'. apply andb_true_iff in Hfree'.
           destruct Hfree' as [_ Hfr].
           destruct (tag_free_reads r' Hfr) as (Re & Ra & _).
           rewrite Hr.
           change (Markup.erase false
                     ("Push(<span class=" ++ Js.quoted "bytecode-value" ++ ">" ++ r'))
             with ("Push(" ++ Markup.erase false r').
           change (Markup.after false
                     ("Push(<span class=" ++ Js.quoted "bytecode-value" ++ ">" ++ r'))
             with (Markup.after false r').
           rewrite Re, Ra. split; reflexivity.
      * (* the push ends before the name *)
        assert (Hx : x = ")"%char).
        { specialize (Hstop x t'' eq_refl). unfold Regex.is_not in Hstop.
          apply negb_false_iff in Hstop. apply Ascii.eqb_eq in Hstop. exact Hstop. }
        subst x.
        assert (S4 : Js.span (Regex.is_not ")") (r' ++ name ++ post)
                     = (v', ")" ++ t'' ++ name ++ post)).
        { rewrite Hr', append_associative.
          rewrite (span_app _ v' _ Hv'). simpl. rewrite append_empty_r.
          reflexivity. }
        rewrite S4 in S1. inversion S1 as [[Hv1 Hv2]].
        assert (Hlen' : (String.length t'' <= n)%nat).
        { rewrite Hr in Hlen. rewrite Hr' in Hlen.
          simpl in Hlen. rewrite length_append in Hlen. simpl in Hlen. lia. }
        destruct (IH t'' name post Hlen' Hin) as (a' & b' & Hrep & Hread).
        exists (Highlight.push_template f ++ a'), b'.
        split.
        -- unfold Highlight.replace_push in *. rewrite Ht.
           assert (Hm : "Push(" ++ v ++ ")" ++ rest = ("Push(" ++ v ++ ")") ++ rest)
             by (rewrite !append_associative; reflexivity).
           rewrite Hm.
           rewrite (replace_match _ _ ("Push(" ++ v ++ ")") rest f).
           ++ rewrite <- Hv2, Hrep, !append_associative. reflexivity.
           ++ rewrite <- Hm, <- Ht. exact E.
           ++ discriminate.
           ++ rewrite Hf. cbn [Regex.matched].
              change ("Push(" ++ v ++ ")")
                with (String "P" (String "u" (String "s" (String "h"
                       (String "(" (v ++ ")")))))).
              simpl String.length. rewrite length_append. simpl. lia.
        -- intros Hfree'. rewrite Hr, Hr' in Hfree'.
           rewrite !tag_free_app in Hfree'.
           apply andb_true_iff in Hfree'. destruct Hfree' as [_ Hfree'].
           apply andb_true_iff in Hfree'. destruct Hfree' as [Hfv Hfree'].
           apply andb_true_iff in Hfree'. destruct Hfree' as [_ Hft].
           destruct (Hread Hft) as [Ae Aa].
           assert (Hfv' : Markup.tag_free v = true) by (rewrite <- Hv1; exact Hfv).
           destruct (push_template_reads v a' Hfv') as (Te & Ta).
           rewrite Hf. unfold Highlight.push_template, Regex.group in *.
           cbn [Regex.groups nth] in *.
           rewrite Te, Ta, Ae, Aa, Hr, Hr', <- Hv1.
           split; reflexivity.
    + assert (Hlen' : (String.length r <= n)%nat) by (simpl in Hlen; lia).
      destruct (IH r name post Hlen' Hin) as (a' & b' & Hrep & Hread).
      exists (String c a'), b'. split.
      * unfold Highlight.replace_push in *.
        change (String c r ++ name ++ post) with (String c (r ++ name ++ post)) in *.
        rewrite (replace_no_match _ _ c _ E), Hrep. reflexivity.
      * intros Hfree'.
        destruct (tag_free_step false c r (conj eq_refl Hfree')) as [Hnext Hfr].
        destruct (Hread Hfr) as [Ae Aa].
        unfold Markup.next in Hnext.
        simpl. unfold Markup.next. rewrite Hnext. simpl.
        rewrite Ae, Aa. split; reflexivity.
Qed.

(** *** The whole of [highlightBytecode] *)

(** The three later passes on a text in which no capital is inside a tag:
    what is outside tags stays, and so does whether the text ends inside a
    tag. *)
Lemma later_passes_read s :
  Markup.tame false s = true ->
  let s' :=
    Highlight.replace_variables
      (Highlight.replace_jumps (Highlight.replace_operators s)) in
  Markup.erase false s' = Markup.erase false s
  /\ Markup.after false s' = Markup.after false s.
Proof.
  intros H. cbv zeta.
  destruct (replace_preserves Regex.operator Highlight.operator_template
              (fun b t => Markup.tame b t = true) tame_step
              ltac:(no_match_inside operator_needs_initial)
              operator_faithful (String.length s) s false (le_n _) H)
    as (E1 & A1 & T1).
  specialize (T1 H).
  destruct (replace_preserves Regex.jump Highlight.jump_template
              (fun b t => Markup.tame b t = true) tame_step
              ltac:(no_match_inside jump_starts)
              jump_faithful _ _ false (le_n _) T1)
    as (E2 & A2 & T2).
  specialize (T2 T1).
  destruct (replace_preserves Regex.variable Highlight.variable_template
              (fun b t => Markup.tame b t = true) tame_step
              ltac:(no_match_inside variable_starts)
              variable_faithful _ _ false (le_n _) T2)
    as (E3 & A3 & _).
  unfold Highlight.replace_variables, Highlight.replace_jumps,
    Highlight.replace_operators in *.
  rewrite E3, E2, E1, A3, A2, A1. split; reflexivity.
Qed.

(** The later passes on the three parts the operator pass has made. *)
Lemma later_passes_at a name b :
  In name Regex.operator_names ->
  Highlight.replace_variables
    (Highlight.replace_jumps
       (Highlight.replace_operators (a ++ name ++ b)))
  = Highlight.replace_variables
      (Highlight.replace_jumps (Highlight.replace_operators a))
    ++ Highlight.span_of "bytecode-op" name
    ++ Highlight.replace_variables
         (Highlight.replace_jumps (Highlight.replace_operators b)).
Proof.
  intros Hin. rewrite (replace_operators_at a name b Hin).
  set (a2 := Highlight.replace_operators a).
  set (b2 := Highlight.replace_operators b).
  assert (Hw : forall rest,
             Highlight.span_of "bytecode-op" name ++ rest
             = String "<" ("span class=" ++ Js.quoted "bytecode-op" ++ ">"
                           ++ name ++ "</span>" ++ rest)).
  { intros rest. unfold Highlight.span_of. rewrite !append_associative.
    reflexivity. }
  rewrite (Hw b2), replace_jumps_split, <- (Hw b2).
  rewrite (replace_jumps_wrapped name b2 Hin).
  set (a3 := Highlight.replace_jumps a2).
  set (b3 := Highlight.replace_jumps b2).
  assert (Hv : forall rest,
             Highlight.span_of "bytecode-op" name ++ rest
             = "<span class="
               ++ String Js.dquote
                    ("bytecode-op"
                     ++ String Js.dquote (">" ++ name ++ "</span>" ++ rest))).
  { intros rest. unfold Highlight.span_of, Js.quoted.
    rewrite !append_associative. simpl. rewrite ?append_associative.
    reflexivity. }
  rewrite (Hv b3).
  rewrite (replace_variables_split a3 "bytecode-op" _
             ltac:(discriminate) eq_refl).
  rewrite <- (Hv b3), (replace_variables_wrapped name b3 Hin). reflexivity.
Qed.

(** C8, amended.  [highlightBytecode] wraps every occurrence of one of the
    five operator names, with no test of what stands before or after it:
    whatever the instruction holds before an occurrence and behind it, the
    markup holds that occurrence wrapped as an operator, and for an
    instruction without angle brackets what stands before the wrapped name
    reads, tags apart, as what stood before the name, and likewise behind
    it.  In the operator pass itself the name is wrapped and the pass goes
    on behind it, with the text before it treated on its own.  Matching is
    case-sensitive: text without the capitals A, S, M, D and N is left as
    it is by the operator pass. *)
Theorem C8_operator_tagged_wherever_met :
  forall pre name post : string,
    In name Regex.operator_names ->
    (exists a b,
        Highlight.highlightBytecode (pre ++ name ++ post)
        = a ++ Highlight.span_of "bytecode-op" name ++ b
        /\ (Markup.tag_free (pre ++ name ++ post) = true ->
            Markup.erase_tags a = pre
            /\ Markup.after false a = false
            /\ Markup.erase_tags b = post))
    /\ Highlight.replace_operators (pre ++ name ++ post)
       = Highlight.replace_operators pre
         ++ Highlight.span_of "bytecode-op" name
         ++ Highlight.replace_operators post
    /\ (Props.no_initial pre = true -> Highlight.replace_operators pre = pre).
Proof.
  intros pre name post Hin.
  split; [|split; [apply (replace_operators_at pre name post Hin)
                  | apply replace_operators_identity]].
  destruct (replace_push_keeps_name (String.length pre) pre name post
              (le_n _) Hin) as (a1 & b1 & Hpush & Hread).
  exists (Highlight.replace_variables
            (Highlight.replace_jumps (Highlight.replace_operators a1))),
    (Highlight.replace_variables
       (Highlight.replace_jumps (Highlight.replace_operators b1))).
  split.
  - unfold Highlight.highlightBytecode. rewrite Hpush.
    apply (later_passes_at a1 name b1 Hin).
  - intros Hfree. unfold Markup.erase_tags.
    destruct (operator_name_shape name Hin) as (_ & _ & _ & _ & _ & Hnf & _).
    destruct (push_pass_preserves _ Hfree) as [Pe Pt].
    rewrite Hpush in Pe, Pt.
    pose proof Hfree as Hfree'. rewrite tag_free_app in Hfree'.
    apply andb_true_iff in Hfree'. destruct Hfree' as [Hfpre _].
    destruct (Hread Hfpre) as [Ae Aa].
    pose proof Pt as Pt'. rewrite tame_app in Pt'.
    apply andb_true_iff in Pt'. destruct Pt' as [Ta1 Trest].
    destruct (later_passes_read a1 Ta1) as [La Lb]. cbv zeta in La, Lb.
    rewrite La, Lb, Ae, Aa.
    split; [reflexivity|]. split; [reflexivity|].
    (* what stands behind: the whole reads as the instruction *)
    rewrite Aa in Trest.
    destruct (tag_free_reads name Hnf) as (Ne & Na & _).
    rewrite tame_app, Na in Trest.
    apply andb_true_iff in Trest. destruct Trest as [_ Tb1].
    destruct (later_passes_read b1 Tb1) as [Lc _]. cbv zeta in Lc.
    rewrite Lc.
    rewrite erase_app, Aa, erase_app, Ne, Na, Ae in Pe.
    apply append_injective in Pe. apply append_injective in Pe. exact Pe.
Qed.

Lemma C8_witness :
  In "Add" Regex.operator_names
  /\ Highlight.replace_operators "Nop Add"
     = "Nop " ++ Highlight.span_of "bytecode-op" "Add"
  /\ Highlight.highlightBytecode ("StoreVariable(" ++ Js.quoted "Addend" ++ ")")
     = "StoreVariable(" ++ String Js.dquote EmptyString
       ++ Highlight.span_of "bytecode-op" "Add"
       ++ "end" ++ String Js.dquote ")"
  /\ Highlight.replace_operators "negate add" = "negate add".
Proof.
  assert (Hn : In "Add" Regex.operator_names) by (simpl; tauto).
  split; [exact Hn|]. split; [|split].
  - exact (proj1 (proj2 (C8_operator_tagged_wherever_met "Nop " "Add" "" Hn))).
  - destruct (proj1 (C8_operator_tagged_wherever_met
                       ("StoreVariable(" ++ String Js.dquote EmptyString)
                       "Add" ("end" ++ String Js.dquote ")") Hn))
      as (a & b & _ & _).
    reflexivity.
  - exact (proj2 (proj2 (C8_operator_tagged_wherever_met "negate add" "Add" ""
                           Hn)) eq_refl).
Defined.

(** ** Transport errors and bodies of an unexpected shape *)

(** X18.  An attempt on a non-empty text whose [fetch] or [json()] rejects
    is reported, not retried: one request has been sent, the error panel
    shows the message of the rejection behind a fixed prefix, both panels
    show the connection-failure texts, the registry and the editor carry no
    error highlighting, and the button is enabled again.  This holds of the
    CodeMirror script and, with its own wording, of [script.js]. *)
Theorem rejected_attempt_is_reported :
  (forall (st : Controller.state) (message : string),
     Props.tracked st ->
     Js.trim (Editor.getValue (Controller.editor st)) <> EmptyString ->
     let st' :=
       Controller.run
         [Controller.CtrlEnter; Controller.Settle (Net.Rejected message)] st in
     Controller.errorContent st' = "Network error: " ++ message
     /\ Controller.errorPanel_display st' = "block"
     /\ Controller.resultOutput st'
        = Controller.TextContent Controller.unreachable_result
     /\ Controller.bytecodeOutput st'
        = Controller.TextContent Controller.unreachable_bytecode
     /\ Controller.errorMarkers st' = []
     /\ Editor.line_classes (Controller.editor st') = []
     /\ Editor.text_marks (Controller.editor st') = []
     /\ Controller.compileBtn_disabled st' = false
     /\ List.length (Controller.network st')
        = S (List.length (Controller.network st)))
  /\ (forall (st : Script.state) (message : string),
        Js.trim (Script.sourceCode_value st) <> EmptyString ->
        let st' :=
          Script.run [Script.CtrlEnter; Script.Settle (Net.Rejected message)] st in
        Script.errorContent st'
        = "Connection error: " ++ message
          ++ String Js.newline (String Js.newline EmptyString)
          ++ "Please ensure the compiler server is running on "
          ++ Script.server
        /\ Script.errorPanel_display st' = "block"
        /\ Script.resultOutput st' = Script.unreachable_result
        /\ Script.bytecodeOutput st' = Script.unreachable_bytecode
        /\ Script.compileBtn_disabled st' = false
        /\ List.length (Script.network st')
           = S (List.length (Script.network st))).
Proof.
  split.
  - intros st message Ht Hn. cbv zeta.
    destruct (clearErrorMarkers_clears_view st Ht) as [Hl Hm].
    unfold Controller.run. cbn [fold_left].
    change (Controller.step Controller.CtrlEnter st)
      with (snd (Controller.compile st)).
    rewrite (compile_nonempty st Hn). cbn [snd].
    rewrite step_settle by discriminate.
    repeat split; try reflexivity; simpl; try assumption.
    rewrite length_app. simpl. lia.
  - intros st message Hn. cbv zeta.
    unfold Script.run. cbn [fold_left].
    change (Script.step Script.CtrlEnter st) with (snd (Script.compile st)).
    rewrite (script_compile_nonempty st Hn). cbn [snd].
    rewrite script_step_settle by discriminate.
    repeat split; try reflexivity. simpl. rewrite length_app. simpl. lia.
Qed.

Lemma rejected_attempt_witness :
  Props.tracked Props.after_failure
  /\ Controller.errorContent
       (Controller.run
          [Controller.CtrlEnter;
           Controller.Settle (Net.Rejected "Failed to fetch")]
          Props.after_failure)
     = "Network error: Failed to fetch"
  /\ Controller.errorMarkers
       (Controller.run
          [Controller.CtrlEnter;
           Controller.Settle (Net.Rejected "Failed to fetch")]
          Props.after_failure) = [].
Proof.
  assert (Ht : Props.tracked Props.after_failure)
    by (apply run_tracked, loaded_tracked).
  assert (Hn : Js.trim (Editor.getValue (Controller.editor Props.after_failure))
               <> EmptyString) by (vm_compute; discriminate).
  split; [exact Ht|].
  destruct (proj1 rejected_attempt_is_reported Props.after_failure
              "Failed to fetch" Ht Hn) as (He & _ & _ & _ & Hm & _).
  split; [exact He | exact Hm].
Defined.

(** X19.  A body that decodes to something other than an object is not
    refused.  A string, a number, a boolean or an array has none of the
    three properties, so it is rendered as a success without output: the
    result placeholder and the bytecode placeholder, the error panel left
    alone.  The body [null] makes the first property access throw and ends
    in the [catch] block with the connection-failure texts. *)
Theorem non_object_body :
  forall (data : Js.jsval) (st : Controller.state),
    (More.not_an_object data = true ->
     let st' := Controller.compile_resume (Net.Json data) st in
     Controller.resultOutput st'
     = Controller.InnerHTML (Controller.result_markup Controller.no_output)
     /\ Controller.bytecodeOutput st'
        = Controller.InnerHTML Highlight.no_bytecode
     /\ Controller.errorPanel_display st' = Controller.errorPanel_display st
     /\ Controller.errorContent st' = Controller.errorContent st)
    /\ (data = Js.JNull ->
        let st' := Controller.compile_resume (Net.Json data) st in
        (exists message,
            Controller.errorContent st' = "Network error: " ++ message)
        /\ Controller.errorPanel_display st' = "block"
        /\ Controller.resultOutput st'
           = Controller.TextContent Controller.unreachable_result
        /\ Controller.bytecodeOutput st'
           = Controller.TextContent Controller.unreachable_bytecode).
Proof.
  intros data st. split.
  - intros H. cbv zeta.
    destruct data; try discriminate H; repeat split.
  - intros ->. cbv zeta. split; [eexists; reflexivity | repeat split].
Qed.

Lemma non_object_body_witness :
  More.not_an_object (Js.JArr []) = true
  /\ Controller.resultOutput
       (Controller.compile_resume (Net.Json (Js.JArr [])) Props.in_flight)
     = Controller.InnerHTML (Controller.result_markup Controller.no_output).
Proof.
  split; [reflexivity|].
  exact (proj1 (proj1 (non_object_body (Js.JArr []) Props.in_flight) eq_refl)).
Defined.

(** X20.  An [error] that is truthy but not a string (a number, [true], an
    array, an object) divides the two scripts.  The CodeMirror script shows
    its text, then fails to call [match] on it and ends in the [catch]
    block: the error panel is overwritten with a network error and the
    panels show the connection-failure texts.  [script.js], which does not
    look for a location, shows the text and the failure placeholders. *)
Theorem non_string_error :
  forall (fields : list (string * Js.jsval)) (error : Js.jsval) (text : string),
    Js.own_property "error" fields = Some error ->
    Js.truthy error = true ->
    More.is_string error = false ->
    Js.toString error = Js.Normal text ->
    (forall st : Controller.state,
       let st' := Controller.compile_resume (Net.Json (Js.JObj fields)) st in
       (exists message,
           Controller.errorContent st' = "Network error: " ++ message)
       /\ Controller.resultOutput st'
          = Controller.TextContent Controller.unreachable_result
       /\ Controller.bytecodeOutput st'
          = Controller.TextContent Controller.unreachable_bytecode
       /\ Controller.errorMarkers st' = Controller.errorMarkers st)
    /\ (forall st : Script.state,
          let st' := Script.compile_resume (Net.Json (Js.JObj fields)) st in
          Script.errorContent st' = text
          /\ Script.resultOutput st' = Script.failed_result
          /\ Script.bytecodeOutput st' = Script.failed_bytecode).
Proof.
  intros fields error text Hf Ht Hs Hc. split; intros st; cbv zeta.
  - unfold Controller.compile_resume, Controller.try_block,
      Controller.showErrorWithHighlighting, Controller.showError_value,
      Stmt.bind, Stmt.eval, Stmt.effect, Js.get.
    rewrite Hf, Ht, Hc.
    destruct error; try discriminate Hs; try discriminate Ht;
      (split; [eexists; reflexivity | repeat split]).
  - unfold Script.compile_resume, Script.try_block, Script.showError_value,
      Stmt.bind, Stmt.eval, Stmt.effect, Js.get.
    rewrite Hf, Ht, Hc. repeat split.
Qed.

Lemma non_string_error_witness :
  Js.toString (Js.JNum (Js.num_of_Z 500)) = Js.Normal "500"
  /\ Script.errorContent
       (Script.compile_resume
          (Net.Json (Js.JObj [("error", Js.JNum (Js.num_of_Z 500))]))
          (Script.loaded "x;")) = "500"
  /\ Controller.resultOutput
       (Controller.compile_resume
          (Net.Json (Js.JObj [("error", Js.JNum (Js.num_of_Z 500))]))
          Props.in_flight)
     = Controller.TextContent Controller.unreachable_result.
Proof.
  split; [reflexivity|].
  destruct (non_string_error [("error", Js.JNum (Js.num_of_Z 500))]
              (Js.JNum (Js.num_of_Z 500)) "500"
              eq_refl eq_refl eq_refl eq_refl) as [Hc Hs].
  split.
  - exact (proj1 (Hs (Script.loaded "x;"))).
  - exact (proj1 (proj2 (Hc Props.in_flight))).
Defined.
